(** * Ledger and billing engine of the influbee backend

    A shallow embedding of the money-moving code of the NestJS backend:

    - [BillingService]   (src/billing/billing.service.ts)
    - [WalletService]    (backend/src/wallet/wallet.service.ts)
    - [GooglePayService] (google-pay.service.ts, top-up and withdrawal)
    - [AuthService.register] (src/auth/auth.service.ts)

    The Prisma store is modelled as explicit state: the tables [users],
    [accounts], [transactions] and [entries] are lists in insertion order
    ([findFirst] returns the first row that passes its filter), every
    service method is a function from a store to an outcome and a store,
    and [prisma_transaction] restores the store it started from when its
    body throws.

    Conventions of the embedding.
    - Amounts are integers ([Z]) in minor units (paisa), as the comments of
      the source say they are stored; the product [amount * 0.9] and the
      quotient [duration / 60] are taken in exact rationals before
      [Math.floor] / [Math.ceil] are applied.
    - Row ids, which Prisma generates, are drawn from the counter
      [next_id]; only their freshness matters.
    - Clock and random readings ([Date.now()], [Math.random()]) that end up
      in an idempotency key are passed in as strings.
    - Columns that no ledger operation reads (currency, isActive,
      timestamps, metadata, password hash) are left out, as are the logger
      and the balance push over the socket, which runs after the commit
      and touches no table. *)

From Stdlib Require Import ZArith List String Bool Lia QArith Qround.
Import ListNotations.
Open Scope Z_scope.

(** ** Schema (prisma/migrations/20250710155156_init/migration.sql) *)

Inductive UserRole := USER | INFLUENCER.

Inductive AccountType :=
  USER_WALLET | INFLUENCER_WALLET | REVENUE | ESCROW | PAYMENT_GATEWAY_LIABILITY.

Inductive TransactionType :=
  CALL_PAYMENT | CHAT_PAYMENT | TOP_UP | REFUND | WITHDRAWAL | HOLD_FUNDS | SETTLE_FUNDS.

Inductive TransactionStatus := PENDING | HELD | COMPLETED | FAILED | CANCELLED.

Inductive EntryDirection := DEBIT | CREDIT.

Inductive CallType := VOICE | VIDEO.

Definition Id := nat.

Record User := mkUser {
  user_id : Id;
  user_email : string;
  user_username : string;
  user_role : UserRole;
  user_displayName : string
}.

Record Account := mkAccount {
  acc_id : Id;
  acc_userId : option Id;
  accountType : AccountType;
  balance : Z
}.

Record Transaction := mkTransaction {
  tx_id : Id;
  idempotencyKey : option string;
  tx_type : TransactionType;
  tx_status : TransactionStatus;
  referenceId : option string;
  tx_userId : option Id;
  tx_amount : Z
}.

Record Entry := mkEntry {
  entry_id : Id;
  transactionId : Id;
  accountId : Id;
  amount : Z;
  direction : EntryDirection
}.

Record Db := mkDb {
  users : list User;
  accounts : list Account;
  transactions : list Transaction;
  entries : list Entry;
  next_id : Id
}.

Definition empty_db : Db := mkDb [] [] [] [] 0%nat.

Definition AccountType_eqb (a b : AccountType) : bool :=
  match a, b with
  | USER_WALLET, USER_WALLET | INFLUENCER_WALLET, INFLUENCER_WALLET
  | REVENUE, REVENUE | ESCROW, ESCROW
  | PAYMENT_GATEWAY_LIABILITY, PAYMENT_GATEWAY_LIABILITY => true
  | _, _ => false
  end.

Definition UserRole_eqb (a b : UserRole) : bool :=
  match a, b with
  | USER, USER | INFLUENCER, INFLUENCER => true
  | _, _ => false
  end.

Definition opt_Id_eqb (a : option Id) (b : Id) : bool :=
  match a with Some x => Nat.eqb x b | None => false end.

Definition opt_string_eqb (a b : option string) : bool :=
  match a, b with
  | Some x, Some y => String.eqb x y
  | _, _ => false
  end.

(** ** Exceptions thrown by the services *)

Inductive Message :=
  | Insufficient_balance_for_message
  | Receiver_account_not_found
  | Insufficient_balance_for_call
  | User_account_not_found
  | Required_accounts_not_found
  | Insufficient_balance
  | Minimum_topup_amount_is (minAmount : Z)
  | Payment_verification_failed
  | Minimum_withdrawal_amount_is (minAmount : Z)
  | Maximum_withdrawal_amount_is (maxAmount : Z)
  | Insufficient_balance_for_withdrawal
  | User_wallet_not_found
  | User_already_exists
  | Unique_constraint_idempotencyKey.

Inductive Exception :=
  | BadRequestException (m : Message)
  | ConflictException (m : Message)
  | Error (m : Message)
  | PrismaClientKnownRequestError (m : Message).

(** ** Computations over the store

    An outcome carries the store even when it is an exception: writes made
    outside of [prisma_transaction] before a throw stay persisted. *)

Definition M (A : Type) : Type := Db -> (Exception + A) * Db.

Definition ret {A} (a : A) : M A := fun s => (inr a, s).

Definition throw {A} (e : Exception) : M A := fun s => (inl e, s).

Definition bind {A B} (m : M A) (k : A -> M B) : M B :=
  fun s =>
    match m s with
    | (inl e, s') => (inl e, s')
    | (inr a, s') => k a s'
    end.

Notation "x <- m ;; k" := (bind m (fun x => k))
  (at level 61, m at next level, right associativity).
Notation "m ;;; k" := (bind m (fun _ => k))
  (at level 61, right associativity).

(** [prisma.$transaction(async tx => ...)]: all writes of the body, or
    none of them. *)
Definition prisma_transaction {A} (body : M A) : M A :=
  fun s =>
    match body s with
    | (inl e, _) => (inl e, s)
    | (inr a, s') => (inr a, s')
    end.

(** [wp m Q s]: the outcome and the store that [m] produces from [s]
    satisfy [Q]. *)
Definition wp {A} (m : M A) (Q : Exception + A -> Db -> Prop) (s : Db) : Prop :=
  Q (fst (m s)) (snd (m s)).

(** ** Prisma client calls used by the services *)

Definition fresh_id : M Id :=
  fun s => (inr (next_id s),
            mkDb (users s) (accounts s) (transactions s) (entries s) (S (next_id s))).

Definition user_findFirst (p : User -> bool) : M (option User) :=
  fun s => (inr (find p (users s)), s).

Definition user_create (e u : string) (r : UserRole) (d : string) : M User :=
  i <- fresh_id ;;
  fun s =>
    let row := mkUser i e u r d in
    (inr row, mkDb (users s ++ [row]) (accounts s) (transactions s) (entries s) (next_id s)).

(** [account.findFirst] carries no [orderBy]: when several rows match, the
    database is free to return any of them.  The model returns the first
    in table order; what is proved about a lookup either takes its result
    as given, or does not depend on which matching row it is, or is
    stated for a filter that matches one row only. *)
Definition account_findFirst (p : Account -> bool) : M (option Account) :=
  fun s => (inr (find p (accounts s)), s).

Definition account_create (u : option Id) (t : AccountType) (b : Z) : M Account :=
  i <- fresh_id ;;
  fun s =>
    let row := mkAccount i u t b in
    (inr row, mkDb (users s) (accounts s ++ [row]) (transactions s) (entries s) (next_id s)).

Definition set_balance (f : Z -> Z) (a : Account) : Account :=
  mkAccount (acc_id a) (acc_userId a) (accountType a) (f (balance a)).

Definition update_balance (i : Id) (f : Z -> Z) (rows : list Account) : list Account :=
  map (fun a => if Nat.eqb (acc_id a) i then set_balance f a else a) rows.

(** [account.update({ where: { id }, data: { balance: ... } })].  Every
    call site passes the id of a row read in the same unit. *)
Definition account_update (i : Id) (f : Z -> Z) : M unit :=
  fun s =>
    (inr tt,
     mkDb (users s) (update_balance i f (accounts s))
          (transactions s) (entries s) (next_id s)).

Definition increment (d : Z) : Z -> Z := fun b => b + d.
Definition decrement (d : Z) : Z -> Z := fun b => b - d.

(** [transaction.create]: the unique index on idempotencyKey rejects a key
    that is already stored; rows without a key never collide. *)
Definition transaction_create (k : option string) (t : TransactionType)
    (st : TransactionStatus) (ref : option string) (u : option Id) (amt : Z)
  : M Transaction :=
  fun s0 =>
    if existsb (fun t' => opt_string_eqb (idempotencyKey t') k) (transactions s0)
    then (inl (PrismaClientKnownRequestError Unique_constraint_idempotencyKey), s0)
    else
      (i <- fresh_id ;;
       fun s =>
         let row := mkTransaction i k t st ref u amt in
         (inr row,
          mkDb (users s) (accounts s) (transactions s ++ [row]) (entries s) (next_id s))) s0.

Definition set_status (st : TransactionStatus) (t : Transaction) : Transaction :=
  mkTransaction (tx_id t) (idempotencyKey t) (tx_type t) st (referenceId t)
                (tx_userId t) (tx_amount t).

Definition transaction_update_status (i : Id) (st : TransactionStatus) : M unit :=
  fun s =>
    (inr tt,
     mkDb (users s) (accounts s)
          (map (fun t => if Nat.eqb (tx_id t) i then set_status st t else t) (transactions s))
          (entries s) (next_id s)).

Definition entry_create (t a : Id) (amt : Z) (d : EntryDirection) : M Entry :=
  i <- fresh_id ;;
  fun s =>
    let row := mkEntry i t a amt d in
    (inr row, mkDb (users s) (accounts s) (transactions s) (entries s ++ [row]) (next_id s)).

(** ** JavaScript arithmetic on amounts *)

(** [Math.floor(x * 0.9)] for an integer amount [x]. *)
Definition Math_floor_times_0_9 (x : Z) : Z := Qfloor (inject_Z x * (9 # 10)).

(** [Math.ceil(x / 60)] for an integer number of seconds [x]. *)
Definition Math_ceil_div_60 (x : Z) : Z := Qceiling (inject_Z x / (60 # 1)).

(** [v || d] on a value read through [ConfigService.get].  The
    configuration is the .env file loaded as it is (app.module.ts), so a
    value that is set reaches the code as a non-empty string, which [||]
    keeps whatever number it spells, "0" included; only a missing value
    gives the default.  The products and comparisons the value goes into
    convert the string to its number. *)
Definition or_default (v : option Z) (d : Z) : Z :=
  match v with
  | Some x => x
  | None => d
  end.

(** Values read through [ConfigService.get]: [Some x] for a variable set
    to the numeral [x], [None] for one that is not set. *)
Record Config := mkConfig {
  PRICE_PER_MESSAGE : option Z;
  PRICE_PER_MINUTE_VOICE : option Z;
  PRICE_PER_MINUTE_VIDEO : option Z;
  MIN_TOPUP_AMOUNT : option Z;
  MIN_WITHDRAWAL_AMOUNT : option Z;
  MAX_WITHDRAWAL_AMOUNT : option Z
}.

Definition default_config : Config := mkConfig None None None None None None.

(** ** BillingService *)

Module BillingService.

Definition price_per_message (c : Config) : Z := or_default (PRICE_PER_MESSAGE c) 100.
Definition price_per_minute_voice (c : Config) : Z := or_default (PRICE_PER_MINUTE_VOICE c) 350.
Definition price_per_minute_video (c : Config) : Z := or_default (PRICE_PER_MINUTE_VIDEO c) 500.

Definition ratePerMinute (c : Config) (callType : CallType) : Z :=
  match callType with
  | VIDEO => price_per_minute_video c
  | VOICE => price_per_minute_voice c
  end.

Definition calculateActualCallCost (c : Config) (durationInSeconds : Z)
    (callType : CallType) : Z :=
  let durationInMinutes := Math_ceil_div_60 durationInSeconds in
  let ratePerMinute := ratePerMinute c callType in
  durationInMinutes * ratePerMinute.

End BillingService.

(** ** WalletService (backend/src/wallet/wallet.service.ts) *)

Module WalletService.

(** The filter [where: { userId }]. *)
Definition owned_by (userId : Id) (a : Account) : bool :=
  opt_Id_eqb (acc_userId a) userId.

Definition getBalance (userId : Id) : M Z :=
  account <- account_findFirst (owned_by userId) ;;
  ret (match account with Some a => balance a | None => 0 end).

Definition processMessageCharge (senderId receiverId : Id) (messageId : string)
  : M Transaction :=
  let MESSAGE_CHARGE := 100 in
  prisma_transaction (
    senderAccount <- account_findFirst (owned_by senderId) ;;
    match senderAccount with
    | None => throw (BadRequestException Insufficient_balance_for_message)
    | Some senderAccount =>
      if balance senderAccount <? MESSAGE_CHARGE
      then throw (BadRequestException Insufficient_balance_for_message)
      else
        receiverAccount <- account_findFirst (owned_by receiverId) ;;
        match receiverAccount with
        | None => throw (BadRequestException Receiver_account_not_found)
        | Some receiverAccount =>
          transaction <- transaction_create None CHAT_PAYMENT COMPLETED (Some messageId)
                           (Some senderId) MESSAGE_CHARGE ;;
          entry_create (tx_id transaction) (acc_id senderAccount) MESSAGE_CHARGE DEBIT ;;;
          entry_create (tx_id transaction) (acc_id receiverAccount) MESSAGE_CHARGE CREDIT ;;;
          account_update (acc_id senderAccount) (decrement MESSAGE_CHARGE) ;;;
          account_update (acc_id receiverAccount) (increment MESSAGE_CHARGE) ;;;
          ret transaction
        end
    end).

Definition holdFundsForCall (userId : Id) (estimatedAmount : Z) (callId : string)
  : M Transaction :=
  prisma_transaction (
    userAccount <- account_findFirst (owned_by userId) ;;
    match userAccount with
    | None => throw (BadRequestException Insufficient_balance_for_call)
    | Some userAccount =>
      if balance userAccount <? estimatedAmount
      then throw (BadRequestException Insufficient_balance_for_call)
      else
        transaction <- transaction_create None HOLD_FUNDS HELD (Some callId)
                         (Some userId) estimatedAmount ;;
        account_update (acc_id userAccount) (decrement estimatedAmount) ;;;
        ret transaction
    end).

Definition settleCallCharges (callId : string) (actualDuration : Z)
    (callType : CallType) (callerId receiverId : Id) : M Transaction :=
  let ratePerMinute := match callType with VIDEO => 500 | VOICE => 350 end in
  let actualCharge := Math_ceil_div_60 actualDuration * ratePerMinute in
  prisma_transaction (
    receiverAccount <- account_findFirst (owned_by receiverId) ;;
    match receiverAccount with
    | None => throw (BadRequestException Receiver_account_not_found)
    | Some receiverAccount =>
      transaction <- transaction_create None CALL_PAYMENT COMPLETED (Some callId)
                       (Some callerId) actualCharge ;;
      account_update (acc_id receiverAccount) (increment actualCharge) ;;;
      ret transaction
    end).

Definition refundHeldFunds (callId : string) (userId : Id) (refundAmount : Z)
  : M Transaction :=
  prisma_transaction (
    userAccount <- account_findFirst (owned_by userId) ;;
    match userAccount with
    | None => throw (BadRequestException User_account_not_found)
    | Some userAccount =>
      transaction <- transaction_create None REFUND COMPLETED (Some callId)
                       (Some userId) refundAmount ;;
      account_update (acc_id userAccount) (increment refundAmount) ;;;
      ret transaction
    end).

(** The 90% / 10% split of lines 274-276 and 384-386. *)
Definition split (amount : Z) : Z * Z :=
  let receiverAmount := Math_floor_times_0_9 amount in
  let revenueAmount := amount - receiverAmount in
  (receiverAmount, revenueAmount).

Definition wallet_of (userId : Id) (t : AccountType) (a : Account) : bool :=
  opt_Id_eqb (acc_userId a) userId && AccountType_eqb (accountType a) t.

Definition of_type (t : AccountType) (a : Account) : bool :=
  AccountType_eqb (accountType a) t.

(** [now] and [rnd] are the renderings of [Date.now()] and of
    [Math.random().toString(36).substring(7)]. *)
Definition processMessagePayment (now rnd : string) (senderId receiverId : Id)
    (amount : Z) : M unit :=
  let transactionId := ("msg_" ++ now ++ "_" ++ rnd)%string in
  prisma_transaction (
    senderAccount <- account_findFirst (wallet_of senderId USER_WALLET) ;;
    receiverAccount <- account_findFirst (wallet_of receiverId USER_WALLET) ;;
    revenueAccount <- account_findFirst (of_type REVENUE) ;;
    match senderAccount, receiverAccount, revenueAccount with
    | Some senderAccount, Some receiverAccount, Some revenueAccount =>
      if balance senderAccount <? amount
      then throw (Error Insufficient_balance)
      else
        let '(receiverAmount, revenueAmount) := split amount in
        transaction <- transaction_create (Some transactionId) CHAT_PAYMENT COMPLETED
                         None (Some senderId) amount ;;
        entry_create (tx_id transaction) (acc_id senderAccount) amount DEBIT ;;;
        entry_create (tx_id transaction) (acc_id receiverAccount) receiverAmount CREDIT ;;;
        entry_create (tx_id transaction) (acc_id revenueAccount) revenueAmount CREDIT ;;;
        account_update (acc_id senderAccount) (decrement amount) ;;;
        account_update (acc_id receiverAccount) (increment receiverAmount) ;;;
        account_update (acc_id revenueAccount) (increment revenueAmount)
    | _, _, _ => throw (Error Required_accounts_not_found)
    end).

Definition processCallPayment (now : string) (initiatorId receiverId : Id)
    (amount refundAmount : Z) (callId : string) : M unit :=
  let transactionId := ("call_" ++ callId ++ "_" ++ now)%string in
  prisma_transaction (
    initiatorAccount <- account_findFirst (wallet_of initiatorId USER_WALLET) ;;
    receiverAccount <- account_findFirst (wallet_of receiverId USER_WALLET) ;;
    revenueAccount <- account_findFirst (of_type REVENUE) ;;
    match initiatorAccount, receiverAccount, revenueAccount with
    | Some initiatorAccount, Some receiverAccount, Some revenueAccount =>
      let '(receiverAmount, revenueAmount) := split amount in
      transaction <- transaction_create (Some transactionId) CALL_PAYMENT COMPLETED
                       (Some callId) (Some initiatorId) amount ;;
      entry_create (tx_id transaction) (acc_id initiatorAccount) amount DEBIT ;;;
      entry_create (tx_id transaction) (acc_id receiverAccount) receiverAmount CREDIT ;;;
      entry_create (tx_id transaction) (acc_id revenueAccount) revenueAmount CREDIT ;;;
      account_update (acc_id initiatorAccount) (decrement amount) ;;;
      account_update (acc_id receiverAccount) (increment receiverAmount) ;;;
      account_update (acc_id revenueAccount) (increment revenueAmount) ;;;
      if 0 <? refundAmount
      then
        refundTransaction <- transaction_create (Some (transactionId ++ "_refund")%string)
                               REFUND COMPLETED (Some callId) (Some initiatorId)
                               refundAmount ;;
        entry_create (tx_id refundTransaction) (acc_id initiatorAccount) refundAmount CREDIT ;;;
        account_update (acc_id initiatorAccount) (increment refundAmount)
      else ret tt
    | _, _, _ => throw (Error Required_accounts_not_found)
    end).

End WalletService.

(** ** GooglePayService: top-up and withdrawal *)

Record PaymentResponse := mkPaymentResponse {
  token : string;
  token_type : string;
  description : string;
  payment_type : string
}.

Module GooglePayService.

(** Both branches of the mock verification return [true]. *)
Definition verifyPaymentWithGateway (paymentData : PaymentResponse) : M bool :=
  ret true.

Definition addMoneyToWallet (userId : Id) (amount : Z) (transactionId : Id) : M unit :=
  prisma_transaction (
    found <- account_findFirst (WalletService.wallet_of userId USER_WALLET) ;;
    userAccount <- match found with
                   | Some a => ret a
                   | None => account_create (Some userId) USER_WALLET 0
                   end ;;
    entry_create transactionId (acc_id userAccount) amount CREDIT ;;;
    account_update (acc_id userAccount) (increment amount)).

Definition processPayment (c : Config) (userId : Id) (amount : Z)
    (paymentData : PaymentResponse) (paymentMethod : string) : M Id :=
  let minAmount := or_default (MIN_TOPUP_AMOUNT c) 10000 in
  if amount <? minAmount
  then throw (BadRequestException (Minimum_topup_amount_is minAmount))
  else
    paymentVerified <- verifyPaymentWithGateway paymentData ;;
    if negb paymentVerified
    then throw (BadRequestException Payment_verification_failed)
    else
      transaction <- transaction_create None TOP_UP COMPLETED None (Some userId) amount ;;
      addMoneyToWallet userId amount (tx_id transaction) ;;;
      ret (tx_id transaction).

Definition deductMoneyFromWallet (userId : Id) (amount : Z) (transactionId : Id)
  : M unit :=
  prisma_transaction (
    userAccount <- account_findFirst (WalletService.wallet_of userId USER_WALLET) ;;
    match userAccount with
    | None => throw (BadRequestException User_wallet_not_found)
    | Some userAccount =>
      entry_create transactionId (acc_id userAccount) amount DEBIT ;;;
      account_update (acc_id userAccount) (decrement amount)
    end).

Definition processWithdrawal (c : Config) (userId : Id) (amount : Z)
    (withdrawalMethod : string) : M Id :=
  let minAmount := or_default (MIN_WITHDRAWAL_AMOUNT c) 50000 in
  let maxAmount := or_default (MAX_WITHDRAWAL_AMOUNT c) 10000000 in
  if amount <? minAmount
  then throw (BadRequestException (Minimum_withdrawal_amount_is minAmount))
  else if maxAmount <? amount
  then throw (BadRequestException (Maximum_withdrawal_amount_is maxAmount))
  else
    userBalance <- WalletService.getBalance userId ;;
    if userBalance <? amount
    then throw (BadRequestException Insufficient_balance_for_withdrawal)
    else
      transaction <- transaction_create None WITHDRAWAL PENDING None (Some userId) amount ;;
      deductMoneyFromWallet userId amount (tx_id transaction) ;;;
      transaction_update_status (tx_id transaction) COMPLETED ;;;
      ret (tx_id transaction).

End GooglePayService.

(** ** AuthService.register *)

Record RegisterDto := mkRegisterDto {
  dto_email : string;
  dto_username : string;
  dto_role : option UserRole;
  dto_displayName : option string
}.

Module AuthService.

Definition register (registerDto : RegisterDto) : M User :=
  let email := dto_email registerDto in
  let username := dto_username registerDto in
  let role := match dto_role registerDto with Some r => r | None => USER end in
  existingUser <- user_findFirst (fun u => String.eqb (user_email u) email
                                           || String.eqb (user_username u) username) ;;
  match existingUser with
  | Some _ => throw (ConflictException User_already_exists)
  | None =>
    prisma_transaction (
      user <- user_create email username role
                (match dto_displayName registerDto with
                 | Some d => if String.eqb d "" then username else d
                 | None => username
                 end) ;;
      account_create (Some (user_id user))
        (if UserRole_eqb role INFLUENCER then INFLUENCER_WALLET else USER_WALLET)
        (if UserRole_eqb role USER then 10000 else 0) ;;;
      ret user)
  end.

End AuthService.

(** ** Reading the books *)

Definition direction_eqb (a b : EntryDirection) : bool :=
  match a, b with
  | DEBIT, DEBIT | CREDIT, CREDIT => true
  | _, _ => false
  end.

(** Sum of the amounts of the entries of direction [d] in [es]. *)
Definition sum_of (d : EntryDirection) (es : list Entry) : Z :=
  fold_right (fun e acc => (if direction_eqb (direction e) d then amount e else 0) + acc) 0 es.

(** The entries of transaction [t]. *)
Definition entries_of_transaction (t : Id) (s : Db) : list Entry :=
  filter (fun e => Nat.eqb (transactionId e) t) (entries s).

Definition credits (t : Id) (s : Db) : Z := sum_of CREDIT (entries_of_transaction t s).
Definition debits (t : Id) (s : Db) : Z := sum_of DEBIT (entries_of_transaction t s).

(** CREDIT minus DEBIT over the entries of [es] against account [a]. *)
Definition net_of (a : Id) (es : list Entry) : Z :=
  sum_of CREDIT (filter (fun e => Nat.eqb (accountId e) a) es)
  - sum_of DEBIT (filter (fun e => Nat.eqb (accountId e) a) es).

Definition net_entries (a : Id) (s : Db) : Z := net_of a (entries s).

(** What the cached balance of each row exceeds its entry history by,
    listed over the accounts table. *)
Definition drifts_of (rows : list Account) (es : list Entry) : list (Id * Z) :=
  map (fun a => (acc_id a, balance a - net_of (acc_id a) es)) rows.

Definition drifts (s : Db) : list (Id * Z) := drifts_of (accounts s) (entries s).

(** The balance stored in the row with id [a]. *)
Definition balance_of (a : Id) (s : Db) : option Z :=
  option_map balance (find (fun r => Nat.eqb (acc_id r) a) (accounts s)).

Definition below (n : Id) (l : list Id) : Prop := Forall (fun i => (i < n)%nat) l.

(** Primary keys of accounts are unique, and every row id and every id an
    entry refers to was drawn from the counter. *)
Definition well_formed (s : Db) : Prop :=
  NoDup (map acc_id (accounts s))
  /\ below (next_id s) (map acc_id (accounts s))
  /\ below (next_id s) (map tx_id (transactions s))
  /\ below (next_id s) (map transactionId (entries s))
  /\ below (next_id s) (map accountId (entries s)).

(** Executable check of [well_formed]. *)
Fixpoint nodupb (l : list Id) : bool :=
  match l with
  | [] => true
  | x :: r => negb (existsb (Nat.eqb x) r) && nodupb r
  end.

Definition belowb (n : Id) (l : list Id) : bool := forallb (fun i => Nat.ltb i n) l.

Definition well_formedb (s : Db) : bool :=
  nodupb (map acc_id (accounts s))
  && belowb (next_id s) (map acc_id (accounts s))
  && belowb (next_id s) (map tx_id (transactions s))
  && belowb (next_id s) (map transactionId (entries s))
  && belowb (next_id s) (map accountId (entries s)).

(** Adding [d] to the difference recorded for account [i]. *)
Definition adjust (i : Id) (d : Z) (l : list (Id * Z)) : list (Id * Z) :=
  map (fun p => (fst p, if Nat.eqb (fst p) i then snd p + d else snd p)) l.

(** Accounts whose balance and entry history agree. *)
Definition zero_drifts (ids : list Id) : list (Id * Z) := map (fun i => (i, 0)) ids.

(** No stored transaction carries the idempotency key [k]. *)
Definition key_unused (k : string) (s : Db) : Prop :=
  existsb (fun t => opt_string_eqb (idempotencyKey t) (Some k)) (transactions s) = false.

(** Outcome and store of running [m] from [s]. *)
Definition run {A} (m : M A) (s : Db) : (Exception + A) * Db := m s.
Definition exec {A} (m : M A) (s : Db) : Db := snd (m s).

(** ** Requests

    The ledger operations a caller can invoke, and the store after a
    series of requests; a request that throws leaves whatever store its
    method leaves and the next request runs from there. *)

Inductive Operation :=
  | Register (registerDto : RegisterDto)
  | ProcessMessageCharge (senderId receiverId : Id) (messageId : string)
  | HoldFundsForCall (userId : Id) (estimatedAmount : Z) (callId : string)
  | SettleCallCharges (callId : string) (actualDuration : Z) (callType : CallType)
      (callerId receiverId : Id)
  | RefundHeldFunds (callId : string) (userId : Id) (refundAmount : Z)
  | ProcessMessagePayment (now rnd : string) (senderId receiverId : Id) (amount : Z)
  | ProcessCallPayment (now : string) (initiatorId receiverId : Id)
      (amount refundAmount : Z) (callId : string)
  | ProcessPayment (userId : Id) (amount : Z) (paymentData : PaymentResponse)
      (paymentMethod : string)
  | ProcessWithdrawal (userId : Id) (amount : Z) (withdrawalMethod : string).

Definition perform (c : Config) (op : Operation) : M unit :=
  match op with
  | Register dto => AuthService.register dto ;;; ret tt
  | ProcessMessageCharge a b m => WalletService.processMessageCharge a b m ;;; ret tt
  | HoldFundsForCall u a i => WalletService.holdFundsForCall u a i ;;; ret tt
  | SettleCallCharges i d k a b => WalletService.settleCallCharges i d k a b ;;; ret tt
  | RefundHeldFunds i u a => WalletService.refundHeldFunds i u a ;;; ret tt
  | ProcessMessagePayment n r a b g => WalletService.processMessagePayment n r a b g
  | ProcessCallPayment n a b g r i => WalletService.processCallPayment n a b g r i
  | ProcessPayment u a d m => GooglePayService.processPayment c u a d m ;;; ret tt
  | ProcessWithdrawal u a m => GooglePayService.processWithdrawal c u a m ;;; ret tt
  end.

Definition perform_all (c : Config) (ops : list Operation) (s : Db) : Db :=
  fold_left (fun st op => exec (perform c op) st) ops s.

(** The operations that write entries next to their balance updates. *)
Definition records_entries (op : Operation) : bool :=
  match op with
  | ProcessMessageCharge _ _ _ | ProcessMessagePayment _ _ _ _ _
  | ProcessCallPayment _ _ _ _ _ _ | ProcessPayment _ _ _ _
  | ProcessWithdrawal _ _ _ => true
  | _ => false
  end.

(** ** Scenario stores *)

Definition some_payment : PaymentResponse := mkPaymentResponse "tok-1" "PAYMENT_GATEWAY" "Visa 1111" "CARD".

(** A bootstrap store holding the singleton revenue account. *)
Definition bootstrap_db : Db :=
  exec (account_create None REVENUE 0) empty_db.

Definition alice_dto : RegisterDto := mkRegisterDto "a@x.io" "alice" (Some USER) None.
Definition bob_dto : RegisterDto := mkRegisterDto "b@x.io" "bob" (Some INFLUENCER) None.
Definition carol_dto : RegisterDto := mkRegisterDto "c@x.io" "carol" None None.

(** Revenue account 0; alice is user 1 with wallet 2 (USER, 10000);
    bob is user 3 with wallet 4 (INFLUENCER, 0); carol is user 5 with
    wallet 6 (USER, 10000). *)
Definition registered_db : Db :=
  exec (AuthService.register alice_dto ;;; AuthService.register bob_dto ;;;
        AuthService.register carol_dto) bootstrap_db.

Definition dave_dto : RegisterDto := mkRegisterDto "d@x.io" "dave" (Some INFLUENCER) None.

(** The revenue account and two influencers, bob (user 1, wallet 2) and
    dave (user 3, wallet 4): every balance is 0 and no entry exists. *)
Definition opening_db : Db :=
  exec (AuthService.register bob_dto ;;; AuthService.register dave_dto) bootstrap_db.

(** Both top up, which opens a user wallet for each, then bob pays dave
    for a message and for a call, and withdraws. *)
Definition recorded_requests : list Operation :=
  [ProcessPayment 1%nat 60000 some_payment "GOOGLE_PAY";
   ProcessPayment 3%nat 10000 some_payment "GOOGLE_PAY";
   ProcessMessagePayment "1752163200000" "k3x9q" 1%nat 3%nat 100;
   ProcessCallPayment "1752163200001" 1%nat 3%nat 1000 300 "call-1";
   ProcessWithdrawal 1%nat 50000 "UPI"].

(** alice after a top-up of 30000: her wallet holds 40000. *)
Definition alice_40000_db : Db :=
  exec (GooglePayService.processPayment default_config 1%nat 30000 some_payment "GOOGLE_PAY")
       registered_db.

(** ** Further readings of the ledger *)

(** The money held in all accounts together. *)
Definition total_balance_of (rows : list Account) : Z :=
  fold_right (fun a acc => balance a + acc) 0 rows.

Definition total_balance (s : Db) : Z := total_balance_of (accounts s).

(** No account is overdrawn. *)
Definition solvent (s : Db) : Prop := Forall (fun a => 0 <= balance a) (accounts s).

(** What a committed request adds to the money held in all accounts. *)
Definition minted (op : Operation) : Z :=
  match op with
  | Register dto =>
      match dto_role dto with Some INFLUENCER => 0 | _ => 10000 end
  | ProcessMessageCharge _ _ _ => 0
  | HoldFundsForCall _ estimatedAmount _ => - estimatedAmount
  | SettleCallCharges _ actualDuration callType _ _ =>
      Math_ceil_div_60 actualDuration * match callType with VIDEO => 500 | VOICE => 350 end
  | RefundHeldFunds _ _ refundAmount => refundAmount
  | ProcessMessagePayment _ _ _ _ _ => 0
  | ProcessCallPayment _ _ _ _ refundAmount _ => Z.max 0 refundAmount
  | ProcessPayment _ amount _ _ => amount
  | ProcessWithdrawal _ amount _ => - amount
  end.

(** Requests whose own checks, given non-negative amounts, keep every
    balance non-negative: all but the call payment and the withdrawal. *)
Definition checked (op : Operation) : bool :=
  match op with
  | Register _ | ProcessMessageCharge _ _ _ | HoldFundsForCall _ _ _ => true
  | SettleCallCharges _ actualDuration _ _ _ => 0 <=? actualDuration
  | RefundHeldFunds _ _ refundAmount => 0 <=? refundAmount
  | ProcessMessagePayment _ _ _ _ amount => 0 <=? amount
  | ProcessPayment _ amount _ _ => 0 <=? amount
  | ProcessCallPayment _ _ _ _ _ _ | ProcessWithdrawal _ _ _ => false
  end.

(** The columns of an account that no operation writes. *)
Definition identity_of (a : Account) : Id * option Id * AccountType :=
  (acc_id a, acc_userId a, accountType a).

(** [WalletService.getTransactions]: the user's transactions, newest
    first, at most [limit] of them, each with its entries and the type of
    the account every entry is against.  Rows are stored in creation
    order, so newest first is the stored order reversed. *)
Record EntryView := mkEntryView {
  ev_id : Id;
  ev_amount : Z;
  ev_direction : EntryDirection;
  ev_accountType : option AccountType
}.

Record TransactionView := mkTransactionView {
  tv_id : Id;
  tv_type : TransactionType;
  tv_status : TransactionStatus;
  tv_amount : Z;
  tv_entries : list EntryView
}.

Definition entry_view (s : Db) (e : Entry) : EntryView :=
  mkEntryView (entry_id e) (amount e) (direction e)
    (option_map accountType (find (fun a => Nat.eqb (acc_id a) (accountId e)) (accounts s))).

Definition transaction_view (s : Db) (t : Transaction) : TransactionView :=
  mkTransactionView (tx_id t) (tx_type t) (tx_status t) (tx_amount t)
    (map (entry_view s) (entries_of_transaction (tx_id t) s)).

Definition getTransactions (userId : Id) (limit : nat) : M (list TransactionView) :=
  fun s =>
    (inr (map (transaction_view s)
            (firstn limit
               (rev (filter (fun t => opt_Id_eqb (tx_userId t) userId) (transactions s))))),
     s).

(** bob, an influencer, after a settled 100-minute video call from alice
    credited 50000 to his first account, and after he then topped up 10000,
    which opened a user wallet (account 9) next to his influencer wallet
    (account 4). *)
Definition bob_earned_db : Db :=
  exec (WalletService.settleCallCharges "call-3" 6000 VIDEO 1%nat 3%nat) registered_db.

Definition bob_two_wallets_db : Db :=
  exec (GooglePayService.processPayment default_config 3%nat 10000 some_payment "GOOGLE_PAY")
       bob_earned_db.

(** alice after a top-up of 50000: her wallet holds 60000. *)
Definition alice_60000_db : Db :=
  exec (GooglePayService.processPayment default_config 1%nat 50000 some_payment "GOOGLE_PAY")
       registered_db.

(** ** BillingService, continued *)

(** [estimateCallCost]: the duration is a number of minutes, possibly
    fractional. *)
Definition estimateCallCost (c : Config) (duration : Q) (callType : CallType) : Z :=
  let ratePerMinute := BillingService.ratePerMinute c callType in
  Qceiling duration * ratePerMinute.

(** ** Registered users *)

(** No two users share an email address or a user name. *)
Definition unique_users (s : Db) : Prop :=
  NoDup (map user_email (users s)) /\ NoDup (map user_username (users s)).

(** ** Messages and calls

    ChatService and CallService keep two more tables next to the
    ledger.  Rows are stored in creation order
    and their ids grow with it; [createdAt] is read as that order.  Clock
    readings are passed in as milliseconds, the parts of a generated name
    as strings, and the outcome of the Agora token builder as an optional
    token.  Events emitted for the socket gateways touch no table and are
    left out. *)

Record ChatMessage := mkChatMessage {
  msg_id : Id;
  msg_senderId : Id;
  msg_receiverId : Id;
  msg_content : string;
  msg_messageId : string;
  msg_expiresAt : Z
}.

Module CallStatus.
Inductive t := INITIATED | CONNECTED | ENDED | FAILED.
Definition eqb (a b : t) : bool :=
  match a, b with
  | INITIATED, INITIATED | CONNECTED, CONNECTED | ENDED, ENDED | FAILED, FAILED => true
  | _, _ => false
  end.
End CallStatus.

Record Call := mkCall {
  call_id : Id;
  call_channelName : string;
  call_initiatorId : Id;
  call_receiverId : Id;
  call_type : CallType;
  call_status : CallStatus.t;
  call_estimatedDuration : Z;
  call_estimatedCost : Z;
  call_connectedAt : option Z;
  call_actualDuration : option Z;
  call_actualCost : option Z;
  call_terminatedBy : option Id;
  call_terminationReason : option string;
  call_isCompleted : option bool;
  call_endedAt : option Z
}.

Record AppDb := mkAppDb {
  ledger : Db;
  messages : list ChatMessage;
  calls : list Call
}.

Inductive Reason :=
  | User_not_found
  | Insufficient_balance_to_send_message
  | Call_not_found
  | Call_cannot_be_started (current : CallStatus.t)
  | Unauthorized_to_start_this_call
  | Unauthorized_to_end_this_call
  | Call_has_already_ended
  | Unauthorized_to_cancel_this_call
  | Call_cannot_be_cancelled
  | Failed_to_generate_RTC_token
  | Unique_constraint_messageId
  | Unique_constraint_channelName.

Inductive AppException :=
  | NotFound (r : Reason)
  | BadRequest (r : Reason)
  | Forbidden (r : Reason)
  | KnownRequestError (r : Reason)
  | FromLedger (e : Exception).

Definition App (A : Type) : Type := AppDb -> (AppException + A) * AppDb.

Definition app_ret {A} (a : A) : App A := fun st => (inr a, st).

Definition app_throw {A} (e : AppException) : App A := fun st => (inl e, st).

Definition app_bind {A B} (m : App A) (k : A -> App B) : App B :=
  fun st =>
    match m st with
    | (inl e, st') => (inl e, st')
    | (inr a, st') => k a st'
    end.

Notation "x <~ m ;; k" := (app_bind m (fun x => k))
  (at level 61, m at next level, right associativity).
Notation "m ~;; k" := (app_bind m (fun _ => k))
  (at level 61, right associativity).

(** A ledger computation run on the ledger part of the store. *)
Definition lift {A} (m : M A) : App A :=
  fun st =>
    match m (ledger st) with
    | (inl e, s') => (inl (FromLedger e), mkAppDb s' (messages st) (calls st))
    | (inr a, s') => (inr a, mkAppDb s' (messages st) (calls st))
    end.

Definition user_findUnique (i : Id) : App (option User) :=
  fun st => (inr (find (fun u => Nat.eqb (user_id u) i) (users (ledger st))), st).

(** [message.create]: messageId carries a unique index. *)
Definition message_create (senderId receiverId : Id) (content messageId : string)
    (expiresAt : Z) : App ChatMessage :=
  fun st0 =>
    if existsb (fun m => String.eqb (msg_messageId m) messageId) (messages st0)
    then (inl (KnownRequestError Unique_constraint_messageId), st0)
    else
      (i <~ lift fresh_id ;;
       fun st =>
         let row := mkChatMessage i senderId receiverId content messageId expiresAt in
         (inr row, mkAppDb (ledger st) (messages st ++ [row]) (calls st))) st0.

Definition SEVEN_DAYS : Z := 7 * 24 * 60 * 60 * 1000.

Module ChatService.

(** [now] is the clock reading behind [expiresAt]; [stamp], [rnd] name the
    message and [payStamp], [payRnd] the payment. *)
Definition sendMessage (now : Z) (stamp rnd payStamp payRnd : string)
    (senderId receiverId : Id) (content : string) : App (ChatMessage * bool) :=
  sender <~ user_findUnique senderId ;;
  receiver <~ user_findUnique receiverId ;;
  match sender, receiver with
  | Some sender, Some receiver =>
    let shouldChargeSender := UserRole_eqb (user_role sender) USER in
    let messageCost := 10000 in
    (if shouldChargeSender
     then
       senderBalance <~ lift (WalletService.getBalance senderId) ;;
       if senderBalance <? messageCost
       then app_throw (BadRequest Insufficient_balance_to_send_message)
       else app_ret tt
     else app_ret tt) ~;;
    let messageId := ("msg_" ++ stamp ++ "_" ++ rnd)%string in
    message <~ message_create senderId receiverId content messageId (now + SEVEN_DAYS) ;;
    (if shouldChargeSender
     then lift (WalletService.processMessagePayment payStamp payRnd senderId receiverId
                  messageCost)
     else app_ret tt) ~;;
    app_ret (message, shouldChargeSender)
  | _, _ => app_throw (NotFound User_not_found)
  end.

(** The [where] clause of [getMessages]. *)
Definition between (now : Z) (userId partnerId : Id) (m : ChatMessage) : bool :=
  ((Nat.eqb (msg_senderId m) userId && Nat.eqb (msg_receiverId m) partnerId)
   || (Nat.eqb (msg_senderId m) partnerId && Nat.eqb (msg_receiverId m) userId))
  && (now <? msg_expiresAt m).

(** A message with its [isOwn] flag. *)
Definition own_view (userId : Id) (m : ChatMessage) : ChatMessage * bool :=
  (m, Nat.eqb (msg_senderId m) userId).

Definition getMessages (now : Z) (userId partnerId : Id) (limit : nat)
  : App (list (ChatMessage * bool)) :=
  fun st =>
    let found := firstn limit (rev (filter (between now userId partnerId) (messages st))) in
    (inr (map (own_view userId) (rev found)), st).

(** The [where] clause of [getConversations]. *)
Definition involving (now : Z) (userId : Id) (m : ChatMessage) : bool :=
  (Nat.eqb (msg_senderId m) userId || Nat.eqb (msg_receiverId m) userId)
  && (now <? msg_expiresAt m).

Definition partner_of (userId : Id) (m : ChatMessage) : Id :=
  if Nat.eqb (msg_senderId m) userId then msg_receiverId m else msg_senderId m.

Record Conversation := mkConversation {
  partnerId : Id;
  lastMessage : ChatMessage;
  messageCount : nat
}.

(** One step of the [forEach] over [conversationMap]: a new key goes to
    the end of the map, an existing one is updated in place. *)
Fixpoint record_message (pid : Id) (m : ChatMessage) (conversationMap : list Conversation)
  : list Conversation :=
  match conversationMap with
  | [] => [mkConversation pid m 1]
  | existing :: rest =>
    if Nat.eqb (partnerId existing) pid
    then mkConversation pid
           (if Nat.ltb (msg_id (lastMessage existing)) (msg_id m)
            then m else lastMessage existing)
           (S (messageCount existing)) :: rest
    else existing :: record_message pid m rest
  end.

Definition getConversations (now : Z) (userId : Id) : App (list Conversation) :=
  fun st =>
    (inr (fold_left (fun conversationMap m =>
                       record_message (partner_of userId m) m conversationMap)
            (rev (filter (involving now userId) (messages st))) []),
     st).

Record ChatStats := mkChatStats {
  totalMessages : nat;
  sentCount : nat;
  receivedCount : nat;
  totalSpent : nat;
  totalEarned : nat
}.

Definition count_where (p : ChatMessage -> bool) (st : AppDb) : nat :=
  List.length (filter p (messages st)).

Definition getChatStats (userId : Id) : App ChatStats :=
  fun st =>
    let totalMessages :=
      count_where (fun m => Nat.eqb (msg_senderId m) userId
                            || Nat.eqb (msg_receiverId m) userId) st in
    let sentCount := count_where (fun m => Nat.eqb (msg_senderId m) userId) st in
    let receivedCount := count_where (fun m => Nat.eqb (msg_receiverId m) userId) st in
    (inr (mkChatStats totalMessages sentCount receivedCount
            (sentCount * 100) (receivedCount * 90)), st).

End ChatService.

Module CallService.

Definition call_findUnique (i : Id) : App (option Call) :=
  fun st => (inr (find (fun c => Nat.eqb (call_id c) i) (calls st)), st).

(** [call.create]: channelName carries a unique index. *)
Definition call_create (initiatorId receiverId : Id) (type : CallType)
    (estimatedDuration : Z) (channelName : string) : App Call :=
  fun st0 =>
    if existsb (fun c => String.eqb (call_channelName c) channelName) (calls st0)
    then (inl (KnownRequestError Unique_constraint_channelName), st0)
    else
      (i <~ lift fresh_id ;;
       fun st =>
         let row := mkCall i channelName initiatorId receiverId type CallStatus.INITIATED
                      estimatedDuration 0 None None None None None None None in
         (inr row, mkAppDb (ledger st) (messages st) (calls st ++ [row]))) st0.

Definition call_update (i : Id) (f : Call -> Call) : App unit :=
  fun st =>
    (inr tt,
     mkAppDb (ledger st) (messages st)
       (map (fun c => if Nat.eqb (call_id c) i then f c else c) (calls st))).

(** [token] is what the Agora token builder returns, [None] when it
    throws. *)
Definition initiateCall (stamp rnd : string) (token : option string)
    (initiatorId receiverId : Id) (type : CallType) (estimatedDuration : option Z)
  : App (Call * string) :=
  let estimatedDuration := match estimatedDuration with Some d => d | None => 5 end in
  initiator <~ user_findUnique initiatorId ;;
  receiver <~ user_findUnique receiverId ;;
  match initiator, receiver with
  | Some _, Some _ =>
    let channelName := ("call_" ++ stamp ++ "_" ++ rnd)%string in
    call <~ call_create initiatorId receiverId type estimatedDuration channelName ;;
    match token with
    | None => app_throw (BadRequest Failed_to_generate_RTC_token)
    | Some token => app_ret (call, token)
    end
  | _, _ => app_throw (NotFound User_not_found)
  end.

Definition set_connected (now : Z) (c : Call) : Call :=
  mkCall (call_id c) (call_channelName c) (call_initiatorId c) (call_receiverId c)
    (call_type c) CallStatus.CONNECTED (call_estimatedDuration c) (call_estimatedCost c)
    (Some now) (call_actualDuration c) (call_actualCost c) (call_terminatedBy c)
    (call_terminationReason c) (call_isCompleted c) (call_endedAt c).

Definition startCall (now : Z) (callId userId : Id) : App Call :=
  call <~ call_findUnique callId ;;
  match call with
  | None => app_throw (NotFound Call_not_found)
  | Some call =>
    if negb (CallStatus.eqb (call_status call) CallStatus.INITIATED)
       && negb (CallStatus.eqb (call_status call) CallStatus.CONNECTED)
    then app_throw (BadRequest (Call_cannot_be_started (call_status call)))
    else if negb (Nat.eqb (call_receiverId call) userId)
            && negb (Nat.eqb (call_initiatorId call) userId)
    then app_throw (Forbidden Unauthorized_to_start_this_call)
    else if CallStatus.eqb (call_status call) CallStatus.CONNECTED
    then app_ret call
    else
      call_update callId (set_connected now) ~;;
      app_ret (set_connected now call)
  end.

(** [Math.floor((now - connectedAt) / 1000)]. *)
Definition elapsed_seconds (now connectedAt : Z) : Z :=
  Qfloor (inject_Z (now - connectedAt) / (1000 # 1)).

Definition set_ended (now : Z) (userId : Id) (actualDuration : Z) (c : Call) : Call :=
  mkCall (call_id c) (call_channelName c) (call_initiatorId c) (call_receiverId c)
    (call_type c) CallStatus.ENDED (call_estimatedDuration c) (call_estimatedCost c)
    (call_connectedAt c) (Some actualDuration) (Some 0) (Some userId)
    (call_terminationReason c) (Some (0 <? actualDuration)) (Some now).

Definition endCall (now : Z) (callId userId : Id) : App Call :=
  call <~ call_findUnique callId ;;
  match call with
  | None => app_throw (NotFound Call_not_found)
  | Some call =>
    if negb (Nat.eqb (call_receiverId call) userId)
       && negb (Nat.eqb (call_initiatorId call) userId)
    then app_throw (Forbidden Unauthorized_to_end_this_call)
    else if CallStatus.eqb (call_status call) CallStatus.ENDED
    then app_throw (BadRequest Call_has_already_ended)
    else
      let actualDuration :=
        match call_connectedAt call with
        | Some connectedAt => elapsed_seconds now connectedAt
        | None => 0
        end in
      call_update callId (set_ended now userId actualDuration) ~;;
      app_ret (set_ended now userId actualDuration call)
  end.

Definition set_cancelled (now : Z) (userId : Id) (c : Call) : Call :=
  mkCall (call_id c) (call_channelName c) (call_initiatorId c) (call_receiverId c)
    (call_type c) CallStatus.FAILED (call_estimatedDuration c) (call_estimatedCost c)
    (call_connectedAt c) (call_actualDuration c) (call_actualCost c) (Some userId)
    (Some "CANCELLED"%string) (call_isCompleted c) (Some now).

Definition cancelCall (now : Z) (callId userId : Id) : App Call :=
  call <~ call_findUnique callId ;;
  match call with
  | None => app_throw (NotFound Call_not_found)
  | Some call =>
    if negb (Nat.eqb (call_receiverId call) userId)
       && negb (Nat.eqb (call_initiatorId call) userId)
    then app_throw (Forbidden Unauthorized_to_cancel_this_call)
    else if negb (CallStatus.eqb (call_status call) CallStatus.INITIATED)
    then app_throw (BadRequest Call_cannot_be_cancelled)
    else
      call_update callId (set_cancelled now userId) ~;;
      app_ret (set_cancelled now userId call)
  end.

(** The [where] clause of [getActiveCall]. *)
Definition active_for (userId : Id) (c : Call) : bool :=
  (Nat.eqb (call_initiatorId c) userId || Nat.eqb (call_receiverId c) userId)
  && (CallStatus.eqb (call_status c) CallStatus.INITIATED
      || CallStatus.eqb (call_status c) CallStatus.CONNECTED).

(** The active call of the user, if any, with its [isIncoming] flag. *)
Definition getActiveCall (userId : Id) : App (option (Call * bool)) :=
  fun st =>
    (inr (option_map (fun c => (c, Nat.eqb (call_receiverId c) userId))
            (find (active_for userId) (calls st))), st).

End CallService.

(** Ids of calls are unique. *)
Definition calls_unique (st : AppDb) : Prop := NoDup (map call_id (calls st)).

(** ** AgoraService: names and numeric ids derived from user ids *)

Module AgoraService.

(** The signed 32-bit integer a bitwise operator sees. *)
Definition ToInt32 (x : Z) : Z :=
  let m := x mod 2 ^ 32 in
  if m <? 2 ^ 31 then m else m - 2 ^ 32.

(** [userId.charCodeAt(i)] over the characters of an ASCII id. *)
Definition charCodes (userId : string) : list Z :=
  map (fun ch => Z.of_N (Ascii.N_of_ascii ch)) (list_ascii_of_string userId).

(** One round of the loop: [hash = ((hash << 5) - hash) + char;
    hash = hash & hash]. *)
Definition hash_round (hash char : Z) : Z :=
  let hash := (ToInt32 (Z.shiftl (ToInt32 hash) 5) - hash) + char in
  ToInt32 (Z.land (ToInt32 hash) (ToInt32 hash)).

Definition hash_of (userId : string) : Z := fold_left hash_round (charCodes userId) 0.

Definition generateUidFromUserId (timestamp : Z) (userId : string) : Z :=
  let timestampSuffix := Z.rem timestamp 10000 in
  let hash := hash_of userId in
  let combinedHash := Z.abs hash + timestampSuffix in
  let r := Z.rem combinedHash 2147483647 in
  if r =? 0 then 1 else r.

(** [[userId1, userId2].sort()] on two strings. *)
Definition sort2 (a b : string) : string * string :=
  match String.compare b a with
  | Lt => (b, a)
  | _ => (a, b)
  end.

(** [timestamp] is the rendering of [Date.now()]. *)
Definition generateChannelName (timestamp : string) (userId1 userId2 : string) : string :=
  let sortedIds := sort2 userId1 userId2 in
  ("call_" ++ fst sortedIds ++ "_" ++ snd sortedIds ++ "_" ++ timestamp)%string.

End AgoraService.

(** ** Readings of the message and call tables *)

(** The conversation kept for a partner, if any. *)
Definition conversation_with (pid : Id) (convs : list ChatService.Conversation) :=
  find (fun c => Nat.eqb (ChatService.partnerId c) pid) convs.

(** The messages a user exchanged with one partner. *)
Definition with_partner (userId pid : Id) (seen : list ChatMessage) : list ChatMessage :=
  filter (fun m => Nat.eqb (ChatService.partner_of userId m) pid) seen.

(** What the conversation map holds after the messages [seen] were
    recorded: one conversation per partner, with the number of messages
    exchanged with that partner and the latest of them. *)
Definition grouped (userId : Id) (seen : list ChatMessage)
    (convs : list ChatService.Conversation) : Prop :=
  NoDup (map ChatService.partnerId convs)
  /\ forall pid,
       match conversation_with pid convs with
       | None => with_partner userId pid seen = []
       | Some c =>
         ChatService.partnerId c = pid
         /\ ChatService.messageCount c = List.length (with_partner userId pid seen)
         /\ In (ChatService.lastMessage c) (with_partner userId pid seen)
         /\ forall m, In m (with_partner userId pid seen) ->
                      (msg_id m <= msg_id (ChatService.lastMessage c))%nat
       end.

(** The fields of a call agree with its status, and nothing is billed. *)
Definition call_consistent (c : Call) : Prop :=
  call_estimatedCost c = 0
  /\ match call_status c with
     | CallStatus.INITIATED => call_connectedAt c = None /\ call_endedAt c = None
     | CallStatus.CONNECTED => call_connectedAt c <> None /\ call_endedAt c = None
     | CallStatus.ENDED =>
       call_actualDuration c <> None /\ call_actualCost c = Some 0
       /\ call_terminatedBy c <> None /\ call_endedAt c <> None
     | CallStatus.FAILED =>
       call_connectedAt c = None /\ call_terminatedBy c <> None /\ call_endedAt c <> None
     end.

Definition calls_well_formed (st : AppDb) : Prop :=
  calls_unique st
  /\ NoDup (map call_channelName (calls st))
  /\ Forall (fun c => (call_id c < next_id (ledger st))%nat) (calls st)
  /\ Forall call_consistent (calls st).

(** ** Stores with messages and calls *)

(** alice, bob and carol, no message and no call yet. *)
Definition chat_db : AppDb := mkAppDb registered_db [] [].

(** alice has paid for one message to carol, which empties her wallet. *)
Definition alice_wrote_db : AppDb :=
  snd (ChatService.sendMessage 1752163200000 "1752163200000" "k3x9q" "1752163200002" "p7m2c"
         1%nat 5%nat "hello" chat_db).

(** alice has initiated a video call to bob: call 7, INITIATED. *)
Definition ringing_db : AppDb :=
  snd (CallService.initiateCall "1752163200000" "r4t8z" (Some "006token"%string)
         1%nat 3%nat VIDEO None chat_db).

(** bob joined call 7 and alice ended it 55.5 seconds later. *)
Definition ended_db : AppDb :=
  snd (CallService.endCall 1752163260500 7%nat 1%nat
         (snd (CallService.startCall 1752163205000 7%nat 3%nat ringing_db))).

Arguments update_balance : simpl never.
Arguments Math_floor_times_0_9 : simpl never.
Arguments Math_ceil_div_60 : simpl never.

(** * Properties *)

(** ** Rules for stepping through a computation *)

Lemma wp_bind {A B} (m : M A) (k : A -> M B) Q s :
  wp m (fun r s' => match r with inl e => Q (inl e) s' | inr a => wp (k a) Q s' end) s ->
  wp (bind m k) Q s.
Proof.
  unfold wp, bind. destruct (m s) as [[e|a] s']; cbn; trivial.
Qed.

Lemma wp_prisma_transaction {A} (body : M A) Q s :
  wp body (fun r s' => match r with inl e => Q (inl e) s | inr a => Q (inr a) s' end) s ->
  wp (prisma_transaction body) Q s.
Proof.
  unfold wp, prisma_transaction. destruct (body s) as [[e|a] s']; cbn; trivial.
Qed.

Lemma wp_transaction_create k t st ref u amt (Q : Exception + Transaction -> Db -> Prop) s :
  Q (inl (PrismaClientKnownRequestError Unique_constraint_idempotencyKey)) s ->
  Q (inr (mkTransaction (next_id s) k t st ref u amt))
    (mkDb (users s) (accounts s)
          (transactions s ++ [mkTransaction (next_id s) k t st ref u amt])
          (entries s) (S (next_id s))) ->
  wp (transaction_create k t st ref u amt) Q s.
Proof.
  intros H1 H2. unfold wp, transaction_create.
  destruct (existsb _ _); cbn; assumption.
Qed.

Lemma wp_ret {A} (a : A) Q s : Q (inr a) s -> wp (ret a) Q s.
Proof. exact (fun H => H). Qed.

Lemma wp_throw {A} e (Q : Exception + A -> Db -> Prop) s : Q (inl e) s -> wp (throw e) Q s.
Proof. exact (fun H => H). Qed.

Lemma wp_account_findFirst p (Q : Exception + option Account -> Db -> Prop) s :
  Q (inr (find p (accounts s))) s -> wp (account_findFirst p) Q s.
Proof. exact (fun H => H). Qed.

Lemma wp_user_findFirst p (Q : Exception + option User -> Db -> Prop) s :
  Q (inr (find p (users s))) s -> wp (user_findFirst p) Q s.
Proof. exact (fun H => H). Qed.

Lemma wp_account_update i f (Q : Exception + unit -> Db -> Prop) s :
  Q (inr tt) (mkDb (users s) (update_balance i f (accounts s)) (transactions s)
                   (entries s) (next_id s)) ->
  wp (account_update i f) Q s.
Proof. exact (fun H => H). Qed.

Lemma wp_transaction_update_status i st (Q : Exception + unit -> Db -> Prop) s :
  Q (inr tt)
    (mkDb (users s) (accounts s)
       (map (fun t => if Nat.eqb (tx_id t) i then set_status st t else t) (transactions s))
       (entries s) (next_id s)) ->
  wp (transaction_update_status i st) Q s.
Proof. exact (fun H => H). Qed.

Lemma wp_entry_create t a amt d (Q : Exception + Entry -> Db -> Prop) s :
  Q (inr (mkEntry (next_id s) t a amt d))
    (mkDb (users s) (accounts s) (transactions s)
          (entries s ++ [mkEntry (next_id s) t a amt d]) (S (next_id s))) ->
  wp (entry_create t a amt d) Q s.
Proof. exact (fun H => H). Qed.

Lemma wp_account_create u t b (Q : Exception + Account -> Db -> Prop) s :
  Q (inr (mkAccount (next_id s) u t b))
    (mkDb (users s) (accounts s ++ [mkAccount (next_id s) u t b]) (transactions s)
          (entries s) (S (next_id s))) ->
  wp (account_create u t b) Q s.
Proof. exact (fun H => H). Qed.

Lemma wp_user_create e u r d (Q : Exception + User -> Db -> Prop) s :
  Q (inr (mkUser (next_id s) e u r d))
    (mkDb (users s ++ [mkUser (next_id s) e u r d]) (accounts s) (transactions s)
          (entries s) (S (next_id s))) ->
  wp (user_create e u r d) Q s.
Proof. exact (fun H => H). Qed.

Ltac norm :=
  cbv beta iota; cbn [fst snd users accounts transactions entries next_id negb
                      tx_id acc_id user_id].

Ltac wp_step :=
  lazymatch goal with
  | |- wp (bind _ _) _ _ => apply wp_bind
  | |- wp (prisma_transaction _) _ _ => apply wp_prisma_transaction
  | |- wp (ret _) _ _ => apply wp_ret; norm
  | |- wp (throw _) _ _ => apply wp_throw; norm
  | |- wp (account_findFirst _) _ _ => apply wp_account_findFirst; norm
  | |- wp (user_findFirst _) _ _ => apply wp_user_findFirst; norm
  | |- wp (account_update _ _) _ _ => apply wp_account_update; norm
  | |- wp (transaction_update_status _ _) _ _ => apply wp_transaction_update_status; norm
  | |- wp (entry_create _ _ _ _) _ _ => apply wp_entry_create; norm
  | |- wp (account_create _ _ _) _ _ => apply wp_account_create; norm
  | |- wp (user_create _ _ _ _) _ _ => apply wp_user_create; norm
  | |- wp (transaction_create _ _ _ _ _ _) _ _ => apply wp_transaction_create; norm
  | |- wp (GooglePayService.verifyPaymentWithGateway _) _ _ =>
      unfold GooglePayService.verifyPaymentWithGateway
  | |- wp (let '(_, _) := WalletService.split _ in _) _ _ => unfold WalletService.split; norm
  | |- wp (if ?b then _ else _) _ _ => let H := fresh "Hif" in destruct b eqn:H
  | |- wp (match ?x with _ => _ end) _ _ => let H := fresh "Hm" in destruct x eqn:H
  | |- wp (WalletService.getBalance _) _ _ => unfold WalletService.getBalance
  | |- wp (GooglePayService.addMoneyToWallet _ _ _) _ _ => unfold GooglePayService.addMoneyToWallet
  | |- wp (GooglePayService.deductMoneyFromWallet _ _ _) _ _ => unfold GooglePayService.deductMoneyFromWallet
  end.

Lemma map_acc_id_update_balance i f l : map acc_id (update_balance i f l) = map acc_id l.
Proof.
  unfold update_balance. rewrite map_map. apply map_ext.
  intros a. destruct (Nat.eqb (acc_id a) i); reflexivity.
Qed.

Lemma map_tx_id_set_status i st l :
  map tx_id (map (fun t => if Nat.eqb (tx_id t) i then set_status st t else t) l)
  = map tx_id l.
Proof.
  rewrite map_map. apply map_ext.
  intros a. destruct (Nat.eqb (tx_id a) i); reflexivity.
Qed.

Lemma below_mono n m l : below n l -> (n <= m)%nat -> below m l.
Proof.
  unfold below. intros H Hle. eapply Forall_impl; [|exact H].
  cbn. intros; lia.
Qed.

Lemma below_snoc n l i : below n l -> (i < n)%nat -> below n (l ++ [i]).
Proof.
  unfold below. intros H Hi. apply Forall_app. split; [exact H|]. repeat constructor. exact Hi.
Qed.

Lemma NoDup_snoc_fresh n l i : NoDup l -> below n l -> (n <= i)%nat -> NoDup (l ++ [i]).
Proof.
  intros Hnd Hb Hi.
  apply NoDup_app; [exact Hnd | repeat constructor; intros [] | ].
  unfold below in Hb. rewrite Forall_forall in Hb.
  intros a Ha [<-|[]]. specialize (Hb _ Ha). lia.
Qed.

Lemma find_acc_id_below (p : Account -> bool) s a :
  well_formed s -> find p (accounts s) = Some a -> (acc_id a < next_id s)%nat.
Proof.
  intros (_ & Hb & _) Hf. apply find_some in Hf. destruct Hf as [Hin _].
  unfold below in Hb. rewrite Forall_forall in Hb. apply Hb. apply in_map. exact Hin.
Qed.

Ltac find_bounds Hwf :=
  repeat match goal with
  | Hf : find _ (accounts _) = Some ?a |- _ =>
      lazymatch goal with
      | _ : (acc_id a < _)%nat |- _ => fail
      | _ => pose proof (find_acc_id_below _ _ _ Hwf Hf)
      end
  end.

Ltac wf_leaf :=
  cbn [users accounts transactions entries next_id];
  repeat rewrite ?map_acc_id_update_balance, ?map_tx_id_set_status, ?map_app;
  cbn [map acc_id tx_id transactionId accountId app];
  repeat match goal with
  | |- _ /\ _ => split
  | W : below ?n (map acc_id _) |- NoDup (_ ++ [_]) =>
      apply (NoDup_snoc_fresh n); [assumption | exact W | lia]
  | |- NoDup _ => eassumption
  | |- below _ (_ ++ [_]) => apply below_snoc
  | |- below _ _ => eapply below_mono; [eassumption|]
  | |- (_ < _)%nat => lia
  | |- (_ <= _)%nat => lia
  | |- True => exact I
  end.

Ltac unfold_service :=
  unfold perform,
    AuthService.register,
    WalletService.processMessageCharge, WalletService.holdFundsForCall,
    WalletService.settleCallCharges, WalletService.refundHeldFunds,
    WalletService.processMessagePayment, WalletService.processCallPayment,
    GooglePayService.processPayment, GooglePayService.processWithdrawal.

(** Every request keeps the store well formed, whether it succeeds or
    throws. *)
Lemma well_formed_perform c op s :
  well_formed s -> well_formed (exec (perform c op) s).
Proof.
  intros Hwf.
  change (wp (perform c op) (fun _ s' => well_formed s') s).
  destruct op; unfold_service; cbv zeta; repeat wp_step; try exact Hwf;
    find_bounds Hwf; destruct Hwf as (W1 & W2 & W3 & W4 & W5);
    unfold well_formed; wf_leaf.
Qed.

Lemma well_formed_perform_all c ops s :
  well_formed s -> well_formed (perform_all c ops s).
Proof.
  revert s. induction ops as [|op ops IH]; intros s Hwf; cbn; [exact Hwf|].
  apply IH, well_formed_perform, Hwf.
Qed.

Lemma well_formed_empty_db : well_formed empty_db.
Proof. repeat split; constructor. Qed.

(** Every store that requests build from the empty one is well formed. *)
Corollary well_formed_reachable c ops : well_formed (perform_all c ops empty_db).
Proof. apply well_formed_perform_all, well_formed_empty_db. Qed.

Lemma nodupb_sound l : nodupb l = true -> NoDup l.
Proof.
  induction l as [|x r IH]; cbn; intros H; constructor.
  - apply andb_true_iff in H. destruct H as [H _].
    intros Hin. apply negb_true_iff in H.
    assert (E : existsb (Nat.eqb x) r = true)
      by (apply existsb_exists; exists x; split; [exact Hin|apply Nat.eqb_refl]).
    congruence.
  - apply IH. apply andb_true_iff in H. apply H.
Qed.

Lemma belowb_sound n l : belowb n l = true -> below n l.
Proof.
  unfold belowb, below. intros H. apply Forall_forall. intros x Hx.
  apply Nat.ltb_lt. revert x Hx. apply forallb_forall. exact H.
Qed.

Lemma well_formedb_sound s : well_formedb s = true -> well_formed s.
Proof.
  unfold well_formedb, well_formed. intros H.
  repeat (apply andb_true_iff in H; destruct H as [H ?]).
  repeat split; auto using nodupb_sound, belowb_sound.
Qed.

(** ** Arithmetic of the billing policy *)

Lemma Math_floor_times_0_9_div (x : Z) : Math_floor_times_0_9 x = (9 * x) / 10.
Proof.
  unfold Math_floor_times_0_9, Qfloor, Qmult, inject_Z; cbn [Qnum Qden].
  change (Z.pos (1 * 10)) with 10. f_equal; lia.
Qed.

Lemma Math_floor_times_0_9_bounds (x : Z) :
  10 * Math_floor_times_0_9 x <= 9 * x < 10 * Math_floor_times_0_9 x + 10.
Proof.
  rewrite Math_floor_times_0_9_div.
  pose proof (Z.div_mod (9 * x) 10 ltac:(lia)) as E.
  pose proof (Z.mod_pos_bound (9 * x) 10 ltac:(lia)) as B.
  lia.
Qed.

Lemma Math_ceil_div_60_div (x : Z) : Math_ceil_div_60 x = - ((- x) / 60).
Proof.
  unfold Math_ceil_div_60, Qceiling, Qfloor, Qdiv, Qmult, Qinv, Qopp, inject_Z; simpl.
  do 2 f_equal; lia.
Qed.

Lemma Math_ceil_div_60_bounds (x : Z) :
  60 * (Math_ceil_div_60 x - 1) < x <= 60 * Math_ceil_div_60 x.
Proof.
  rewrite Math_ceil_div_60_div.
  pose proof (Z.div_mod (- x) 60 ltac:(lia)) as E.
  pose proof (Z.mod_pos_bound (- x) 60 ltac:(lia)) as B.
  lia.
Qed.

(** C7.  For every gross amount [G] the split returns a payee share and a
    platform fee such that the payee share is the floor of [G * 0.9]
    (the largest integer [p] with [p <= 0.9 * G], i.e. [10 p <= 9 G < 10 p + 10])
    and the two shares add up to [G] exactly. *)
Theorem split_correct (G : Z) :
  let payeeShare := fst (WalletService.split G) in
  let fee := snd (WalletService.split G) in
  (inject_Z payeeShare <= inject_Z G * (9 # 10) < inject_Z payeeShare + 1)%Q
  /\ payeeShare = (9 * G) / 10
  /\ payeeShare + fee = G.
Proof.
  unfold WalletService.split; cbn [fst snd].
  pose proof (Math_floor_times_0_9_bounds G) as B.
  repeat split.
  - unfold Qle, Qmult, inject_Z; simpl. lia.
  - unfold Qlt, Qmult, Qplus, inject_Z; simpl. lia.
  - apply Math_floor_times_0_9_div.
  - lia.
Qed.

(** C8.  For every duration [d] in seconds and call kind [k] the call cost
    is [ceil(d / 60)] times the per-minute rate of [k], where [ceil(d / 60)]
    is the number [m] of started minutes ([60 (m - 1) < d <= 60 m]): a
    partial minute counts as a whole one, never as none, and the
    number of minutes charged is never below [d / 60] rounded down.  With
    the default configuration the rates are 500 (video) and 350 (voice),
    the constants of the settlement path. *)
Theorem call_cost_rounds_up (c : Config) (d : Z) (k : CallType) :
  let m := Math_ceil_div_60 d in
  BillingService.calculateActualCallCost c d k = m * BillingService.ratePerMinute c k
  /\ 60 * (m - 1) < d <= 60 * m
  /\ (inject_Z d / (60 # 1) <= inject_Z m < inject_Z d / (60 # 1) + 1)%Q
  /\ d / 60 <= m
  /\ BillingService.calculateActualCallCost default_config d k
     = m * match k with VIDEO => 500 | VOICE => 350 end.
Proof.
  cbv zeta.
  pose proof (Math_ceil_div_60_bounds d) as B.
  split; [reflexivity|].
  split; [exact B|].
  split; [split|].
  - unfold Qle, Qdiv, Qmult, Qinv, inject_Z; simpl. lia.
  - unfold Qlt, Qdiv, Qmult, Qinv, Qplus, inject_Z; simpl. lia.
  - split.
    + pose proof (Z.div_mod d 60 ltac:(lia)) as E.
      pose proof (Z.mod_pos_bound d 60 ltac:(lia)) as P.
      lia.
    + destruct k; reflexivity.
Qed.

(** ** Withdrawal guards *)

(** C9.  A withdrawal whose amount is below the configured minimum, above
    the configured maximum, or above the balance that [getBalance] reports
    for the user throws the matching bad-request exception (minimum,
    maximum, insufficient balance, checked in this order) and leaves the
    store exactly as it was: no transaction, no entry, no balance change. *)
Theorem withdrawal_rejected_before_mutation
    (c : Config) (s : Db) (userId : Id) (amount : Z) (withdrawalMethod : string)
    (userBalance : Z) :
  let minAmount := or_default (MIN_WITHDRAWAL_AMOUNT c) 50000 in
  let maxAmount := or_default (MAX_WITHDRAWAL_AMOUNT c) 10000000 in
  run (WalletService.getBalance userId) s = (inr userBalance, s) ->
  amount < minAmount \/ maxAmount < amount \/ userBalance < amount ->
  run (GooglePayService.processWithdrawal c userId amount withdrawalMethod) s
  = (inl (BadRequestException
            (if amount <? minAmount then Minimum_withdrawal_amount_is minAmount
             else if maxAmount <? amount then Maximum_withdrawal_amount_is maxAmount
             else Insufficient_balance_for_withdrawal)),
     s).
Proof.
  intros minAmount maxAmount Hbal Hbad.
  unfold run, GooglePayService.processWithdrawal in *.
  fold minAmount maxAmount.
  destruct (amount <? minAmount) eqn:Hmin; [reflexivity|].
  destruct (maxAmount <? amount) eqn:Hmax; [reflexivity|].
  apply Z.ltb_ge in Hmin, Hmax.
  assert (Hlt : (userBalance <? amount) = true) by (apply Z.ltb_lt; lia).
  unfold bind at 1. rewrite Hbal, Hlt. reflexivity.
Qed.

(** Scenario 5 of the specification: 50000 requested against a balance of
    40000. *)
Lemma withdrawal_rejected_witness :
  run (GooglePayService.processWithdrawal default_config 1%nat 50000 "BANK_TRANSFER")
      alice_40000_db
  = (inl (BadRequestException Insufficient_balance_for_withdrawal), alice_40000_db).
Proof.
  apply (withdrawal_rejected_before_mutation default_config alice_40000_db 1%nat 50000
           "BANK_TRANSFER" 40000).
  - reflexivity.
  - right; right; lia.
Defined.

(** ** Looking rows up by id *)

Lemma find_map_stable {A} (p : A -> bool) (g : A -> A) (l : list A) :
  (forall a, p (g a) = p a) -> find p (map g l) = option_map g (find p l).
Proof.
  intros Hp. induction l as [|a l IH]; cbn; [reflexivity|].
  rewrite Hp. destruct (p a); [reflexivity|exact IH].
Qed.

Lemma find_update_balance (p : Account -> bool) i f l :
  (forall a g, p (set_balance g a) = p a) ->
  find p (update_balance i f l)
  = option_map (fun a => if Nat.eqb (acc_id a) i then set_balance f a else a) (find p l).
Proof.
  intros Hp. unfold update_balance. apply find_map_stable.
  intros a. destruct (Nat.eqb (acc_id a) i); [apply Hp|reflexivity].
Qed.

Lemma balance_update_balance i f j l :
  option_map balance (find (fun r => Nat.eqb (acc_id r) j) (update_balance i f l))
  = if Nat.eqb j i
    then option_map f (option_map balance (find (fun r => Nat.eqb (acc_id r) j) l))
    else option_map balance (find (fun r => Nat.eqb (acc_id r) j) l).
Proof.
  rewrite find_update_balance by reflexivity.
  destruct (find _ l) as [a|] eqn:Hf; cbn; [|destruct (Nat.eqb j i); reflexivity].
  apply find_some in Hf. destruct Hf as [_ Hid]. apply Nat.eqb_eq in Hid. subst j.
  destruct (Nat.eqb (acc_id a) i); reflexivity.
Qed.

Lemma find_by_id l a :
  NoDup (map acc_id l) -> In a l -> find (fun r => Nat.eqb (acc_id r) (acc_id a)) l = Some a.
Proof.
  induction l as [|b l IH]; cbn; intros Hnd Hin; [contradiction|].
  inversion Hnd as [|? ? Hnotin Hnd']; subst.
  destruct Hin as [->|Hin]; [rewrite Nat.eqb_refl; reflexivity|].
  destruct (Nat.eqb_spec (acc_id b) (acc_id a)) as [E|_]; [|apply IH; assumption].
  exfalso. apply Hnotin. rewrite E. apply in_map. exact Hin.
Qed.

Lemma balance_of_found (p : Account -> bool) s a :
  well_formed s -> find p (accounts s) = Some a -> balance_of (acc_id a) s = Some (balance a).
Proof.
  intros (Hnd & _) Hf. apply find_some in Hf. destruct Hf as [Hin _].
  unfold balance_of. rewrite (find_by_id _ _ Hnd Hin). reflexivity.
Qed.

Lemma wallet_of_owner u t a :
  WalletService.wallet_of u t a = true -> acc_userId a = Some u /\ accountType a = t.
Proof.
  unfold WalletService.wallet_of, opt_Id_eqb. intros H.
  apply andb_true_iff in H. destruct H as [Hu Ht].
  destruct (acc_userId a) as [x|]; [|discriminate].
  apply Nat.eqb_eq in Hu. subst x.
  destruct (accountType a), t; try discriminate; split; reflexivity.
Qed.

Lemma of_type_sound t a : WalletService.of_type t a = true -> accountType a = t.
Proof.
  unfold WalletService.of_type. destruct (accountType a), t; try discriminate; reflexivity.
Qed.

(** ** The chat payment *)

Lemma processMessagePayment_run (now rnd : string) (s : Db) (senderId receiverId : Id)
    (G : Z) (payer payee revenue : Account) :
  find (WalletService.wallet_of senderId USER_WALLET) (accounts s) = Some payer ->
  find (WalletService.wallet_of receiverId USER_WALLET) (accounts s) = Some payee ->
  find (WalletService.of_type REVENUE) (accounts s) = Some revenue ->
  G <= balance payer ->
  key_unused ("msg_" ++ now ++ "_" ++ rnd) s ->
  run (WalletService.processMessagePayment now rnd senderId receiverId G) s
  = (inr tt,
     let t := next_id s in
     let share := Math_floor_times_0_9 G in
     mkDb (users s)
          (update_balance (acc_id revenue) (increment (G - share))
             (update_balance (acc_id payee) (increment share)
                (update_balance (acc_id payer) (decrement G) (accounts s))))
          (transactions s ++
             [mkTransaction t (Some ("msg_" ++ now ++ "_" ++ rnd)%string) CHAT_PAYMENT
                COMPLETED None (Some senderId) G])
          (entries s ++
             [mkEntry (S t) t (acc_id payer) G DEBIT;
              mkEntry (S (S t)) t (acc_id payee) share CREDIT;
              mkEntry (S (S (S t))) t (acc_id revenue) (G - share) CREDIT])
          (S (S (S (S t))))).
Proof.
  intros Hp Hq Hr Hbal Hkey.
  unfold WalletService.processMessagePayment.
  revert Hkey. generalize ("msg_" ++ now ++ "_" ++ rnd)%string as key. intros key Hkey.
  unfold key_unused in Hkey.
  assert (Hlt : (balance payer <? G) = false) by (apply Z.ltb_ge; lia).
  unfold run, prisma_transaction, bind, account_findFirst.
  rewrite Hp, Hq, Hr, Hlt.
  unfold WalletService.split, transaction_create.
  rewrite Hkey.
  cbn. rewrite <- !app_assoc. reflexivity.
Qed.

(** C6.  With the payer's and the payee's user wallets and the revenue
    account present, payer and payee being different users, and the
    payer's balance at least [G], the chat payment succeeds and commits,
    as one unit, one COMPLETED transaction of amount [G] with exactly
    three entries (DEBIT payer [G], CREDIT payee [floor(G * 0.9)], CREDIT
    revenue [G - floor(G * 0.9)]); the payer's balance drops by [G], the
    payee's rises by the share, the revenue balance rises by the fee, and
    no other balance moves. *)
Theorem chargeTransfer_effect (now rnd : string) (s : Db) (senderId receiverId : Id)
    (G : Z) (payer payee revenue : Account) :
  well_formed s ->
  senderId <> receiverId ->
  find (WalletService.wallet_of senderId USER_WALLET) (accounts s) = Some payer ->
  find (WalletService.wallet_of receiverId USER_WALLET) (accounts s) = Some payee ->
  find (WalletService.of_type REVENUE) (accounts s) = Some revenue ->
  G <= balance payer ->
  key_unused ("msg_" ++ now ++ "_" ++ rnd) s ->
  let share := (9 * G) / 10 in
  let t := next_id s in
  exists s',
    run (WalletService.processMessagePayment now rnd senderId receiverId G) s = (inr tt, s')
    /\ transactions s'
       = transactions s ++
         [mkTransaction t (Some ("msg_" ++ now ++ "_" ++ rnd)%string) CHAT_PAYMENT
            COMPLETED None (Some senderId) G]
    /\ entries s'
       = entries s ++
         [mkEntry (S t) t (acc_id payer) G DEBIT;
          mkEntry (S (S t)) t (acc_id payee) share CREDIT;
          mkEntry (S (S (S t))) t (acc_id revenue) (G - share) CREDIT]
    /\ entries_of_transaction t s'
       = [mkEntry (S t) t (acc_id payer) G DEBIT;
          mkEntry (S (S t)) t (acc_id payee) share CREDIT;
          mkEntry (S (S (S t))) t (acc_id revenue) (G - share) CREDIT]
    /\ balance_of (acc_id payer) s' = Some (balance payer - G)
    /\ balance_of (acc_id payee) s' = Some (balance payee + share)
    /\ balance_of (acc_id revenue) s' = Some (balance revenue + (G - share))
    /\ (forall i, i <> acc_id payer -> i <> acc_id payee -> i <> acc_id revenue ->
        balance_of i s' = balance_of i s).
Proof.
  intros Hwf Hneq Hp Hq Hr Hbal Hkey share t.
  eexists. split; [apply (processMessagePayment_run now rnd s senderId receiverId G
                            payer payee revenue); assumption|].
  cbv zeta. rewrite Math_floor_times_0_9_div. fold share. fold t.
  pose proof (balance_of_found _ _ _ Hwf Hp) as Bp.
  pose proof (balance_of_found _ _ _ Hwf Hq) as Bq.
  pose proof (balance_of_found _ _ _ Hwf Hr) as Br.
  assert (Dpq : acc_id payer <> acc_id payee /\ acc_id payer <> acc_id revenue
                /\ acc_id payee <> acc_id revenue).
  { destruct Hwf as (Hnd & _).
    apply find_some in Hp, Hq, Hr.
    destruct Hp as [Ip Pp], Hq as [Iq Pq], Hr as [Ir Pr].
    apply wallet_of_owner in Pp, Pq. apply of_type_sound in Pr.
    assert (Hinj : forall a b, In a (accounts s) -> In b (accounts s) ->
                               acc_id a = acc_id b -> a = b).
    { intros a b Ia Ib E. pose proof (find_by_id _ _ Hnd Ia) as Fa.
      rewrite E in Fa. rewrite (find_by_id _ _ Hnd Ib) in Fa. congruence. }
    repeat split; intros E.
    - apply Hinj in E; [|assumption..]. subst payee. destruct Pp, Pq. congruence.
    - apply Hinj in E; [|assumption..]. subst revenue. destruct Pp. congruence.
    - apply Hinj in E; [|assumption..]. subst revenue. destruct Pq. congruence. }
  destruct Dpq as (Dpq & Dpr & Dqr).
  split; [reflexivity|]. split; [reflexivity|].
  split.
  { unfold entries_of_transaction; cbn [entries].
    rewrite filter_app.
    destruct Hwf as (_ & _ & _ & We & _).
    replace (filter _ (entries s)) with (@nil Entry).
    - cbn. rewrite !Nat.eqb_refl. reflexivity.
    - symmetry. unfold below in We. rewrite Forall_forall in We.
      induction (entries s) as [|e es IH]; [reflexivity|]. cbn.
      destruct (Nat.eqb_spec (transactionId e) t) as [E|_].
      + exfalso. specialize (We (transactionId e) (or_introl eq_refl)). unfold t in E. lia.
      + apply IH. intros x Hx. apply We. right. exact Hx. }
  unfold balance_of in *; cbn [accounts].
  rewrite !balance_update_balance.
  repeat split.
  - rewrite Nat.eqb_refl.
    destruct (Nat.eqb_spec (acc_id payer) (acc_id revenue)); [contradiction|].
    destruct (Nat.eqb_spec (acc_id payer) (acc_id payee)); [contradiction|].
    rewrite Bp. reflexivity.
  - rewrite Nat.eqb_refl.
    destruct (Nat.eqb_spec (acc_id payee) (acc_id revenue)); [contradiction|].
    destruct (Nat.eqb_spec (acc_id payee) (acc_id payer)); [congruence|].
    rewrite Bq. reflexivity.
  - rewrite Nat.eqb_refl.
    destruct (Nat.eqb_spec (acc_id revenue) (acc_id payee)); [congruence|].
    destruct (Nat.eqb_spec (acc_id revenue) (acc_id payer)); [congruence|].
    rewrite Br. reflexivity.
  - intros i H1 H2 H3. rewrite !balance_update_balance.
    destruct (Nat.eqb_spec i (acc_id revenue)); [contradiction|].
    destruct (Nat.eqb_spec i (acc_id payee)); [contradiction|].
    destruct (Nat.eqb_spec i (acc_id payer)); [contradiction|].
    reflexivity.
Qed.

(** Scenario 1 of the specification, between two users: the payer goes
    from 10000 to 9900, the payee gains 90 and revenue gains 10. *)
Lemma chargeTransfer_effect_witness :
  exists s',
    run (WalletService.processMessagePayment "1752163200000" "k3x9q" 1%nat 5%nat 100)
        registered_db = (inr tt, s')
    /\ List.length (transactions s') = 1%nat
    /\ List.length (entries s') = 3%nat
    /\ balance_of 2%nat s' = Some 9900
    /\ balance_of 6%nat s' = Some 10090
    /\ balance_of 0%nat s' = Some 10.
Proof.
  destruct (chargeTransfer_effect "1752163200000" "k3x9q" registered_db 1%nat 5%nat 100
              (mkAccount 2%nat (Some 1%nat) USER_WALLET 10000)
              (mkAccount 6%nat (Some 5%nat) USER_WALLET 10000)
              (mkAccount 0%nat None REVENUE 0))
    as (s' & Hrun & Htx & Hen & _ & Hp & Hq & Hr & _).
  - apply well_formedb_sound. reflexivity.
  - discriminate.
  - reflexivity.
  - reflexivity.
  - reflexivity.
  - cbn. lia.
  - reflexivity.
  - exists s'. rewrite Htx, Hen.
    repeat split; assumption || reflexivity.
Defined.

(** ** Solvency checks *)

Lemma processMessagePayment_insufficient now rnd s senderId receiverId G payer payee revenue :
  find (WalletService.wallet_of senderId USER_WALLET) (accounts s) = Some payer ->
  find (WalletService.wallet_of receiverId USER_WALLET) (accounts s) = Some payee ->
  find (WalletService.of_type REVENUE) (accounts s) = Some revenue ->
  balance payer < G ->
  run (WalletService.processMessagePayment now rnd senderId receiverId G) s
  = (inl (Error Insufficient_balance), s).
Proof.
  intros Hp Hq Hr Hlt. apply Z.ltb_lt in Hlt.
  unfold run, WalletService.processMessagePayment, prisma_transaction, bind, account_findFirst.
  rewrite Hp, Hq, Hr, Hlt. reflexivity.
Qed.

Lemma holdFundsForCall_insufficient s userId estimatedAmount callId a :
  find (WalletService.owned_by userId) (accounts s) = Some a ->
  balance a < estimatedAmount ->
  run (WalletService.holdFundsForCall userId estimatedAmount callId) s
  = (inl (BadRequestException Insufficient_balance_for_call), s).
Proof.
  intros Ha Hlt. apply Z.ltb_lt in Hlt.
  unfold run, WalletService.holdFundsForCall, prisma_transaction, bind, account_findFirst.
  rewrite Ha, Hlt. reflexivity.
Qed.

(** The call payment has no such check: it never reports an insufficient
    balance. *)
Lemma processCallPayment_never_insufficient now s a b G R callId :
  fst (run (WalletService.processCallPayment now a b G R callId) s)
  <> inl (Error Insufficient_balance).
Proof.
  change (wp (WalletService.processCallPayment now a b G R callId)
             (fun r _ => r <> inl (Error Insufficient_balance)) s).
  unfold WalletService.processCallPayment; cbv zeta.
  repeat wp_step; discriminate.
Qed.

(** C5.  The call payment debits the initiator without comparing the
    balance with the amount: alice, holding 10000, is charged 15000 for a
    call to carol; the payment commits and leaves her wallet at -5000. *)
Theorem call_payment_overdraws :
  exists s',
    run (WalletService.processCallPayment "1752163200000" 1%nat 5%nat 15000 0 "call-1")
        registered_db = (inr tt, s')
    /\ balance_of 2%nat registered_db = Some 10000
    /\ balance_of 2%nat s' = Some (-5000)
    /\ balance_of 6%nat s' = Some 23500
    /\ balance_of 0%nat s' = Some 1500.
Proof.
  eexists. split; [vm_compute; reflexivity|].
  repeat split; vm_compute; reflexivity.
Qed.

(** ** Top-up *)

Lemma find_snoc {A} (p : A -> bool) (l : list A) (x : A) :
  find p (l ++ [x])
  = match find p l with Some y => Some y | None => if p x then Some x else None end.
Proof.
  induction l as [|a l IH]; cbn; [reflexivity|].
  destruct (p a); [reflexivity|exact IH].
Qed.

(** A successful top-up: the transaction it stores, its single entry, and
    the wallet balance afterwards, counted from 0 when the call opens the
    wallet. *)
Lemma processPayment_run (c : Config) (s : Db) (userId : Id) (amount : Z)
    (paymentData : PaymentResponse) (paymentMethod : string) :
  or_default (MIN_TOPUP_AMOUNT c) 10000 <= amount ->
  exists s1 w1,
    run (GooglePayService.processPayment c userId amount paymentData paymentMethod) s
    = (inr (next_id s), s1)
    /\ transactions s1
       = transactions s ++ [mkTransaction (next_id s) None TOP_UP COMPLETED None
                              (Some userId) amount]
    /\ entries_of_transaction (next_id s) s1
       = entries_of_transaction (next_id s) s
         ++ [mkEntry (match find (WalletService.wallet_of userId USER_WALLET) (accounts s)
                      with Some _ => S (next_id s) | None => S (S (next_id s)) end)
               (next_id s) (acc_id w1) amount CREDIT]
    /\ find (WalletService.wallet_of userId USER_WALLET) (accounts s1) = Some w1
    /\ balance w1
       = match find (WalletService.wallet_of userId USER_WALLET) (accounts s) with
         | Some w => balance w
         | None => 0
         end + amount
    /\ (next_id s < next_id s1)%nat.
Proof.
  intros Hmin.
  assert (Hlt : (amount <? or_default (MIN_TOPUP_AMOUNT c) 10000) = false)
    by (apply Z.ltb_ge; lia).
  unfold run, GooglePayService.processPayment.
  rewrite Hlt.
  unfold GooglePayService.verifyPaymentWithGateway, GooglePayService.addMoneyToWallet,
    prisma_transaction, bind, ret, account_findFirst, transaction_create.
  cbn [existsb opt_string_eqb idempotencyKey negb fst snd].
  replace (existsb _ (transactions s)) with false
    by (symmetry; induction (transactions s) as [|t l IH]; cbn;
        [reflexivity | destruct (idempotencyKey t); exact IH]).
  cbn -[WalletService.wallet_of].
  destruct (find (WalletService.wallet_of userId USER_WALLET) (accounts s)) as [w|] eqn:Hw.
  - cbn -[WalletService.wallet_of].
    eexists. exists (set_balance (increment amount) w).
    split; [reflexivity|]. cbn [transactions accounts next_id entries].
    split; [reflexivity|].
    split; [unfold entries_of_transaction; cbn [entries]; rewrite filter_app; cbn;
            rewrite Nat.eqb_refl; reflexivity|].
    split; [|split; [reflexivity|lia]].
    rewrite find_update_balance by reflexivity. rewrite Hw. cbn.
    rewrite Nat.eqb_refl. reflexivity.
  - cbn -[WalletService.wallet_of].
    eexists. exists (mkAccount (S (next_id s)) (Some userId) USER_WALLET (0 + amount)).
    split; [reflexivity|]. cbn [transactions accounts next_id entries].
    split; [reflexivity|].
    split; [unfold entries_of_transaction; cbn [entries]; rewrite filter_app; cbn;
            rewrite Nat.eqb_refl; reflexivity|].
    split; [|split; [reflexivity|lia]].
    rewrite find_update_balance by reflexivity. rewrite find_snoc, Hw.
    unfold WalletService.wallet_of at 1. cbn. rewrite !Nat.eqb_refl. cbn.
    rewrite Nat.eqb_refl. reflexivity.
Qed.

(** C3, as the code has it.  The top-up stores no idempotency key and looks
    for no earlier transaction: every call with an amount of at least the
    configured minimum creates a new COMPLETED TOP_UP transaction and
    credits the wallet.  Two calls with the same user, amount and payment
    data therefore create two transactions with different ids and raise
    the wallet balance by twice the amount. *)
Theorem topUp_replay_credits_again (c : Config) (s : Db) (userId : Id) (amount : Z)
    (paymentData : PaymentResponse) (paymentMethod : string) :
  or_default (MIN_TOPUP_AMOUNT c) 10000 <= amount ->
  let topUp := GooglePayService.processPayment c userId amount paymentData paymentMethod in
  let before := match find (WalletService.wallet_of userId USER_WALLET) (accounts s) with
                | Some w => balance w
                | None => 0
                end in
  exists t1 s1 t2 s2 w2,
    run topUp s = (inr t1, s1)
    /\ run topUp s1 = (inr t2, s2)
    /\ t1 <> t2
    /\ transactions s2
       = transactions s
         ++ [mkTransaction t1 None TOP_UP COMPLETED None (Some userId) amount;
             mkTransaction t2 None TOP_UP COMPLETED None (Some userId) amount]
    /\ find (WalletService.wallet_of userId USER_WALLET) (accounts s2) = Some w2
    /\ balance w2 = before + amount + amount.
Proof.
  intros Hmin topUp before.
  destruct (processPayment_run c s userId amount paymentData paymentMethod Hmin)
    as (s1 & w1 & R1 & T1 & _ & F1 & B1 & N1).
  destruct (processPayment_run c s1 userId amount paymentData paymentMethod Hmin)
    as (s2 & w2 & R2 & T2 & _ & F2 & B2 & N2).
  exists (next_id s), s1, (next_id s1), s2, w2.
  split; [exact R1|]. split; [exact R2|]. split; [lia|].
  split; [rewrite T2, T1, <- app_assoc; reflexivity|].
  split; [exact F2|].
  rewrite B2, F1, B1. reflexivity.
Qed.

Lemma topUp_replay_credits_again_witness :
  exists t1 s1 t2 s2 w2,
    run (GooglePayService.processPayment default_config 1%nat 10000 some_payment "GOOGLE_PAY")
        registered_db = (inr t1, s1)
    /\ run (GooglePayService.processPayment default_config 1%nat 10000 some_payment
              "GOOGLE_PAY") s1 = (inr t2, s2)
    /\ t1 <> t2
    /\ find (WalletService.wallet_of 1%nat USER_WALLET) (accounts s2) = Some w2
    /\ balance w2 = 30000.
Proof.
  destruct (topUp_replay_credits_again default_config registered_db 1%nat 10000
              some_payment "GOOGLE_PAY") as (t1 & s1 & t2 & s2 & w2 & R1 & R2 & D & _ & F & B).
  - cbn. lia.
  - exists t1, s1, t2, s2, w2. repeat split; assumption.
Defined.

(** C3, as stated, fails: alice tops up 10000 twice with the same payment
    data.  The second call returns a second transaction instead of the
    first one, two TOP_UP transactions are stored, and her balance goes
    from 10000 to 30000, not to 20000. *)
Lemma topUp_replay_counterexample :
  let topUp :=
    GooglePayService.processPayment default_config 1%nat 10000 some_payment "GOOGLE_PAY" in
  let s1 := exec topUp registered_db in
  let s2 := exec topUp s1 in
  fst (run topUp registered_db) = inr 7%nat
  /\ fst (run topUp s1) = inr 9%nat
  /\ List.length (transactions s1) = 1%nat
  /\ List.length (transactions s2) = 2%nat
  /\ balance_of 2%nat registered_db = Some 10000
  /\ balance_of 2%nat s1 = Some 20000
  /\ balance_of 2%nat s2 = Some 30000
  /\ ~ (fst (run topUp s1) = fst (run topUp registered_db)
        /\ transactions s2 = transactions s1
        /\ balance_of 2%nat s2 = balance_of 2%nat s1).
Proof.
  cbv zeta. repeat (split; [vm_compute; reflexivity|]).
  intros (H & _). vm_compute in H. discriminate H.
Qed.

(** ** Settlement and refund of a call *)

Lemma keyless_create_passes (l : list Transaction) :
  existsb (fun t' => opt_string_eqb (idempotencyKey t') None) l = false.
Proof.
  induction l as [|t l IH]; cbn; [reflexivity|].
  destruct (idempotencyKey t); exact IH.
Qed.

Lemma refundHeldFunds_run (s : Db) (callId : string) (userId : Id) (refundAmount : Z)
    (a : Account) :
  find (WalletService.owned_by userId) (accounts s) = Some a ->
  exists s1,
    run (WalletService.refundHeldFunds callId userId refundAmount) s
    = (inr (mkTransaction (next_id s) None REFUND COMPLETED (Some callId) (Some userId)
              refundAmount), s1)
    /\ transactions s1
       = transactions s ++ [mkTransaction (next_id s) None REFUND COMPLETED (Some callId)
                              (Some userId) refundAmount]
    /\ entries s1 = entries s
    /\ accounts s1 = update_balance (acc_id a) (increment refundAmount) (accounts s)
    /\ find (WalletService.owned_by userId) (accounts s1) = Some (set_balance (increment refundAmount) a)
    /\ next_id s1 = S (next_id s).
Proof.
  intros Ha.
  unfold run, WalletService.refundHeldFunds, prisma_transaction, bind, account_findFirst,
    transaction_create.
  rewrite Ha, keyless_create_passes. cbn -[WalletService.owned_by].
  eexists. split; [reflexivity|]. cbn [transactions entries accounts next_id].
  repeat split.
  rewrite find_update_balance by reflexivity. rewrite Ha. cbn.
  rewrite Nat.eqb_refl. reflexivity.
Qed.

Lemma settleCallCharges_run (s : Db) (callId : string) (actualDuration : Z)
    (callType : CallType) (callerId receiverId : Id) (b : Account) :
  find (WalletService.owned_by receiverId) (accounts s) = Some b ->
  let actualCharge :=
    Math_ceil_div_60 actualDuration * match callType with VIDEO => 500 | VOICE => 350 end in
  exists s1,
    run (WalletService.settleCallCharges callId actualDuration callType callerId receiverId) s
    = (inr (mkTransaction (next_id s) None CALL_PAYMENT COMPLETED (Some callId)
              (Some callerId) actualCharge), s1)
    /\ transactions s1
       = transactions s ++ [mkTransaction (next_id s) None CALL_PAYMENT COMPLETED
                              (Some callId) (Some callerId) actualCharge]
    /\ entries s1 = entries s
    /\ accounts s1 = update_balance (acc_id b) (increment actualCharge) (accounts s)
    /\ find (WalletService.owned_by receiverId) (accounts s1)
       = Some (set_balance (increment actualCharge) b)
    /\ next_id s1 = S (next_id s).
Proof.
  intros Hb actualCharge.
  unfold run, WalletService.settleCallCharges, prisma_transaction, bind, account_findFirst,
    transaction_create.
  rewrite Hb, keyless_create_passes. fold actualCharge. cbn -[WalletService.owned_by].
  eexists. split; [reflexivity|]. cbn [transactions entries accounts next_id].
  repeat split.
  rewrite find_update_balance by reflexivity. rewrite Hb. cbn.
  rewrite Nat.eqb_refl. reflexivity.
Qed.

Lemma refundHeldFunds_no_account s callId userId refundAmount :
  find (WalletService.owned_by userId) (accounts s) = None ->
  run (WalletService.refundHeldFunds callId userId refundAmount) s
  = (inl (BadRequestException User_account_not_found), s).
Proof.
  intros Ha.
  unfold run, WalletService.refundHeldFunds, prisma_transaction, bind, account_findFirst.
  rewrite Ha. reflexivity.
Qed.

Lemma settleCallCharges_no_account s callId d k callerId receiverId :
  find (WalletService.owned_by receiverId) (accounts s) = None ->
  run (WalletService.settleCallCharges callId d k callerId receiverId) s
  = (inl (BadRequestException Receiver_account_not_found), s).
Proof.
  intros Hb.
  unfold run, WalletService.settleCallCharges, prisma_transaction, bind, account_findFirst.
  rewrite Hb. reflexivity.
Qed.

Lemma find_of_filter {A} (p : A -> bool) (l : list A) (a : A) :
  filter p l = [a] -> find p l = Some a.
Proof.
  induction l as [|x l IH]; cbn; [discriminate|].
  destruct (p x); [intros [= -> _]; reflexivity|exact IH].
Qed.

Lemma filter_owned_by_update_balance (userId i : Id) (f : Z -> Z) (rows : list Account) :
  filter (WalletService.owned_by userId) (update_balance i f rows)
  = update_balance i f (filter (WalletService.owned_by userId) rows).
Proof.
  unfold update_balance. induction rows as [|x rows IH]; [reflexivity|]. cbn [map filter].
  replace (WalletService.owned_by userId (if Nat.eqb (acc_id x) i then set_balance f x else x))
    with (WalletService.owned_by userId x) by (destruct (Nat.eqb (acc_id x) i); reflexivity).
  destruct (WalletService.owned_by userId x); cbn [map]; rewrite IH; reflexivity.
Qed.

(** The only account of a user stays the only one when its balance is
    updated. *)
Lemma only_account_updated (userId : Id) (f : Z -> Z) (rows : list Account) (a : Account) :
  filter (WalletService.owned_by userId) rows = [a] ->
  filter (WalletService.owned_by userId) (update_balance (acc_id a) f rows)
  = [set_balance f a].
Proof.
  intros Ha. rewrite filter_owned_by_update_balance, Ha.
  unfold update_balance. cbn [map]. rewrite Nat.eqb_refl. reflexivity.
Qed.

(** C4, as the code has it.  Settlement and refund look for no HELD
    transaction.  The account they credit is looked up by its owner alone,
    so the statement is for a user, and a receiver, with one account:
    whatever transactions the store holds, a refund then succeeds, and so
    does a settlement; each call stores a new COMPLETED transaction
    carrying the referenceId and raises the balance of that account by the
    refund amount or by the call charge, writing no entry.  A second call
    with the same referenceId succeeds in the same way and raises the
    balance again. *)
Theorem hold_resolution_repeats (s : Db) (callId : string) (userId : Id) (refundAmount : Z)
    (actualDuration : Z) (callType : CallType) (callerId receiverId : Id)
    (a b : Account) :
  filter (WalletService.owned_by userId) (accounts s) = [a] ->
  filter (WalletService.owned_by receiverId) (accounts s) = [b] ->
  let refund := WalletService.refundHeldFunds callId userId refundAmount in
  let settle :=
    WalletService.settleCallCharges callId actualDuration callType callerId receiverId in
  let actualCharge :=
    Math_ceil_div_60 actualDuration * match callType with VIDEO => 500 | VOICE => 350 end in
  (exists t1 s1 t2 s2,
      run refund s = (inr t1, s1) /\ run refund s1 = (inr t2, s2)
      /\ tx_id t1 <> tx_id t2
      /\ (tx_type t1, tx_status t1, referenceId t1) = (REFUND, COMPLETED, Some callId)
      /\ (tx_type t2, tx_status t2, referenceId t2) = (REFUND, COMPLETED, Some callId)
      /\ entries s2 = entries s
      /\ filter (WalletService.owned_by userId) (accounts s2)
         = [set_balance (increment (refundAmount + refundAmount)) a])
  /\ (exists t1 s1 t2 s2,
      run settle s = (inr t1, s1) /\ run settle s1 = (inr t2, s2)
      /\ tx_id t1 <> tx_id t2
      /\ (tx_type t1, tx_status t1, referenceId t1) = (CALL_PAYMENT, COMPLETED, Some callId)
      /\ (tx_type t2, tx_status t2, referenceId t2) = (CALL_PAYMENT, COMPLETED, Some callId)
      /\ entries s2 = entries s
      /\ filter (WalletService.owned_by receiverId) (accounts s2)
         = [set_balance (increment (actualCharge + actualCharge)) b]).
Proof.
  intros Ha Hb refund settle actualCharge. split.
  - destruct (refundHeldFunds_run s callId userId refundAmount a (find_of_filter _ _ _ Ha))
      as (s1 & R1 & _ & E1 & A1 & _ & N1).
    pose proof (only_account_updated userId (increment refundAmount) _ _ Ha) as Ha1.
    rewrite <- A1 in Ha1.
    destruct (refundHeldFunds_run s1 callId userId refundAmount _ (find_of_filter _ _ _ Ha1))
      as (s2 & R2 & _ & E2 & A2 & _ & N2).
    pose proof (only_account_updated userId (increment refundAmount) _ _ Ha1) as Ha2.
    rewrite <- A2 in Ha2.
    do 4 eexists. split; [exact R1|]. split; [exact R2|].
    cbn [tx_id tx_type tx_status referenceId].
    split; [lia|]. split; [reflexivity|]. split; [reflexivity|].
    split; [congruence|].
    rewrite Ha2. unfold set_balance, increment; cbn. do 2 f_equal. lia.
  - destruct (settleCallCharges_run s callId actualDuration callType callerId receiverId b
                (find_of_filter _ _ _ Hb)) as (s1 & R1 & _ & E1 & A1 & _ & N1).
    pose proof (only_account_updated receiverId (increment actualCharge) _ _ Hb) as Hb1.
    fold actualCharge in A1. rewrite <- A1 in Hb1.
    destruct (settleCallCharges_run s1 callId actualDuration callType callerId receiverId
                _ (find_of_filter _ _ _ Hb1)) as (s2 & R2 & _ & E2 & A2 & _ & N2).
    pose proof (only_account_updated receiverId (increment actualCharge) _ _ Hb1) as Hb2.
    fold actualCharge in A2. rewrite <- A2 in Hb2.
    do 4 eexists. split; [exact R1|]. split; [exact R2|].
    cbn [tx_id tx_type tx_status referenceId].
    split; [lia|]. split; [reflexivity|]. split; [reflexivity|].
    split; [congruence|].
    rewrite Hb2. unfold set_balance, increment; cbn. do 2 f_equal. lia.
Qed.

Lemma hold_resolution_repeats_witness :
  exists t1 s1 t2 s2,
    run (WalletService.refundHeldFunds "call-7" 1%nat 2000) registered_db = (inr t1, s1)
    /\ run (WalletService.refundHeldFunds "call-7" 1%nat 2000) s1 = (inr t2, s2)
    /\ filter (WalletService.owned_by 1%nat) (accounts s2)
       = [mkAccount 2%nat (Some 1%nat) USER_WALLET 14000].
Proof.
  destruct (hold_resolution_repeats registered_db "call-7" 1%nat 2000 190 VIDEO 1%nat 5%nat
              (mkAccount 2%nat (Some 1%nat) USER_WALLET 10000)
              (mkAccount 6%nat (Some 5%nat) USER_WALLET 10000))
    as ((t1 & s1 & t2 & s2 & R1 & R2 & _ & _ & _ & _ & F) & _).
  - vm_compute. reflexivity.
  - vm_compute. reflexivity.
  - exists t1, s1, t2, s2. repeat split; assumption.
Defined.

(** C4, as stated, fails (scenario 4 of the specification): alice holds
    2000 for call-7 and is refunded; a second refund for call-7 does not
    fail but returns a new transaction and takes her balance from 10000 to
    12000.  Likewise a settlement for call-9, for which nothing was ever
    held, succeeds and credits carol 2000. *)
Lemma hold_resolution_counterexample :
  let refund := WalletService.refundHeldFunds "call-7" 1%nat 2000 in
  let settle := WalletService.settleCallCharges "call-9" 190 VIDEO 1%nat 5%nat in
  let s0 := exec (WalletService.holdFundsForCall 1%nat 2000 "call-7") registered_db in
  let s1 := exec refund s0 in
  let s2 := exec refund s1 in
  balance_of 2%nat s0 = Some 8000
  /\ balance_of 2%nat s1 = Some 10000
  /\ fst (run refund s1)
     = inr (mkTransaction 9%nat None REFUND COMPLETED (Some "call-7"%string) (Some 1%nat) 2000)
  /\ balance_of 2%nat s2 = Some 12000
  /\ transactions registered_db = []
  /\ fst (run settle registered_db)
     = inr (mkTransaction 7%nat None CALL_PAYMENT COMPLETED (Some "call-9"%string)
              (Some 1%nat) 2000)
  /\ balance_of 6%nat (exec settle registered_db) = Some 12000
  /\ ~ ((exists e, fst (run refund s1) = inl e)
        /\ balance_of 2%nat s2 = balance_of 2%nat s1).
Proof.
  cbv zeta. repeat (split; [vm_compute; reflexivity|]).
  intros ((e & H) & _). vm_compute in H. discriminate H.
Qed.

(** ** Entry sets of the transactions an operation creates *)

Lemma wp_run {A} (m : M A) Q s r s' : wp m Q s -> run m s = (r, s') -> Q r s'.
Proof. unfold wp, run. intros H E. rewrite E in H. exact H. Qed.

Lemma filter_transaction_fresh n t es :
  below n (map transactionId es) -> (n <= t)%nat ->
  filter (fun e => Nat.eqb (transactionId e) t) es = [].
Proof.
  unfold below. intros Hb Hle. induction es as [|e es IH]; [reflexivity|].
  cbn in *. inversion Hb; subst.
  destruct (Nat.eqb_spec (transactionId e) t); [lia|]. apply IH. assumption.
Qed.

Lemma filter_account_fresh n a es :
  below n (map accountId es) -> (n <= a)%nat ->
  filter (fun e => Nat.eqb (accountId e) a) es = [].
Proof.
  unfold below. intros Hb Hle. induction es as [|e es IH]; [reflexivity|].
  cbn in *. inversion Hb; subst.
  destruct (Nat.eqb_spec (accountId e) a); [lia|]. apply IH. assumption.
Qed.

Ltac eqb_cases :=
  repeat match goal with
  | |- context [Nat.eqb ?x ?y] => destruct (Nat.eqb_spec x y); try (exfalso; lia)
  end.

(** Sums over the entries of a transaction created from a well-formed
    store: the stored entries do not belong to it. *)
Ltac entry_sums W :=
  unfold credits, debits, entries_of_transaction; cbn [entries];
  rewrite ?filter_app, ?(filter_transaction_fresh _ _ _ W) by lia;
  cbn [filter app transactionId]; eqb_cases;
  cbn [sum_of fold_right app direction amount direction_eqb]; try lia.

(** C1, as the code has it.  From a well-formed store, the transaction a
    successful chat payment or call payment creates has CREDIT entries and
    DEBIT entries that both sum to the gross amount.  The transaction of a
    successful top-up has CREDIT entries summing to the amount and no
    DEBIT; that of a successful withdrawal has DEBIT entries summing to
    the amount and no CREDIT; the refund transaction that a call payment
    adds when the refund amount is positive has CREDIT entries summing to
    the refund amount and no DEBIT. *)
Theorem entry_sets_by_operation (c : Config) (s : Db) :
  well_formed s ->
  let t := next_id s in
  (forall now rnd a b G s',
      run (WalletService.processMessagePayment now rnd a b G) s = (inr tt, s') ->
      credits t s' = G /\ debits t s' = G)
  /\ (forall now a b G R callId s',
      run (WalletService.processCallPayment now a b G R callId) s = (inr tt, s') ->
      credits t s' = G /\ debits t s' = G
      /\ (0 < R -> credits (t + 4)%nat s' = R /\ debits (t + 4)%nat s' = 0))
  /\ (forall u amt pd m t' s',
      run (GooglePayService.processPayment c u amt pd m) s = (inr t', s') ->
      t' = t /\ credits t s' = amt /\ debits t s' = 0)
  /\ (forall u amt m t' s',
      run (GooglePayService.processWithdrawal c u amt m) s = (inr t', s') ->
      t' = t /\ credits t s' = 0 /\ debits t s' = amt).
Proof.
  intros Hwf t. destruct Hwf as (_ & _ & _ & W & _). unfold t.
  split; [|split; [|split]].
  - intros now rnd a b G s' Hrun.
    refine (wp_run _ (fun r st => r = inr tt ->
              credits (next_id s) st = G /\ debits (next_id s) st = G) _ _ _ _ Hrun eq_refl).
    unfold WalletService.processMessagePayment; cbv zeta.
    repeat wp_step; try discriminate; intros _; split; entry_sums W.
  - intros now a b G R callId s' Hrun.
    replace (next_id s + 4)%nat with (S (S (S (S (next_id s))))) by lia.
    refine (wp_run _ (fun r st => r = inr tt ->
              credits (next_id s) st = G /\ debits (next_id s) st = G
              /\ (0 < R -> credits (S (S (S (S (next_id s))))) st = R
                           /\ debits (S (S (S (S (next_id s))))) st = 0))
              _ _ _ _ Hrun eq_refl).
    unfold WalletService.processCallPayment; cbv zeta.
    repeat wp_step; try discriminate; intros _;
      (split; [|split; [|intros HR; split]]); entry_sums W.
  - intros u amt pd m t' s' Hrun.
    refine (wp_run _ (fun r st => r = inr t' ->
              t' = next_id s /\ credits (next_id s) st = amt /\ debits (next_id s) st = 0)
              _ _ _ _ Hrun eq_refl).
    unfold GooglePayService.processPayment; cbv zeta.
    repeat wp_step; try discriminate; intros [= <-];
      (split; [reflexivity|split]); entry_sums W.
  - intros u amt m t' s' Hrun.
    refine (wp_run _ (fun r st => r = inr t' ->
              t' = next_id s /\ credits (next_id s) st = 0 /\ debits (next_id s) st = amt)
              _ _ _ _ Hrun eq_refl).
    unfold GooglePayService.processWithdrawal; cbv zeta.
    repeat wp_step; try discriminate; intros [= <-];
      (split; [reflexivity|split]); entry_sums W.
Qed.

Lemma entry_sets_by_operation_witness :
  let s1 := exec (GooglePayService.processPayment default_config 1%nat 10000 some_payment
                    "GOOGLE_PAY") registered_db in
  let s2 := exec (WalletService.processMessagePayment "1752163200000" "k3x9q" 1%nat 5%nat 100)
                 registered_db in
  (credits 7%nat s1 = 10000 /\ debits 7%nat s1 = 0)
  /\ (credits 7%nat s2 = 100 /\ debits 7%nat s2 = 100).
Proof.
  intros s1 s2.
  destruct (entry_sets_by_operation default_config registered_db
              (well_formedb_sound registered_db eq_refl)) as (Hmsg & _ & Htop & _).
  split.
  - destruct (Htop 1%nat 10000 some_payment "GOOGLE_PAY"%string 7%nat s1) as (_ & Hc & Hd).
    + vm_compute. reflexivity.
    + split; assumption.
  - apply (Hmsg "1752163200000"%string "k3x9q"%string 1%nat 5%nat 100 s2).
    vm_compute. reflexivity.
Defined.

(** C1, as stated, fails.  A top-up of 10000 commits a transaction whose
    only entry is a CREDIT of 10000; a withdrawal of 50000 commits one
    whose only entry is a DEBIT of 50000; the refund transaction of a call
    payment has a single CREDIT of 300.  None of the three has credits equal
    to debits. *)
Lemma conservation_counterexample :
  let topped := exec (GooglePayService.processPayment default_config 1%nat 50000 some_payment
                        "GOOGLE_PAY") registered_db in
  let withdrawn := exec (GooglePayService.processWithdrawal default_config 1%nat 50000
                           "BANK_TRANSFER") topped in
  let called := exec (WalletService.processCallPayment "1752163200000" 1%nat 5%nat 1000 300
                        "call-1") registered_db in
  transactions topped = [mkTransaction 7%nat None TOP_UP COMPLETED None (Some 1%nat) 50000]
  /\ entries_of_transaction 7%nat topped = [mkEntry 8%nat 7%nat 2%nat 50000 CREDIT]
  /\ credits 7%nat topped = 50000 /\ debits 7%nat topped = 0
  /\ transactions withdrawn
     = [mkTransaction 7%nat None TOP_UP COMPLETED None (Some 1%nat) 50000;
        mkTransaction 9%nat None WITHDRAWAL COMPLETED None (Some 1%nat) 50000]
  /\ entries_of_transaction 9%nat withdrawn = [mkEntry 10%nat 9%nat 2%nat 50000 DEBIT]
  /\ credits 9%nat withdrawn = 0 /\ debits 9%nat withdrawn = 50000
  /\ entries_of_transaction 11%nat called = [mkEntry 12%nat 11%nat 2%nat 300 CREDIT]
  /\ credits 11%nat called = 300 /\ debits 11%nat called = 0
  /\ ~ (credits 7%nat topped = debits 7%nat topped)
  /\ ~ (credits 9%nat withdrawn = debits 9%nat withdrawn)
  /\ ~ (credits 11%nat called = debits 11%nat called).
Proof.
  cbv zeta. repeat (split; [vm_compute; reflexivity|]).
  repeat split; intros H; vm_compute in H; discriminate H.
Qed.

(** ** Balances against entry histories *)

Lemma map_fixed {A} (f : A -> A) (l : list A) : (forall x, f x = x) -> map f l = l.
Proof.
  intros H. induction l as [|a l IH]; cbn; [reflexivity|]. rewrite H, IH. reflexivity.
Qed.

Lemma drifts_of_update_balance i f rows es :
  drifts_of (update_balance i f rows) es
  = map (fun a => (acc_id a,
                   (if Nat.eqb (acc_id a) i then f (balance a) else balance a)
                   - net_of (acc_id a) es)) rows.
Proof.
  unfold drifts_of, update_balance. rewrite map_map. apply map_ext.
  intros a. destruct (Nat.eqb (acc_id a) i); reflexivity.
Qed.

Lemma drifts_of_increment i d rows es :
  drifts_of (update_balance i (increment d) rows) es = adjust i d (drifts_of rows es).
Proof.
  rewrite drifts_of_update_balance. unfold adjust, drifts_of. rewrite map_map.
  apply map_ext. intros a. cbn [fst snd]. unfold increment.
  destruct (Nat.eqb (acc_id a) i); f_equal; lia.
Qed.

Lemma drifts_of_decrement i d rows es :
  drifts_of (update_balance i (decrement d) rows) es = adjust i (- d) (drifts_of rows es).
Proof.
  rewrite drifts_of_update_balance. unfold adjust, drifts_of. rewrite map_map.
  apply map_ext. intros a. cbn [fst snd]. unfold decrement.
  destruct (Nat.eqb (acc_id a) i); f_equal; lia.
Qed.

Lemma sum_of_app d es es' : sum_of d (es ++ es') = sum_of d es + sum_of d es'.
Proof.
  unfold sum_of. induction es as [|e es IH]; cbn; [reflexivity|]. rewrite IH. lia.
Qed.

Lemma net_of_snoc j es k t a amt d :
  net_of j (es ++ [mkEntry k t a amt d])
  = net_of j es
    + (if Nat.eqb a j then match d with CREDIT => amt | DEBIT => - amt end else 0).
Proof.
  unfold net_of. rewrite filter_app, !sum_of_app. cbn [filter accountId].
  destruct (Nat.eqb a j); destruct d; cbn; lia.
Qed.

Lemma drifts_of_entry rows es k t a amt d :
  drifts_of rows (es ++ [mkEntry k t a amt d])
  = adjust a (match d with CREDIT => - amt | DEBIT => amt end) (drifts_of rows es).
Proof.
  unfold adjust, drifts_of. rewrite map_map. apply map_ext.
  intros r. cbn [fst snd]. rewrite net_of_snoc, (Nat.eqb_sym a).
  destruct (Nat.eqb (acc_id r) a); destruct d; f_equal; lia.
Qed.

Lemma drifts_of_opened rows es n i u ty :
  below n (map accountId es) -> (n <= i)%nat ->
  drifts_of (rows ++ [mkAccount i u ty 0]) es = drifts_of rows es ++ zero_drifts [i].
Proof.
  intros Hb Hle. unfold drifts_of, zero_drifts. rewrite map_app. cbn.
  unfold net_of. rewrite (filter_account_fresh _ _ _ Hb Hle). reflexivity.
Qed.

Lemma adjust_app i d l l' : adjust i d (l ++ l') = adjust i d l ++ adjust i d l'.
Proof. apply map_app. Qed.

(** Cancelling adjustments, compared pointwise. *)
Ltac adjust_cancel :=
  unfold adjust; rewrite ?map_map; apply map_fixed;
  intros [j x]; cbn [fst snd]; f_equal; eqb_cases; lia.

Ltac drifts_leaf W :=
  unfold drifts; cbn [accounts entries];
  first
    [ exists (@nil Id); cbn [zero_drifts map]; rewrite app_nil_r;
      repeat rewrite ?drifts_of_increment, ?drifts_of_decrement, ?drifts_of_entry;
      first [reflexivity | adjust_cancel]
    | eexists [_];
      repeat rewrite ?drifts_of_increment, ?drifts_of_decrement, ?drifts_of_entry;
      rewrite (drifts_of_opened _ _ _ _ _ _ W) by lia;
      rewrite ?adjust_app; f_equal;
      [ adjust_cancel
      | cbn; rewrite ?Nat.eqb_refl; cbn; repeat f_equal; lia ] ].

Lemma drifts_perform c op s :
  well_formed s -> records_entries op = true ->
  exists opened, drifts (exec (perform c op) s) = drifts s ++ zero_drifts opened.
Proof.
  intros (_ & _ & _ & _ & W) Hrec.
  change (wp (perform c op)
             (fun _ s' => exists opened, drifts s' = drifts s ++ zero_drifts opened) s).
  destruct op; try discriminate Hrec; unfold_service; cbv zeta; repeat wp_step.
  all: drifts_leaf W.
Qed.

Lemma drifts_perform_all c ops s :
  well_formed s -> forallb records_entries ops = true ->
  exists opened, drifts (perform_all c ops s) = drifts s ++ zero_drifts opened.
Proof.
  revert s. induction ops as [|op ops IH]; intros s Hwf Hrec.
  - exists []. cbn. rewrite app_nil_r. reflexivity.
  - change (perform_all c (op :: ops) s) with (perform_all c ops (exec (perform c op) s)).
    cbn [forallb] in Hrec.
    apply andb_true_iff in Hrec. destruct Hrec as [Hop Hops].
    destruct (drifts_perform c op s Hwf Hop) as (o1 & E1).
    destruct (IH _ (well_formed_perform c op s Hwf) Hops) as (o2 & E2).
    exists (o1 ++ o2). rewrite E2, E1. unfold zero_drifts.
    rewrite map_app, app_assoc. reflexivity.
Qed.

Lemma entries_unrecorded c op s :
  records_entries op = false -> entries (exec (perform c op) s) = entries s.
Proof.
  intros Hrec.
  change (wp (perform c op) (fun _ s' => entries s' = entries s) s).
  destruct op; try discriminate Hrec; unfold_service; cbv zeta; repeat wp_step;
    reflexivity.
Qed.

(** C2, as the code has it.  The operations that write entries
    (processMessageCharge, processMessagePayment, processCallPayment, the
    top-up and the withdrawal) move every balance by exactly the net of the
    entries they write against the account, in the same unit: after any
    series of them from a well-formed store, every account's balance
    exceeds its CREDIT-minus-DEBIT entry total by what it did before the
    series, and an account opened by a top-up agrees with its entries.  In
    particular, if every balance equalled its entry total before, it does
    after.  The remaining operations (registration, holdFundsForCall,
    settleCallCharges, refundHeldFunds) never write an entry, whatever
    they do to a balance. *)
Theorem balance_entry_consistency (c : Config) (s : Db) (ops : list Operation) :
  well_formed s ->
  forallb records_entries ops = true ->
  let s' := perform_all c ops s in
  (exists opened, drifts s' = drifts s ++ zero_drifts opened)
  /\ ((forall a, In a (accounts s) -> balance a = net_entries (acc_id a) s) ->
      forall a', In a' (accounts s') -> balance a' = net_entries (acc_id a') s')
  /\ (forall op, records_entries op = false ->
      entries (exec (perform c op) s') = entries s').
Proof.
  intros Hwf Hrec s'.
  destruct (drifts_perform_all c ops s Hwf Hrec) as (opened & E). fold s' in E.
  split; [exists opened; exact E|]. split.
  - intros Hs a' Ha'.
    assert (Hz : Forall (fun p => snd p = 0) (drifts s')).
    { rewrite E. apply Forall_app. split.
      - unfold drifts, drifts_of. apply Forall_forall. intros p Hp.
        apply in_map_iff in Hp. destruct Hp as (a & <- & Ha). cbn.
        specialize (Hs a Ha). unfold net_entries in Hs. lia.
      - unfold zero_drifts. apply Forall_forall. intros p Hp.
        apply in_map_iff in Hp. destruct Hp as (i & <- & _). reflexivity. }
    rewrite Forall_forall in Hz.
    specialize (Hz (acc_id a', balance a' - net_of (acc_id a') (entries s'))).
    cbn in Hz. unfold net_entries.
    enough (balance a' - net_of (acc_id a') (entries s') = 0) by lia.
    apply Hz. unfold drifts, drifts_of.
    apply (in_map (fun a => (acc_id a, balance a - net_of (acc_id a) (entries s')))).
    exact Ha'.
  - intros op Hop. apply entries_unrecorded. exact Hop.
Qed.

Lemma balance_entry_consistency_witness :
  let s' := perform_all default_config recorded_requests opening_db in
  (balance_of 6%nat s' = Some 59200 /\ balance_of 9%nat s' = Some 10990
   /\ balance_of 0%nat s' = Some 110)
  /\ forall a', In a' (accounts s') -> balance a' = net_entries (acc_id a') s'.
Proof.
  intros s'. split; [repeat split; reflexivity|].
  apply (balance_entry_consistency default_config opening_db recorded_requests).
  - apply well_formedb_sound. reflexivity.
  - reflexivity.
  - intros a Ha. cbn in Ha. destruct Ha as [<-|[<-|[<-|[]]]]; reflexivity.
Defined.

(** C2, as stated, fails.  Registration opens alice's wallet at 10000 with
    no entry, and a hold of 2000 for call-7 succeeds, lowers her balance to
    8000 and writes no entry: her balance is 8000 while her entries net to
    0. *)
Lemma balance_entry_counterexample :
  let hold := WalletService.holdFundsForCall 1%nat 2000 "call-7" in
  let s1 := exec hold registered_db in
  balance_of 2%nat registered_db = Some 10000
  /\ net_entries 2%nat registered_db = 0
  /\ fst (run hold registered_db)
     = inr (mkTransaction 7%nat None HOLD_FUNDS HELD (Some "call-7"%string) (Some 1%nat) 2000)
  /\ balance_of 2%nat s1 = Some 8000
  /\ entries s1 = []
  /\ net_entries 2%nat s1 = 0
  /\ ~ (balance_of 2%nat s1 = Some (net_entries 2%nat s1)).
Proof.
  cbv zeta. repeat (split; [vm_compute; reflexivity|]).
  intros H. vm_compute in H. discriminate H.
Qed.

(** ** Payments to an influencer *)

(** Registration opens one account for the new user: an INFLUENCER_WALLET
    at 0 for an influencer, a USER_WALLET at 10000 otherwise. *)
Lemma register_opens_wallet (registerDto : RegisterDto) (s s' : Db) (u : User) :
  run (AuthService.register registerDto) s = (inr u, s') ->
  let role := match dto_role registerDto with Some r => r | None => USER end in
  user_id u = next_id s
  /\ user_role u = role
  /\ accounts s'
     = accounts s
       ++ [mkAccount (S (next_id s)) (Some (next_id s))
             (match role with INFLUENCER => INFLUENCER_WALLET | USER => USER_WALLET end)
             (match role with USER => 10000 | INFLUENCER => 0 end)].
Proof.
  intros Hrun role.
  refine (wp_run _ (fun r st => r = inr u -> _ /\ _ /\ accounts st = _) _ _ _ _ Hrun eq_refl).
  unfold AuthService.register; cbv zeta. fold role.
  repeat wp_step; try discriminate. intros [= <-]. cbn [user_id user_role].
  repeat split. destruct role; reflexivity.
Qed.

(** C10, as the code has it.  Both payment paths look the receiver up
    with the filter USER_WALLET.  Whenever every account of the receiver is
    an INFLUENCER_WALLET, which is what registration leaves an influencer
    with, the chat payment and the call payment throw
    "Required accounts not found" and leave the store unchanged, whoever
    the sender is and whatever the amount. *)
Theorem influencer_wallet_not_payable (s : Db) (receiverId : Id) :
  (forall a, In a (accounts s) -> acc_userId a = Some receiverId ->
             accountType a = INFLUENCER_WALLET) ->
  forall (now rnd : string) (senderId : Id) (G R : Z) (callId : string),
    run (WalletService.processMessagePayment now rnd senderId receiverId G) s
    = (inl (Error Required_accounts_not_found), s)
    /\ run (WalletService.processCallPayment now senderId receiverId G R callId) s
       = (inl (Error Required_accounts_not_found), s).
Proof.
  intros Honly now rnd senderId G R callId.
  assert (Hnone : find (WalletService.wallet_of receiverId USER_WALLET) (accounts s) = None).
  { destruct (find _ (accounts s)) as [a|] eqn:Hf; [|reflexivity].
    apply find_some in Hf. destruct Hf as [Hin Hp].
    apply wallet_of_owner in Hp. destruct Hp as [Hu Ht].
    specialize (Honly a Hin Hu). congruence. }
  unfold run, WalletService.processMessagePayment, WalletService.processCallPayment,
    prisma_transaction, bind, account_findFirst.
  rewrite Hnone.
  split.
  - destruct (find (WalletService.wallet_of senderId USER_WALLET) (accounts s));
      destruct (find (WalletService.of_type REVENUE) (accounts s)); reflexivity.
  - destruct (find (WalletService.wallet_of senderId USER_WALLET) (accounts s));
      destruct (find (WalletService.of_type REVENUE) (accounts s)); reflexivity.
Qed.

(** alice, a user holding 10000, pays bob, a freshly registered
    influencer. *)
Lemma influencer_wallet_not_payable_witness :
  run (WalletService.processMessagePayment "1752163200000" "k3x9q" 1%nat 3%nat 100)
      registered_db
  = (inl (Error Required_accounts_not_found), registered_db)
  /\ run (WalletService.processCallPayment "1752163200000" 1%nat 3%nat 100 0 "call-1")
         registered_db
     = (inl (Error Required_accounts_not_found), registered_db).
Proof.
  apply (influencer_wallet_not_payable registered_db 3%nat).
  intros a Ha Hu. cbn in Ha.
  destruct Ha as [<-|[<-|[<-|[<-|[]]]]]; try discriminate Hu; reflexivity.
Defined.

(** C10, as stated, fails for an influencer who has topped up.  The top-up
    gets or creates a USER_WALLET for its caller, so after bob (role
    INFLUENCER) adds 10000 he owns one; alice's message payment of 100 to
    him then succeeds, taking her from 10000 to 9900 and his user wallet
    from 10000 to 10090. *)
Lemma influencer_payment_counterexample :
  let s1 := exec (GooglePayService.processPayment default_config 3%nat 10000 some_payment
                    "GOOGLE_PAY") registered_db in
  let pay := WalletService.processMessagePayment "1752163200000" "k3x9q" 1%nat 3%nat 100 in
  let s2 := exec pay s1 in
  find (fun u => Nat.eqb (user_id u) 3%nat) (users s1)
  = Some (mkUser 3%nat "b@x.io" "bob" INFLUENCER "bob")
  /\ find (WalletService.wallet_of 3%nat USER_WALLET) (accounts s1)
     = Some (mkAccount 8%nat (Some 3%nat) USER_WALLET 10000)
  /\ fst (run pay s1) = inr tt
  /\ balance_of 2%nat s1 = Some 10000
  /\ balance_of 2%nat s2 = Some 9900
  /\ balance_of 8%nat s2 = Some 10090
  /\ balance_of 0%nat s2 = Some 10
  /\ ~ (run pay s1 = (inl (Error Required_accounts_not_found), s1)).
Proof.
  cbv zeta. repeat (split; [vm_compute; reflexivity|]).
  intros H. apply (f_equal fst) in H. vm_compute in H. discriminate H.
Qed.

(** * Further properties of the ledger *)

(** ** Money held in all accounts *)

Lemma total_balance_of_app l l' :
  total_balance_of (l ++ l') = total_balance_of l + total_balance_of l'.
Proof.
  unfold total_balance_of. induction l as [|a l IH]; cbn; [reflexivity|]. rewrite IH. lia.
Qed.

Lemma total_balance_of_untouched i f rows :
  ~ In i (map acc_id rows) ->
  total_balance_of (update_balance i f rows) = total_balance_of rows.
Proof.
  unfold total_balance_of, update_balance.
  induction rows as [|a rows IH]; cbn; intros Hn; [reflexivity|].
  destruct (Nat.eqb_spec (acc_id a) i) as [E|_]; [exfalso; apply Hn; left; exact E|].
  rewrite IH; [reflexivity|]. intros H. apply Hn. right. exact H.
Qed.

Lemma total_balance_of_shift i d rows :
  NoDup (map acc_id rows) -> In i (map acc_id rows) ->
  total_balance_of (update_balance i (fun b => b + d) rows) = total_balance_of rows + d.
Proof.
  induction rows as [|a rows IH]; intros Hnd Hin; [contradiction|].
  cbn [map] in Hnd, Hin. inversion Hnd as [|? ? Hnotin Hnd']; subst.
  pose proof (total_balance_of_untouched (acc_id a) (fun b => b + d) rows Hnotin) as U.
  unfold total_balance_of, update_balance in *. cbn [map fold_right].
  destruct (Nat.eqb_spec (acc_id a) i) as [E|N].
  - subst i. rewrite U. cbn. lia.
  - destruct Hin as [E|Hin]; [contradiction|].
    rewrite IH by assumption. lia.
Qed.

Lemma total_balance_of_increment i d rows :
  NoDup (map acc_id rows) -> In i (map acc_id rows) ->
  total_balance_of (update_balance i (increment d) rows) = total_balance_of rows + d.
Proof. apply total_balance_of_shift. Qed.

Lemma total_balance_of_decrement i d rows :
  NoDup (map acc_id rows) -> In i (map acc_id rows) ->
  total_balance_of (update_balance i (decrement d) rows) = total_balance_of rows - d.
Proof.
  intros Hnd Hin. change (decrement d) with (fun b => b + - d).
  rewrite total_balance_of_shift by assumption. lia.
Qed.

Lemma find_member (p : Account -> bool) rows a :
  find p rows = Some a -> In (acc_id a) (map acc_id rows).
Proof. intros H. apply find_some in H. apply in_map. apply H. Qed.

Ltac find_members :=
  repeat match goal with
  | Hf : find _ (accounts ?s) = Some ?a |- _ =>
      lazymatch goal with
      | _ : In (acc_id a) (map acc_id (accounts s)) |- _ => fail
      | _ => pose proof (find_member _ _ _ Hf)
      end
  end.

Ltac ltb_facts :=
  repeat match goal with
  | H : (_ <? _) = true |- _ => apply Z.ltb_lt in H
  | H : (_ <? _) = false |- _ => apply Z.ltb_ge in H
  | H : (_ <=? _) = true |- _ => apply Z.leb_le in H
  | H : (_ <=? _) = false |- _ => apply Z.leb_gt in H
  end.

(** Side conditions on the ids of a chain of balance updates. *)
Ltac ids_side :=
  rewrite ?map_acc_id_update_balance, ?map_app; cbn [map acc_id];
  first
    [ assumption
    | match goal with
      | W : below ?n (map acc_id ?l) |- NoDup (map acc_id ?l ++ [_]) =>
          apply (NoDup_snoc_fresh n); [assumption | exact W | lia]
      end
    | apply in_or_app; first [left; assumption | right; left; reflexivity] ].

Ltac total_leaf :=
  unfold total_balance; cbn [accounts];
  repeat first
    [ rewrite total_balance_of_increment by ids_side
    | rewrite total_balance_of_decrement by ids_side ];
  rewrite ?total_balance_of_app; cbn [total_balance_of fold_right balance];
  try lia.

(** X1.  What a request does to the money held in all accounts together,
    from a well-formed store: a request that throws leaves the total as it
    was; a committed chat payment or message charge leaves it unchanged; a
    hold or a withdrawal lowers it by the amount; a settlement, a refund or
    a top-up raises it by the charge or the amount; a registration adds the
    opening balance; and a call payment raises it by its refund amount when
    that is positive. *)
Theorem money_supply (c : Config) (op : Operation) (s s' : Db) (r : Exception + unit) :
  well_formed s ->
  run (perform c op) s = (r, s') ->
  total_balance s' = total_balance s + match r with inr _ => minted op | inl _ => 0 end.
Proof.
  intros Hwf Hrun.
  refine (wp_run _ (fun r st => total_balance st
             = total_balance s + match r with inr _ => minted op | inl _ => 0 end)
            _ _ _ _ Hrun).
  destruct Hwf as (W1 & W2 & _).
  destruct op; unfold_service; cbv zeta; cbn [minted]; repeat wp_step;
    find_members; ltb_facts; try (unfold total_balance; cbn [accounts]; lia).
  all: try total_leaf.
  destruct (dto_role registerDto) as [[]|]; reflexivity.
Qed.

(** ** Balances stay non-negative under the checked operations *)

Lemma solvent_increment i d rows :
  0 <= d -> Forall (fun a => 0 <= balance a) rows ->
  Forall (fun a => 0 <= balance a) (update_balance i (increment d) rows).
Proof.
  intros Hd H. unfold update_balance. apply Forall_forall. intros x Hx.
  apply in_map_iff in Hx. destruct Hx as (a & <- & Ha).
  rewrite Forall_forall in H. specialize (H a Ha).
  destruct (Nat.eqb (acc_id a) i); cbn; unfold increment; lia.
Qed.

Lemma solvent_decrement (p : Account -> bool) a d rows :
  NoDup (map acc_id rows) -> find p rows = Some a -> d <= balance a ->
  Forall (fun r => 0 <= balance r) rows ->
  Forall (fun r => 0 <= balance r) (update_balance (acc_id a) (decrement d) rows).
Proof.
  intros Hnd Hf Hd H. unfold update_balance. apply Forall_forall. intros x Hx.
  apply in_map_iff in Hx. destruct Hx as (r & <- & Hr).
  rewrite Forall_forall in H. pose proof (H r Hr) as Hr0.
  destruct (Nat.eqb_spec (acc_id r) (acc_id a)) as [E|_]; [|exact Hr0].
  apply find_some in Hf. destruct Hf as [Ha _].
  pose proof (find_by_id _ _ Hnd Ha) as F1. pose proof (find_by_id _ _ Hnd Hr) as F2.
  rewrite E in F2. rewrite F1 in F2. injection F2 as <-.
  cbn. unfold decrement. lia.
Qed.

Lemma solvent_opened rows a :
  0 <= balance a -> Forall (fun r => 0 <= balance r) rows ->
  Forall (fun r => 0 <= balance r) (rows ++ [a]).
Proof. intros Ha H. apply Forall_app. split; [exact H|]. repeat constructor. exact Ha. Qed.

Ltac solvent_leaf :=
  unfold solvent; cbn [accounts];
  repeat match goal with
  | |- Forall _ (update_balance _ (increment _) _) => apply solvent_increment
  | |- Forall _ (update_balance _ (decrement _) _) =>
      eapply solvent_decrement; [eassumption | eassumption | |]
  | |- Forall _ (_ ++ [_]) => apply solvent_opened; cbn [balance]
  | |- Forall _ _ => assumption
  | |- context [Math_floor_times_0_9 ?g] =>
      lazymatch goal with
      | _ : 10 * Math_floor_times_0_9 g <= _ < _ |- _ => fail
      | _ => pose proof (Math_floor_times_0_9_bounds g)
      end
  | |- context [Math_ceil_div_60 ?d] =>
      lazymatch goal with
      | _ : _ < d <= 60 * Math_ceil_div_60 d |- _ => fail
      | _ => pose proof (Math_ceil_div_60_bounds d)
      end
  | |- context [match ?k with VOICE => _ | VIDEO => _ end] => destruct k
  | |- context [dto_role ?d] => destruct (dto_role d) as [[]|]; cbn
  | |- _ <= _ => lia
  end.

Lemma checked_operations_keep_solvent (c : Config) (op : Operation) (s : Db) :
  well_formed s -> solvent s -> checked op = true ->
  solvent (exec (perform c op) s).
Proof.
  intros Hwf Hsol Hck.
  change (wp (perform c op) (fun _ st => solvent st) s).
  destruct Hwf as (W1 & W2 & _). unfold solvent in Hsol.
  destruct op; try discriminate Hck; cbn [checked] in Hck;
    unfold_service; cbv zeta; repeat wp_step; ltb_facts; try exact Hsol.
  all: solvent_leaf.
Qed.



(** X2.  From a well-formed store in which no balance is negative, any
    series of registrations, message charges, holds, chat payments,
    settlements, refunds and top-ups with non-negative amounts and
    durations leaves no balance negative. *)
Theorem checked_requests_keep_solvent (c : Config) (ops : list Operation) (s : Db) :
  well_formed s -> solvent s -> forallb checked ops = true ->
  solvent (perform_all c ops s).
Proof.
  revert s. induction ops as [|op ops IH]; intros s Hwf Hsol Hck; [exact Hsol|].
  change (perform_all c (op :: ops) s) with (perform_all c ops (exec (perform c op) s)).
  cbn [forallb] in Hck. apply andb_true_iff in Hck. destruct Hck as [Hop Hops].
  apply IH; [apply well_formed_perform; exact Hwf | | exact Hops].
  apply checked_operations_keep_solvent; assumption.
Qed.

(** ** Nothing stored is deleted or rewritten *)

Lemma map_identity_of_update_balance i f rows :
  map identity_of (update_balance i f rows) = map identity_of rows.
Proof.
  unfold update_balance. rewrite map_map. apply map_ext.
  intros a. destruct (Nat.eqb (acc_id a) i); reflexivity.
Qed.

Lemma set_status_fresh n st l :
  below n (map tx_id l) ->
  map (fun t => if Nat.eqb (tx_id t) n then set_status st t else t) l = l.
Proof.
  unfold below. intros Hb. induction l as [|t l IH]; [reflexivity|].
  cbn in *. inversion Hb; subst.
  destruct (Nat.eqb_spec (tx_id t) n); [lia|]. rewrite IH by assumption. reflexivity.
Qed.

Ltac extends :=
  first [ exists nil; rewrite app_nil_r; reflexivity
        | eexists; rewrite <- ?app_assoc; reflexivity ].

Ltac append_leaf W :=
  cbn [users accounts transactions entries];
  rewrite ?map_identity_of_update_balance, ?map_app, ?(set_status_fresh _ _ _ W);
  repeat split; extends.

Lemma ledger_append_only_step (c : Config) (op : Operation) (s : Db) :
  well_formed s ->
  let s' := exec (perform c op) s in
  (exists us, users s' = users s ++ us)
  /\ (exists txs, transactions s' = transactions s ++ txs)
  /\ (exists es, entries s' = entries s ++ es)
  /\ (exists opened, map identity_of (accounts s') = map identity_of (accounts s) ++ opened).
Proof.
  intros (_ & _ & W & _) s'. subst s'.
  change (wp (perform c op)
            (fun _ st =>
               (exists us, users st = users s ++ us)
               /\ (exists txs, transactions st = transactions s ++ txs)
               /\ (exists es, entries st = entries s ++ es)
               /\ (exists opened,
                      map identity_of (accounts st) = map identity_of (accounts s) ++ opened))
            s).
  destruct op; unfold_service; cbv zeta; repeat wp_step.
  all: append_leaf W.
Qed.

(** X3.  Nothing stored is deleted or rewritten: after any series of
    requests from a well-formed store, the users, transactions and entries
    present before are still there, unchanged and in place, followed by
    the new rows; and every account present before keeps its id, owner and
    type. *)
Theorem ledger_append_only (c : Config) (ops : list Operation) (s : Db) :
  well_formed s ->
  let s' := perform_all c ops s in
  (exists us, users s' = users s ++ us)
  /\ (exists txs, transactions s' = transactions s ++ txs)
  /\ (exists es, entries s' = entries s ++ es)
  /\ (exists opened, map identity_of (accounts s') = map identity_of (accounts s) ++ opened).
Proof.
  revert s. induction ops as [|op ops IH]; intros s Hwf.
  - cbn. repeat split; exists nil; rewrite app_nil_r; reflexivity.
  - change (perform_all c (op :: ops) s) with (perform_all c ops (exec (perform c op) s)).
    destruct (ledger_append_only_step c op s Hwf) as ((u1 & U1) & (t1 & T1) & (e1 & E1) & (a1 & A1)).
    destruct (IH _ (well_formed_perform c op s Hwf)) as ((u2 & U2) & (t2 & T2) & (e2 & E2) & (a2 & A2)).
    cbv zeta. rewrite U2, T2, E2, A2, U1, T1, E1, A1.
    repeat split; eexists; rewrite <- app_assoc; reflexivity.
Qed.

Lemma money_supply_witness :
  let op := ProcessCallPayment "1752163200000" 1%nat 5%nat 1000 300 "call-1" in
  total_balance (exec (perform default_config op) registered_db)
  = total_balance registered_db + 300.
Proof.
  intros op.
  apply (money_supply default_config op registered_db
           (exec (perform default_config op) registered_db) (inr tt)).
  - apply well_formedb_sound. vm_compute. reflexivity.
  - vm_compute. reflexivity.
Defined.

Lemma checked_requests_keep_solvent_witness :
  solvent (perform_all default_config
             [Register alice_dto; Register carol_dto;
              HoldFundsForCall 0%nat 12000 "call-1";
              ProcessMessageCharge 0%nat 2%nat "m-1";
              HoldFundsForCall 0%nat 9900 "call-2";
              HoldFundsForCall 0%nat 1 "call-3"] empty_db).
Proof.
  apply checked_requests_keep_solvent.
  - apply well_formed_empty_db.
  - constructor.
  - vm_compute. reflexivity.
Defined.

Lemma ledger_append_only_witness :
  exists txs,
    transactions (perform_all default_config recorded_requests alice_40000_db)
    = transactions alice_40000_db ++ txs.
Proof.
  pose proof (ledger_append_only default_config recorded_requests alice_40000_db) as H.
  apply H. apply well_formedb_sound. vm_compute. reflexivity.
Defined.

(** ** Hold and refund *)

Lemma update_balance_round_trip i d rows :
  update_balance i (increment d) (update_balance i (decrement d) rows) = rows.
Proof.
  unfold update_balance. rewrite map_map. apply map_fixed. intros a.
  destruct (Nat.eqb (acc_id a) i) eqn:E; cbn [acc_id set_balance]; rewrite ?E; [|reflexivity].
  destruct a as [n u t b]. unfold set_balance, increment, decrement. cbn. f_equal. lia.
Qed.

Lemma holdFundsForCall_run (s : Db) (userId : Id) (estimatedAmount : Z) (callId : string)
    (a : Account) :
  find (WalletService.owned_by userId) (accounts s) = Some a ->
  estimatedAmount <= balance a ->
  run (WalletService.holdFundsForCall userId estimatedAmount callId) s
  = (inr (mkTransaction (next_id s) None HOLD_FUNDS HELD (Some callId) (Some userId)
            estimatedAmount),
     mkDb (users s)
          (update_balance (acc_id a) (decrement estimatedAmount) (accounts s))
          (transactions s ++ [mkTransaction (next_id s) None HOLD_FUNDS HELD (Some callId)
                                (Some userId) estimatedAmount])
          (entries s) (S (next_id s))).
Proof.
  intros Ha Hle.
  assert (Hlt : (balance a <? estimatedAmount) = false) by (apply Z.ltb_ge; lia).
  unfold run, WalletService.holdFundsForCall, prisma_transaction, bind, account_findFirst,
    transaction_create.
  rewrite Ha, Hlt, keyless_create_passes. reflexivity.
Qed.

(** X4.  For a user with one account, a hold followed by a refund of the
    same amount for the same call puts every account back exactly as it
    was and writes no entry; the log gains the hold, which stays HELD, and
    a COMPLETED refund. *)
Theorem hold_then_refund_restores (s : Db) (userId : Id) (amount : Z) (callId : string)
    (a : Account) :
  filter (WalletService.owned_by userId) (accounts s) = [a] ->
  amount <= balance a ->
  exists t1 s1 t2 s2,
    run (WalletService.holdFundsForCall userId amount callId) s = (inr t1, s1)
    /\ run (WalletService.refundHeldFunds callId userId amount) s1 = (inr t2, s2)
    /\ accounts s2 = accounts s
    /\ entries s2 = entries s
    /\ transactions s2 = transactions s ++ [t1; t2]
    /\ tx_status t1 = HELD
    /\ (tx_type t2, tx_status t2) = (REFUND, COMPLETED).
Proof.
  intros Hone Hle.
  pose proof (holdFundsForCall_run s userId amount callId a (find_of_filter _ _ _ Hone) Hle)
    as R1.
  set (s1 := mkDb (users s) (update_balance (acc_id a) (decrement amount) (accounts s))
               (transactions s ++ [mkTransaction (next_id s) None HOLD_FUNDS HELD
                                     (Some callId) (Some userId) amount])
               (entries s) (S (next_id s))) in *.
  assert (F1 : filter (WalletService.owned_by userId) (accounts s1)
               = [set_balance (decrement amount) a]).
  { unfold s1; cbn [accounts]. apply only_account_updated, Hone. }
  destruct (refundHeldFunds_run s1 callId userId amount _ (find_of_filter _ _ _ F1))
    as (s2 & R2 & T2 & E2 & A2 & _ & _).
  do 4 eexists. split; [exact R1|]. split; [exact R2|].
  split; [rewrite A2; unfold s1; cbn [accounts acc_id set_balance];
          apply update_balance_round_trip|].
  split; [rewrite E2; reflexivity|].
  split; [rewrite T2; unfold s1; cbn [transactions next_id]; rewrite <- app_assoc;
          reflexivity|].
  split; reflexivity.
Qed.

Lemma hold_then_refund_restores_witness :
  exists t1 s1 t2 s2,
    run (WalletService.holdFundsForCall 1%nat 2000 "call-7") registered_db = (inr t1, s1)
    /\ run (WalletService.refundHeldFunds "call-7" 1%nat 2000) s1 = (inr t2, s2)
    /\ accounts s2 = accounts registered_db
    /\ tx_status t1 = HELD.
Proof.
  destruct (hold_then_refund_restores registered_db 1%nat 2000 "call-7"
              (mkAccount 2%nat (Some 1%nat) USER_WALLET 10000))
    as (t1 & s1 & t2 & s2 & R1 & R2 & A & _ & _ & H & _).
  - vm_compute. reflexivity.
  - cbn. lia.
  - exists t1, s1, t2, s2. repeat split; assumption.
Defined.

(** ** Withdrawal *)

Lemma processWithdrawal_run (c : Config) (s : Db) (userId : Id) (amount : Z)
    (withdrawalMethod : string) (userBalance : Z) (w : Account) :
  well_formed s ->
  or_default (MIN_WITHDRAWAL_AMOUNT c) 50000 <= amount
    <= or_default (MAX_WITHDRAWAL_AMOUNT c) 10000000 ->
  run (WalletService.getBalance userId) s = (inr userBalance, s) ->
  amount <= userBalance ->
  find (WalletService.wallet_of userId USER_WALLET) (accounts s) = Some w ->
  run (GooglePayService.processWithdrawal c userId amount withdrawalMethod) s
  = (inr (next_id s),
     mkDb (users s)
          (update_balance (acc_id w) (decrement amount) (accounts s))
          (transactions s ++ [mkTransaction (next_id s) None WITHDRAWAL COMPLETED None
                                (Some userId) amount])
          (entries s ++ [mkEntry (S (next_id s)) (next_id s) (acc_id w) amount DEBIT])
          (S (S (next_id s)))).
Proof.
  intros (_ & _ & W & _) [Hmin Hmax] Hbal Hle Hw.
  assert (H1 : (amount <? or_default (MIN_WITHDRAWAL_AMOUNT c) 50000) = false)
    by (apply Z.ltb_ge; lia).
  assert (H2 : (or_default (MAX_WITHDRAWAL_AMOUNT c) 10000000 <? amount) = false)
    by (apply Z.ltb_ge; lia).
  assert (H3 : (userBalance <? amount) = false) by (apply Z.ltb_ge; lia).
  unfold run in *. unfold GooglePayService.processWithdrawal. rewrite H1, H2.
  unfold bind at 1. rewrite Hbal, H3.
  unfold GooglePayService.deductMoneyFromWallet, prisma_transaction, bind,
    account_findFirst, transaction_create.
  rewrite keyless_create_passes. cbn -[WalletService.wallet_of].
  rewrite Hw. cbn -[WalletService.wallet_of].
  rewrite map_app, (set_status_fresh _ _ _ W). cbn. rewrite Nat.eqb_refl. reflexivity.
Qed.

(** X5.  A withdrawal within the configured bounds by a user whose first
    account is a user wallet holding at least the amount succeeds: it
    stores one WITHDRAWAL transaction, COMPLETED, with a single DEBIT entry
    against the wallet, lowers that wallet by the amount without overdrawing
    it, and moves no other balance. *)
Theorem withdrawal_effect (c : Config) (s : Db) (userId : Id) (amount : Z)
    (withdrawalMethod : string) (w : Account) :
  well_formed s ->
  or_default (MIN_WITHDRAWAL_AMOUNT c) 50000 <= amount
    <= or_default (MAX_WITHDRAWAL_AMOUNT c) 10000000 ->
  find (WalletService.owned_by userId) (accounts s) = Some w ->
  accountType w = USER_WALLET ->
  amount <= balance w ->
  exists s',
    run (GooglePayService.processWithdrawal c userId amount withdrawalMethod) s
    = (inr (next_id s), s')
    /\ transactions s'
       = transactions s ++ [mkTransaction (next_id s) None WITHDRAWAL COMPLETED None
                              (Some userId) amount]
    /\ entries s'
       = entries s ++ [mkEntry (S (next_id s)) (next_id s) (acc_id w) amount DEBIT]
    /\ balance_of (acc_id w) s' = Some (balance w - amount)
    /\ 0 <= balance w - amount
    /\ (forall i, i <> acc_id w -> balance_of i s' = balance_of i s).
Proof.
  intros Hwf Hrange Hown Hty Hle.
  assert (Hw : find (WalletService.wallet_of userId USER_WALLET) (accounts s) = Some w).
  { clear - Hown Hty. induction (accounts s) as [|a l IH]; [discriminate|].
    cbn in *. unfold WalletService.wallet_of at 1.
    destruct (WalletService.owned_by userId a) eqn:E.
    - injection Hown as ->. unfold WalletService.owned_by in E. rewrite E, Hty. reflexivity.
    - unfold WalletService.owned_by in E. rewrite E. cbn. apply IH. exact Hown. }
  assert (Hbal : run (WalletService.getBalance userId) s = (inr (balance w), s)).
  { unfold run, WalletService.getBalance, bind, account_findFirst, ret. rewrite Hown.
    reflexivity. }
  eexists. split; [apply (processWithdrawal_run c s userId amount withdrawalMethod
                            (balance w) w); assumption|].
  split; [reflexivity|]. split; [reflexivity|].
  pose proof (balance_of_found _ _ _ Hwf Hw) as Bw.
  unfold balance_of in *; cbn [accounts].
  split; [rewrite balance_update_balance, Nat.eqb_refl, Bw; reflexivity|].
  split; [lia|].
  intros i Hi. rewrite balance_update_balance.
  destruct (Nat.eqb_spec i (acc_id w)); [contradiction|reflexivity].
Qed.

Lemma withdrawal_effect_witness :
  exists s',
    run (GooglePayService.processWithdrawal default_config 1%nat 50000 "UPI")
        (exec (GooglePayService.processPayment default_config 1%nat 50000 some_payment
                 "GOOGLE_PAY") registered_db)
    = (inr 9%nat, s')
    /\ balance_of 2%nat s' = Some 10000.
Proof.
  destruct (withdrawal_effect default_config
              (exec (GooglePayService.processPayment default_config 1%nat 50000
                       some_payment "GOOGLE_PAY") registered_db)
              1%nat 50000 "UPI" (mkAccount 2%nat (Some 1%nat) USER_WALLET 60000))
    as (s' & R & _ & _ & B & _).
  - apply well_formedb_sound. vm_compute. reflexivity.
  - cbn. lia.
  - reflexivity.
  - reflexivity.
  - cbn. lia.
  - exists s'. split; assumption.
Defined.

(** X6.  The withdrawal compares the amount with the balance of the
    user's first account of any type, but debits the user's USER_WALLET.
    For a user whose first account covers the amount while the user wallet
    does not, the withdrawal succeeds and leaves the user wallet negative,
    the first account untouched. *)
Theorem withdrawal_checks_first_account (c : Config) (s : Db) (userId : Id) (amount : Z)
    (withdrawalMethod : string) (first w : Account) :
  well_formed s ->
  or_default (MIN_WITHDRAWAL_AMOUNT c) 50000 <= amount
    <= or_default (MAX_WITHDRAWAL_AMOUNT c) 10000000 ->
  find (WalletService.owned_by userId) (accounts s) = Some first ->
  find (WalletService.wallet_of userId USER_WALLET) (accounts s) = Some w ->
  balance w < amount <= balance first ->
  exists s',
    run (GooglePayService.processWithdrawal c userId amount withdrawalMethod) s
    = (inr (next_id s), s')
    /\ balance_of (acc_id w) s' = Some (balance w - amount)
    /\ balance w - amount < 0
    /\ balance_of (acc_id first) s' = Some (balance first).
Proof.
  intros Hwf Hrange Hown Hw [Hlt Hle].
  assert (Hbal : run (WalletService.getBalance userId) s = (inr (balance first), s)).
  { unfold run, WalletService.getBalance, bind, account_findFirst, ret. rewrite Hown.
    reflexivity. }
  eexists. split; [apply (processWithdrawal_run c s userId amount withdrawalMethod
                            (balance first) w); assumption|].
  pose proof (balance_of_found _ _ _ Hwf Hw) as Bw.
  pose proof (balance_of_found _ _ _ Hwf Hown) as Bf.
  unfold balance_of in *; cbn [accounts].
  split; [rewrite balance_update_balance, Nat.eqb_refl, Bw; reflexivity|].
  split; [lia|].
  rewrite balance_update_balance.
  destruct (Nat.eqb_spec (acc_id first) (acc_id w)) as [E|_]; [|exact Bf].
  exfalso. rewrite E in Bf. rewrite Bw in Bf. injection Bf as Bf. lia.
Qed.

Lemma withdrawal_checks_first_account_witness :
  exists s',
    run (GooglePayService.processWithdrawal default_config 3%nat 50000 "UPI")
        bob_two_wallets_db = (inr 11%nat, s')
    /\ balance_of 9%nat s' = Some (-40000)
    /\ balance_of 4%nat s' = Some 50000.
Proof.
  destruct (withdrawal_checks_first_account default_config bob_two_wallets_db 3%nat 50000
              "UPI" (mkAccount 4%nat (Some 3%nat) INFLUENCER_WALLET 50000)
              (mkAccount 9%nat (Some 3%nat) USER_WALLET 10000))
    as (s' & R & B & _ & F).
  - apply well_formedb_sound. vm_compute. reflexivity.
  - cbn. lia.
  - reflexivity.
  - reflexivity.
  - cbn. lia.
  - exists s'. repeat split; assumption.
Defined.

(** X7.  The withdrawal stores its transaction before, and outside of, the
    unit that debits the wallet.  For a user who passes the amount checks
    but owns no USER_WALLET, the call throws "User wallet not found" and
    the PENDING withdrawal transaction stays stored, with no entry and no
    balance change. *)
Theorem withdrawal_without_wallet_leaves_pending (c : Config) (s : Db) (userId : Id)
    (amount : Z) (withdrawalMethod : string) (userBalance : Z) :
  or_default (MIN_WITHDRAWAL_AMOUNT c) 50000 <= amount
    <= or_default (MAX_WITHDRAWAL_AMOUNT c) 10000000 ->
  run (WalletService.getBalance userId) s = (inr userBalance, s) ->
  amount <= userBalance ->
  find (WalletService.wallet_of userId USER_WALLET) (accounts s) = None ->
  run (GooglePayService.processWithdrawal c userId amount withdrawalMethod) s
  = (inl (BadRequestException User_wallet_not_found),
     mkDb (users s) (accounts s)
          (transactions s ++ [mkTransaction (next_id s) None WITHDRAWAL PENDING None
                                (Some userId) amount])
          (entries s) (S (next_id s))).
Proof.
  intros [Hmin Hmax] Hbal Hle Hw.
  assert (H1 : (amount <? or_default (MIN_WITHDRAWAL_AMOUNT c) 50000) = false)
    by (apply Z.ltb_ge; lia).
  assert (H2 : (or_default (MAX_WITHDRAWAL_AMOUNT c) 10000000 <? amount) = false)
    by (apply Z.ltb_ge; lia).
  assert (H3 : (userBalance <? amount) = false) by (apply Z.ltb_ge; lia).
  unfold run in *. unfold GooglePayService.processWithdrawal. rewrite H1, H2.
  unfold bind at 1. rewrite Hbal, H3.
  unfold GooglePayService.deductMoneyFromWallet, prisma_transaction, bind,
    account_findFirst, transaction_create.
  rewrite keyless_create_passes. cbn -[WalletService.wallet_of].
  rewrite Hw. reflexivity.
Qed.

Lemma withdrawal_without_wallet_leaves_pending_witness :
  run (GooglePayService.processWithdrawal default_config 3%nat 50000 "UPI") bob_earned_db
  = (inl (BadRequestException User_wallet_not_found),
     mkDb (users bob_earned_db) (accounts bob_earned_db)
          (transactions bob_earned_db
             ++ [mkTransaction 8%nat None WITHDRAWAL PENDING None (Some 3%nat) 50000])
          (entries bob_earned_db) 9%nat).
Proof.
  apply (withdrawal_without_wallet_leaves_pending default_config bob_earned_db 3%nat 50000
           "UPI" 50000).
  - cbn. lia.
  - reflexivity.
  - lia.
  - reflexivity.
Defined.

(** ** Transaction history *)

Lemma firstn_incl {A} (n : nat) (l : list A) (x : A) : In x (firstn n l) -> In x l.
Proof.
  revert l. induction n as [|n IH]; intros [|a l]; cbn; try contradiction.
  intros [E|H]; [left; exact E|right; apply IH; exact H].
Qed.

(** X8.  The transaction history never changes the store, returns
    [min limit n] rows when the user has [n] transactions, and every row it
    returns is the view of a stored transaction of that user. *)
Theorem getTransactions_bounded_owned (userId : Id) (limit : nat) (s : Db) :
  exists views,
    run (getTransactions userId limit) s = (inr views, s)
    /\ List.length views
       = Nat.min limit
           (List.length (filter (fun t => opt_Id_eqb (tx_userId t) userId) (transactions s)))
    /\ forall v, In v views ->
         exists t, In t (transactions s) /\ tx_userId t = Some userId
                   /\ v = transaction_view s t.
Proof.
  eexists. split; [reflexivity|]. split.
  - rewrite length_map, length_firstn, length_rev. reflexivity.
  - intros v Hv. apply in_map_iff in Hv. destruct Hv as (t & <- & Ht).
    apply firstn_incl in Ht. rename Ht into Hin.
    apply in_rev in Hin. apply filter_In in Hin. destruct Hin as [Hin Hown].
    exists t. split; [exact Hin|]. split; [|reflexivity].
    unfold opt_Id_eqb in Hown. destruct (tx_userId t) as [x|]; [|discriminate].
    apply Nat.eqb_eq in Hown. subst x. reflexivity.
Qed.

Lemma entry_view_update_balance u i f rows t es n e :
  entry_view (mkDb u (update_balance i f rows) t es n) e = entry_view (mkDb u rows t es n) e.
Proof.
  unfold entry_view; cbn [accounts]. f_equal.
  rewrite find_update_balance by reflexivity.
  destruct (find _ rows) as [a|]; cbn; [|reflexivity].
  destruct (Nat.eqb (acc_id a) i); reflexivity.
Qed.

(** X9.  After a successful hold, the user's history of [k + 1] rows is the
    new HOLD_FUNDS transaction, HELD and without entries, followed by the
    [k] rows the history showed before the hold. *)
Theorem history_after_hold (s : Db) (userId : Id) (amount : Z) (callId : string)
    (a : Account) (k : nat) :
  well_formed s ->
  find (WalletService.owned_by userId) (accounts s) = Some a ->
  amount <= balance a ->
  let s1 := exec (WalletService.holdFundsForCall userId amount callId) s in
  exists before,
    run (getTransactions userId k) s = (inr before, s)
    /\ run (getTransactions userId (S k)) s1
       = (inr (mkTransactionView (next_id s) HOLD_FUNDS HELD amount [] :: before), s1).
Proof.
  intros (_ & _ & _ & W & _) Ha Hle s1.
  assert (E1 : s1 = mkDb (users s)
                 (update_balance (acc_id a) (decrement amount) (accounts s))
                 (transactions s ++ [mkTransaction (next_id s) None HOLD_FUNDS HELD
                                       (Some callId) (Some userId) amount])
                 (entries s) (S (next_id s))).
  { unfold s1, exec.
    assert (Hlt : (balance a <? amount) = false) by (apply Z.ltb_ge; lia).
    unfold WalletService.holdFundsForCall, prisma_transaction, bind, account_findFirst,
      transaction_create.
    rewrite Ha, Hlt, keyless_create_passes. reflexivity. }
  eexists. split; [reflexivity|].
  unfold run, getTransactions. f_equal. f_equal.
  rewrite E1 at 2. cbn [transactions].
  rewrite filter_app. cbn [filter tx_userId opt_Id_eqb]. rewrite Nat.eqb_refl.
  rewrite rev_unit. cbn [firstn map]. f_equal.
  - unfold transaction_view. cbn [tx_id tx_type tx_status tx_amount]. f_equal.
    unfold entries_of_transaction. rewrite E1; cbn [entries].
    rewrite (filter_transaction_fresh _ _ _ W) by lia. reflexivity.
  - apply map_ext. intros t. unfold transaction_view. f_equal.
    rewrite E1. unfold entries_of_transaction; cbn [entries].
    apply map_ext. intros e. rewrite entry_view_update_balance.
    unfold entry_view; cbn [accounts]. reflexivity.
Qed.

Lemma history_after_hold_witness :
  exists before,
    run (getTransactions 1%nat 1) alice_40000_db = (inr before, alice_40000_db)
    /\ List.length before = 1%nat
    /\ run (getTransactions 1%nat 2)
           (exec (WalletService.holdFundsForCall 1%nat 2000 "call-7") alice_40000_db)
       = (inr (mkTransactionView 9%nat HOLD_FUNDS HELD 2000 [] :: before),
          exec (WalletService.holdFundsForCall 1%nat 2000 "call-7") alice_40000_db).
Proof.
  destruct (history_after_hold alice_40000_db 1%nat 2000 "call-7"
              (mkAccount 2%nat (Some 1%nat) USER_WALLET 40000) 1)
    as (before & B & A).
  - apply well_formedb_sound. vm_compute. reflexivity.
  - vm_compute. reflexivity.
  - cbn. lia.
  - exists before. split; [exact B|]. split; [|exact A].
    apply (f_equal fst) in B. vm_compute in B. injection B as <-. reflexivity.
Defined.

(** * Further properties of the billing policy *)

Lemma ratePerMinute_zero_iff (c : Config) (k : CallType) :
  BillingService.ratePerMinute c k = 0
  <-> match k with
      | VIDEO => PRICE_PER_MINUTE_VIDEO c
      | VOICE => PRICE_PER_MINUTE_VOICE c
      end = Some 0.
Proof.
  unfold BillingService.ratePerMinute, BillingService.price_per_minute_video,
    BillingService.price_per_minute_voice, or_default.
  destruct k.
  - destruct (PRICE_PER_MINUTE_VOICE c) as [x|]; split; intros H;
      first [congruence | discriminate].
  - destruct (PRICE_PER_MINUTE_VIDEO c) as [x|]; split; intros H;
      first [congruence | discriminate].
Qed.

(** X10.  A call is free exactly when its rate is configured as 0 or when
    it rounds up to no minute at all, that is when its duration is at most
    0 seconds and more than -60.  A rate configured as 0 is used as it is:
    the default (500 for video, 350 for voice) only stands in for a rate
    that is not configured, so the rate is 0 exactly when 0 is what the
    configuration holds. *)
Theorem call_cost_zero_iff (c : Config) (d : Z) (k : CallType) :
  let configured :=
    match k with
    | VIDEO => PRICE_PER_MINUTE_VIDEO c
    | VOICE => PRICE_PER_MINUTE_VOICE c
    end in
  (BillingService.calculateActualCallCost c d k = 0
   <-> configured = Some 0 \/ -60 < d <= 0)
  /\ (BillingService.ratePerMinute c k = 0 <-> configured = Some 0)
  /\ BillingService.ratePerMinute default_config k
     = match k with VIDEO => 500 | VOICE => 350 end.
Proof.
  intros configured. pose proof (ratePerMinute_zero_iff c k) as Hr.
  fold configured in Hr. split; [|split; [exact Hr|destruct k; reflexivity]].
  unfold BillingService.calculateActualCallCost. cbv zeta.
  pose proof (Math_ceil_div_60_bounds d) as B.
  rewrite Z.mul_eq_0, Hr. split.
  - intros [H|H]; [right; lia|left; exact H].
  - intros [H|H]; [right; exact H|left; lia].
Qed.

(** X11.  With a rate that is not negative, a longer call never
    costs less, and a call of [d1 + d2] seconds never costs more than a
    call of [d1] seconds and a call of [d2] seconds together. *)
Theorem call_cost_monotone_subadditive (c : Config) (k : CallType) (d1 d2 : Z) :
  0 <= BillingService.ratePerMinute c k ->
  (d1 <= d2 ->
   BillingService.calculateActualCallCost c d1 k
   <= BillingService.calculateActualCallCost c d2 k)
  /\ BillingService.calculateActualCallCost c (d1 + d2) k
     <= BillingService.calculateActualCallCost c d1 k
        + BillingService.calculateActualCallCost c d2 k.
Proof.
  intros Hr. unfold BillingService.calculateActualCallCost. cbv zeta.
  pose proof (Math_ceil_div_60_bounds d1) as B1.
  pose proof (Math_ceil_div_60_bounds d2) as B2.
  pose proof (Math_ceil_div_60_bounds (d1 + d2)) as B3.
  split.
  - intros Hle. apply Z.mul_le_mono_nonneg_r; [exact Hr|lia].
  - rewrite <- Z.mul_add_distr_r. apply Z.mul_le_mono_nonneg_r; [exact Hr|lia].
Qed.

Lemma call_cost_monotone_subadditive_witness :
  BillingService.calculateActualCallCost default_config 190 VIDEO
  <= BillingService.calculateActualCallCost default_config 240 VIDEO
  /\ BillingService.calculateActualCallCost default_config (190 + 240) VIDEO
     <= BillingService.calculateActualCallCost default_config 190 VIDEO
        + BillingService.calculateActualCallCost default_config 240 VIDEO.
Proof.
  destruct (call_cost_monotone_subadditive default_config VIDEO 190 240) as [M S].
  - cbn. lia.
  - split; [apply M; lia|exact S].
Defined.

(** X12.  With a rate that is not negative, a call of [d] seconds
    costs at most what was estimated for any number of minutes that covers
    those seconds. *)
Theorem actual_cost_within_estimate (c : Config) (k : CallType) (d : Z) (minutes : Q) :
  0 <= BillingService.ratePerMinute c k ->
  (inject_Z d / (60 # 1) <= minutes)%Q ->
  BillingService.calculateActualCallCost c d k <= estimateCallCost c minutes k.
Proof.
  intros Hr Hle. unfold BillingService.calculateActualCallCost, estimateCallCost.
  cbv zeta. apply Z.mul_le_mono_nonneg_r; [exact Hr|].
  unfold Math_ceil_div_60. apply Qceiling_resp_le. exact Hle.
Qed.

Lemma actual_cost_within_estimate_witness :
  BillingService.calculateActualCallCost default_config 190 VIDEO
  <= estimateCallCost default_config (5 # 1) VIDEO.
Proof.
  apply actual_cost_within_estimate.
  - cbn. lia.
  - unfold Qle; cbn. lia.
Defined.

(** * Further properties of registration *)

(** X13.  Once a registration went through, registering again
    with the same email or the same username is refused as a conflict ("User
    with this email or username already exists") and changes nothing. *)
Theorem register_rejects_duplicate (first again : RegisterDto) (s s1 : Db) (u : User) :
  run (AuthService.register first) s = (inr u, s1) ->
  dto_email again = dto_email first \/ dto_username again = dto_username first ->
  run (AuthService.register again) s1 = (inl (ConflictException User_already_exists), s1).
Proof.
  intros Hrun Hsame.
  assert (Hu : users s1 = users s ++ [u]
               /\ user_email u = dto_email first /\ user_username u = dto_username first).
  { refine (wp_run _ (fun r st => r = inr u -> users st = users s ++ [u]
                        /\ user_email u = dto_email first
                        /\ user_username u = dto_username first) _ _ _ _ Hrun eq_refl).
    unfold AuthService.register; cbv zeta.
    repeat wp_step; try discriminate. intros [= <-]. repeat split. }
  destruct Hu as (Hus & He & Hn).
  unfold run, AuthService.register; cbv zeta. unfold bind at 1, user_findFirst.
  rewrite Hus, find_snoc.
  destruct (find _ (users s)); [reflexivity|].
  rewrite He, Hn.
  destruct Hsame as [E|E]; rewrite E, String.eqb_refl, ?orb_true_r; reflexivity.
Qed.

Lemma register_rejects_duplicate_witness :
  run (AuthService.register (mkRegisterDto "a@x.io" "alice2" (Some INFLUENCER) None))
      (exec (AuthService.register alice_dto) bootstrap_db)
  = (inl (ConflictException User_already_exists),
     exec (AuthService.register alice_dto) bootstrap_db).
Proof.
  apply (register_rejects_duplicate alice_dto _ bootstrap_db _
           (mkUser 1%nat "a@x.io" "alice" USER "alice")).
  - vm_compute. reflexivity.
  - left. reflexivity.
Defined.

Lemma not_in_of_find_none {A B} (p : A -> bool) (f : A -> B) (l : list A) (b : B) :
  find p l = None -> (forall a, f a = b -> p a = true) -> ~ In b (map f l).
Proof.
  intros Hf Hp Hin. apply in_map_iff in Hin. destruct Hin as (a & E & Ha).
  pose proof (find_none _ _ Hf a Ha) as N. rewrite (Hp a E) in N. discriminate.
Qed.

Lemma NoDup_snoc {A} (l : list A) (x : A) : NoDup l -> ~ In x l -> NoDup (l ++ [x]).
Proof.
  intros Hl Hx. apply NoDup_app; [exact Hl | repeat constructor; intros [] |].
  intros a Ha [<-|[]]. exact (Hx Ha).
Qed.

Lemma unique_users_perform c op s : unique_users s -> unique_users (exec (perform c op) s).
Proof.
  intros Hu.
  change (wp (perform c op) (fun _ st => unique_users st) s).
  destruct op; unfold_service; cbv zeta; repeat wp_step; try exact Hu.
  destruct Hu as [He Hn]. unfold unique_users; cbn [users].
  rewrite !map_app. cbn [map user_email user_username].
  match goal with H : find _ (users s) = None |- _ => rename H into Hnone end.
  split; apply NoDup_snoc; try assumption.
  - apply (not_in_of_find_none _ _ _ _ Hnone). intros a E. rewrite E, String.eqb_refl.
    reflexivity.
  - apply (not_in_of_find_none _ _ _ _ Hnone). intros a E. rewrite E, String.eqb_refl.
    apply orb_true_r.
Qed.

(** X14.  No series of requests makes two users share an email
    or a username. *)
Theorem users_stay_unique (c : Config) (ops : list Operation) (s : Db) :
  unique_users s -> unique_users (perform_all c ops s).
Proof.
  revert s. induction ops as [|op ops IH]; intros s Hu; [exact Hu|].
  change (perform_all c (op :: ops) s) with (perform_all c ops (exec (perform c op) s)).
  apply IH, unique_users_perform, Hu.
Qed.

Lemma users_stay_unique_witness :
  unique_users (perform_all default_config
                  [Register alice_dto; Register alice_dto; Register bob_dto;
                   Register (mkRegisterDto "b@x.io" "robert" None None)] empty_db).
Proof.
  apply users_stay_unique. split; constructor.
Defined.

(** * Properties of the chat service *)

Lemma prisma_transaction_rolls_back {A} (body : M A) s e s' :
  prisma_transaction body s = (inl e, s') -> s' = s.
Proof.
  unfold prisma_transaction. destruct (body s) as [[e0|a] s0]; intros H.
  - injection H as _ <-. reflexivity.
  - discriminate H.
Qed.

Lemma processMessagePayment_rolls_back n r a b g s e s' :
  WalletService.processMessagePayment n r a b g s = (inl e, s') -> s' = s.
Proof. apply prisma_transaction_rolls_back. Qed.

Lemma sendMessage_influencer (now : Z) (stamp rnd payStamp payRnd : string)
    (senderId receiverId : Id) (content : string) (st : AppDb) (sender receiver : User) :
  find (fun u => Nat.eqb (user_id u) senderId) (users (ledger st)) = Some sender ->
  find (fun u => Nat.eqb (user_id u) receiverId) (users (ledger st)) = Some receiver ->
  existsb (fun m => String.eqb (msg_messageId m) ("msg_" ++ stamp ++ "_" ++ rnd))
    (messages st) = false ->
  user_role sender = INFLUENCER ->
  ChatService.sendMessage now stamp rnd payStamp payRnd senderId receiverId content st
  = (inr (mkChatMessage (next_id (ledger st)) senderId receiverId content
            ("msg_" ++ stamp ++ "_" ++ rnd) (now + SEVEN_DAYS), false),
     mkAppDb (exec fresh_id (ledger st))
       (messages st ++ [mkChatMessage (next_id (ledger st)) senderId receiverId content
                          ("msg_" ++ stamp ++ "_" ++ rnd) (now + SEVEN_DAYS)])
       (calls st)).
Proof.
  intros Hsender Hreceiver Hfresh Hrole.
  unfold ChatService.sendMessage, app_bind, user_findUnique.
  rewrite Hsender, Hreceiver, Hrole. cbn [UserRole_eqb app_ret].
  unfold message_create. rewrite Hfresh. reflexivity.
Qed.

Lemma sendMessage_short_of_funds (now : Z) (stamp rnd payStamp payRnd : string)
    (senderId receiverId : Id) (content : string) (st : AppDb) (sender receiver : User)
    (senderBalance : Z) :
  find (fun u => Nat.eqb (user_id u) senderId) (users (ledger st)) = Some sender ->
  find (fun u => Nat.eqb (user_id u) receiverId) (users (ledger st)) = Some receiver ->
  user_role sender = USER ->
  WalletService.getBalance senderId (ledger st) = (inr senderBalance, ledger st) ->
  senderBalance < 10000 ->
  ChatService.sendMessage now stamp rnd payStamp payRnd senderId receiverId content st
  = (inl (BadRequest Insufficient_balance_to_send_message), st).
Proof.
  intros Hsender Hreceiver Hrole Hbal Hlt. apply Z.ltb_lt in Hlt.
  unfold ChatService.sendMessage, app_bind, user_findUnique.
  rewrite Hsender, Hreceiver, Hrole. cbn [UserRole_eqb].
  unfold lift. rewrite Hbal, Hlt. cbn. destruct st; reflexivity.
Qed.

Lemma sendMessage_charged (now : Z) (stamp rnd payStamp payRnd : string)
    (senderId receiverId : Id) (content : string) (st : AppDb) (sender receiver : User)
    (senderBalance : Z) (outcome : Exception + unit) (s' : Db) :
  find (fun u => Nat.eqb (user_id u) senderId) (users (ledger st)) = Some sender ->
  find (fun u => Nat.eqb (user_id u) receiverId) (users (ledger st)) = Some receiver ->
  existsb (fun m => String.eqb (msg_messageId m) ("msg_" ++ stamp ++ "_" ++ rnd))
    (messages st) = false ->
  user_role sender = USER ->
  WalletService.getBalance senderId (ledger st) = (inr senderBalance, ledger st) ->
  10000 <= senderBalance ->
  WalletService.processMessagePayment payStamp payRnd senderId receiverId 10000
    (exec fresh_id (ledger st)) = (outcome, s') ->
  ChatService.sendMessage now stamp rnd payStamp payRnd senderId receiverId content st
  = (match outcome with
     | inl e => inl (FromLedger e)
     | inr _ =>
       inr (mkChatMessage (next_id (ledger st)) senderId receiverId content
              ("msg_" ++ stamp ++ "_" ++ rnd) (now + SEVEN_DAYS), true)
     end,
     mkAppDb s'
       (messages st ++ [mkChatMessage (next_id (ledger st)) senderId receiverId content
                          ("msg_" ++ stamp ++ "_" ++ rnd) (now + SEVEN_DAYS)])
       (calls st)).
Proof.
  intros Hsender Hreceiver Hfresh Hrole Hbal Hle Hpay.
  assert (Hlt : (senderBalance <? 10000) = false) by (apply Z.ltb_ge; lia).
  unfold ChatService.sendMessage, app_bind, user_findUnique.
  rewrite Hsender, Hreceiver, Hrole. cbn [UserRole_eqb].
  unfold lift at 1. rewrite Hbal, Hlt. cbn [app_ret].
  replace (mkAppDb (ledger st) (messages st) (calls st)) with st by (destruct st; reflexivity).
  unfold message_create. rewrite Hfresh.
  unfold app_bind, lift. cbn [fresh_id ledger messages calls].
  unfold exec, fresh_id in Hpay. cbn [snd] in Hpay. rewrite Hpay.
  destruct outcome as [e|[]]; reflexivity.
Qed.

(** X15.  An influencer sends for free: the message is stored
    and returned as not charged, and no account, transaction or entry
    changes. *)
Theorem influencer_sends_free (now : Z) (stamp rnd payStamp payRnd : string)
    (senderId receiverId : Id) (content : string) (st : AppDb) (sender receiver : User) :
  find (fun u => Nat.eqb (user_id u) senderId) (users (ledger st)) = Some sender ->
  find (fun u => Nat.eqb (user_id u) receiverId) (users (ledger st)) = Some receiver ->
  existsb (fun m => String.eqb (msg_messageId m) ("msg_" ++ stamp ++ "_" ++ rnd))
    (messages st) = false ->
  user_role sender = INFLUENCER ->
  exists row st',
    ChatService.sendMessage now stamp rnd payStamp payRnd senderId receiverId content st
    = (inr (row, false), st')
    /\ messages st' = messages st ++ [row]
    /\ (msg_senderId row, msg_receiverId row, msg_content row)
       = (senderId, receiverId, content)
    /\ accounts (ledger st') = accounts (ledger st)
    /\ transactions (ledger st') = transactions (ledger st)
    /\ entries (ledger st') = entries (ledger st).
Proof.
  intros Hs Hr Hf Hrole. do 2 eexists.
  split; [apply (sendMessage_influencer now stamp rnd payStamp payRnd senderId receiverId
                   content st sender receiver Hs Hr Hf Hrole)|].
  repeat split.
Qed.

Lemma influencer_sends_free_witness :
  exists row st',
    ChatService.sendMessage 1752163200000 "1752163200000" "k3x9q" "1752163200002" "p7m2c"
      3%nat 1%nat "hi alice" chat_db
    = (inr (row, false), st')
    /\ messages st' = messages chat_db ++ [row]
    /\ (msg_senderId row, msg_receiverId row, msg_content row)
       = (3%nat, 1%nat, "hi alice"%string)
    /\ accounts (ledger st') = accounts (ledger chat_db)
    /\ transactions (ledger st') = transactions (ledger chat_db)
    /\ entries (ledger st') = entries (ledger chat_db).
Proof.
  apply (influencer_sends_free 1752163200000 "1752163200000" "k3x9q" "1752163200002"
           "p7m2c" 3%nat 1%nat "hi alice" chat_db
           (mkUser 3%nat "b@x.io" "bob" INFLUENCER "bob")
           (mkUser 1%nat "a@x.io" "alice" USER "alice"));
    vm_compute; reflexivity.
Defined.

(** X16.  A user whose balance is below 10000 cannot send: the
    request is refused with "Insufficient balance to send message" before
    anything is stored. *)
Theorem sender_short_of_funds_is_rejected (now : Z) (stamp rnd payStamp payRnd : string)
    (senderId receiverId : Id) (content : string) (st : AppDb) (sender receiver : User)
    (senderBalance : Z) :
  find (fun u => Nat.eqb (user_id u) senderId) (users (ledger st)) = Some sender ->
  find (fun u => Nat.eqb (user_id u) receiverId) (users (ledger st)) = Some receiver ->
  user_role sender = USER ->
  WalletService.getBalance senderId (ledger st) = (inr senderBalance, ledger st) ->
  senderBalance < 10000 ->
  ChatService.sendMessage now stamp rnd payStamp payRnd senderId receiverId content st
  = (inl (BadRequest Insufficient_balance_to_send_message), st).
Proof.
  intros Hs Hr Hrole Hbal Hlt.
  exact (sendMessage_short_of_funds now stamp rnd payStamp payRnd senderId receiverId
           content st sender receiver senderBalance Hs Hr Hrole Hbal Hlt).
Qed.

Lemma sender_short_of_funds_is_rejected_witness :
  ChatService.sendMessage 1752163300000 "1752163300000" "q1w2e" "1752163300002" "z9y8x"
    1%nat 5%nat "hello again" alice_wrote_db
  = (inl (BadRequest Insufficient_balance_to_send_message), alice_wrote_db).
Proof.
  apply (sender_short_of_funds_is_rejected 1752163300000 "1752163300000" "q1w2e"
           "1752163300002" "z9y8x" 1%nat 5%nat "hello again" alice_wrote_db
           (mkUser 1%nat "a@x.io" "alice" USER "alice")
           (mkUser 5%nat "c@x.io" "carol" USER "carol") 0);
    vm_compute; reflexivity.
Defined.

(** X17.  The message is stored before it is paid for, and
    outside the transaction of the payment: when the payment throws, the
    request fails with that error, no account, transaction or entry
    changes, and the message stays in the table. *)
Theorem failed_payment_keeps_message (now : Z) (stamp rnd payStamp payRnd : string)
    (senderId receiverId : Id) (content : string) (st : AppDb) (sender receiver : User)
    (senderBalance : Z) (e : Exception) (s' : Db) :
  find (fun u => Nat.eqb (user_id u) senderId) (users (ledger st)) = Some sender ->
  find (fun u => Nat.eqb (user_id u) receiverId) (users (ledger st)) = Some receiver ->
  existsb (fun m => String.eqb (msg_messageId m) ("msg_" ++ stamp ++ "_" ++ rnd))
    (messages st) = false ->
  user_role sender = USER ->
  WalletService.getBalance senderId (ledger st) = (inr senderBalance, ledger st) ->
  10000 <= senderBalance ->
  WalletService.processMessagePayment payStamp payRnd senderId receiverId 10000
    (exec fresh_id (ledger st)) = (inl e, s') ->
  exists row st',
    ChatService.sendMessage now stamp rnd payStamp payRnd senderId receiverId content st
    = (inl (FromLedger e), st')
    /\ messages st' = messages st ++ [row]
    /\ (msg_senderId row, msg_receiverId row, msg_content row)
       = (senderId, receiverId, content)
    /\ accounts (ledger st') = accounts (ledger st)
    /\ transactions (ledger st') = transactions (ledger st)
    /\ entries (ledger st') = entries (ledger st).
Proof.
  intros Hs Hr Hf Hrole Hbal Hle Hpay. do 2 eexists.
  split; [apply (sendMessage_charged now stamp rnd payStamp payRnd senderId receiverId
                   content st sender receiver senderBalance (inl e) s'
                   Hs Hr Hf Hrole Hbal Hle Hpay)|].
  apply processMessagePayment_rolls_back in Hpay. subst s'.
  repeat split.
Qed.

Lemma failed_payment_keeps_message_witness :
  exists row st',
    ChatService.sendMessage 1752163200000 "1752163200000" "k3x9q" "1752163200002" "p7m2c"
      1%nat 3%nat "hi bob" chat_db
    = (inl (FromLedger (Error Required_accounts_not_found)), st')
    /\ messages st' = messages chat_db ++ [row]
    /\ (msg_senderId row, msg_receiverId row, msg_content row)
       = (1%nat, 3%nat, "hi bob"%string)
    /\ accounts (ledger st') = accounts (ledger chat_db)
    /\ transactions (ledger st') = transactions (ledger chat_db)
    /\ entries (ledger st') = entries (ledger chat_db).
Proof.
  apply (failed_payment_keeps_message 1752163200000 "1752163200000" "k3x9q"
           "1752163200002" "p7m2c" 1%nat 3%nat "hi bob" chat_db
           (mkUser 1%nat "a@x.io" "alice" USER "alice")
           (mkUser 3%nat "b@x.io" "bob" INFLUENCER "bob") 10000
           (Error Required_accounts_not_found) (exec fresh_id registered_db));
    vm_compute; first [reflexivity | discriminate].
Defined.

(** X18.  A user with at least 10000 who writes to the owner of
    a user wallet is charged 10000: the message is stored and returned as
    charged, the sender's wallet goes down by 10000, the receiver's goes up
    by 9000 and the revenue account by 1000, with one more transaction and
    three more entries. *)
Theorem paid_message (now : Z) (stamp rnd payStamp payRnd : string)
    (senderId receiverId : Id) (content : string) (st : AppDb) (sender receiver : User)
    (senderBalance : Z) (payer payee revenue : Account) :
  find (fun u => Nat.eqb (user_id u) senderId) (users (ledger st)) = Some sender ->
  find (fun u => Nat.eqb (user_id u) receiverId) (users (ledger st)) = Some receiver ->
  existsb (fun m => String.eqb (msg_messageId m) ("msg_" ++ stamp ++ "_" ++ rnd))
    (messages st) = false ->
  user_role sender = USER ->
  WalletService.getBalance senderId (ledger st) = (inr senderBalance, ledger st) ->
  10000 <= senderBalance ->
  find (WalletService.wallet_of senderId USER_WALLET) (accounts (ledger st)) = Some payer ->
  find (WalletService.wallet_of receiverId USER_WALLET) (accounts (ledger st))
  = Some payee ->
  find (WalletService.of_type REVENUE) (accounts (ledger st)) = Some revenue ->
  10000 <= balance payer ->
  key_unused ("msg_" ++ payStamp ++ "_" ++ payRnd) (ledger st) ->
  exists row st',
    ChatService.sendMessage now stamp rnd payStamp payRnd senderId receiverId content st
    = (inr (row, true), st')
    /\ messages st' = messages st ++ [row]
    /\ accounts (ledger st')
       = update_balance (acc_id revenue) (increment 1000)
           (update_balance (acc_id payee) (increment 9000)
              (update_balance (acc_id payer) (decrement 10000) (accounts (ledger st))))
    /\ List.length (transactions (ledger st')) = S (List.length (transactions (ledger st)))
    /\ List.length (entries (ledger st')) = (3 + List.length (entries (ledger st)))%nat.
Proof.
  intros Hs Hr Hf Hrole Hbal Hle Hp Hq Hv Hpb Hkey.
  pose proof (processMessagePayment_run payStamp payRnd (exec fresh_id (ledger st))
                senderId receiverId 10000 payer payee revenue Hp Hq Hv Hpb Hkey) as Hpay.
  unfold run in Hpay. do 2 eexists.
  split; [apply (sendMessage_charged now stamp rnd payStamp payRnd senderId receiverId
                   content st sender receiver senderBalance (inr tt) _
                   Hs Hr Hf Hrole Hbal Hle Hpay)|].
  cbn [ledger messages accounts transactions entries exec fresh_id snd].
  rewrite Math_floor_times_0_9_div.
  change (9 * 10000 / 10) with 9000. change (10000 - 9000) with 1000.
  repeat split.
  - rewrite length_app. cbn. lia.
  - rewrite length_app. cbn. lia.
Qed.

Lemma paid_message_witness :
  exists row st',
    ChatService.sendMessage 1752163200000 "1752163200000" "k3x9q" "1752163200002" "p7m2c"
      1%nat 5%nat "hello" chat_db
    = (inr (row, true), st')
    /\ messages st' = messages chat_db ++ [row]
    /\ accounts (ledger st')
       = update_balance 0%nat (increment 1000)
           (update_balance 6%nat (increment 9000)
              (update_balance 2%nat (decrement 10000) (accounts (ledger chat_db))))
    /\ List.length (transactions (ledger st'))
       = S (List.length (transactions (ledger chat_db)))
    /\ List.length (entries (ledger st')) = (3 + List.length (entries (ledger chat_db)))%nat.
Proof.
  apply (paid_message 1752163200000 "1752163200000" "k3x9q" "1752163200002" "p7m2c"
           1%nat 5%nat "hello" chat_db
           (mkUser 1%nat "a@x.io" "alice" USER "alice")
           (mkUser 5%nat "c@x.io" "carol" USER "carol") 10000
           (mkAccount 2%nat (Some 1%nat) USER_WALLET 10000)
           (mkAccount 6%nat (Some 5%nat) USER_WALLET 10000)
           (mkAccount 0%nat None REVENUE 0));
    vm_compute; first [reflexivity | discriminate].
Defined.

Lemma getMessages_run (now : Z) (userId partnerId : Id) (limit : nat) (st : AppDb) :
  let conversation := filter (ChatService.between now userId partnerId) (messages st) in
  ChatService.getMessages now userId partnerId limit st
  = (inr (map (ChatService.own_view userId)
            (skipn (List.length conversation - limit) conversation)), st).
Proof.
  intros conversation. unfold ChatService.getMessages. fold conversation. cbv zeta.
  rewrite firstn_rev, rev_involutive. reflexivity.
Qed.

(** X19.  Reading a conversation changes nothing and returns the
    newest [limit] unexpired messages between the two users, oldest first,
    each with its isOwn flag: min(limit, n) rows when n such messages
    exist. *)
Theorem getMessages_newest_in_order (now : Z) (userId partnerId : Id) (limit : nat)
    (st : AppDb) :
  let conversation := filter (ChatService.between now userId partnerId) (messages st) in
  ChatService.getMessages now userId partnerId limit st
  = (inr (map (ChatService.own_view userId)
            (skipn (List.length conversation - limit) conversation)), st)
  /\ List.length (skipn (List.length conversation - limit) conversation)
     = Nat.min limit (List.length conversation).
Proof.
  intros conversation. split.
  - apply getMessages_run.
  - rewrite length_skipn. lia.
Qed.

Lemma between_sym now u p m :
  ChatService.between now u p m = ChatService.between now p u m.
Proof. unfold ChatService.between. f_equal. apply orb_comm. Qed.

(** X20.  Both sides of a conversation read the same messages
    in the same order, with opposite isOwn flags. *)
Theorem getMessages_same_for_both (now : Z) (userId partnerId : Id) (limit : nat)
    (st : AppDb) (mine theirs : list (ChatMessage * bool)) :
  userId <> partnerId ->
  ChatService.getMessages now userId partnerId limit st = (inr mine, st) ->
  ChatService.getMessages now partnerId userId limit st = (inr theirs, st) ->
  map fst theirs = map fst mine
  /\ map snd theirs = map negb (map snd mine).
Proof.
  intros Hneq Hm Ht.
  pose proof (getMessages_run now userId partnerId limit st) as E1.
  pose proof (getMessages_run now partnerId userId limit st) as E2.
  cbv zeta in E1, E2. rewrite E1 in Hm. rewrite E2 in Ht.
  rewrite (filter_ext _ _ (between_sym now partnerId userId)) in Ht.
  injection Hm as <-. injection Ht as <-.
  set (l := filter (ChatService.between now userId partnerId) (messages st)).
  assert (Hl : forall m, In m (skipn (List.length l - limit) l) ->
                         ChatService.between now userId partnerId m = true).
  { intros m Hin. assert (Hin' : In m l).
    { rewrite <- (firstn_skipn (List.length l - limit) l). apply in_or_app. right.
      exact Hin. }
    apply filter_In in Hin'. apply Hin'. }
  split.
  - rewrite !map_map. reflexivity.
  - rewrite !map_map. apply map_ext_in. intros m Hin. cbn.
    specialize (Hl m Hin). unfold ChatService.between in Hl.
    apply andb_true_iff in Hl. destruct Hl as [Hl _].
    destruct (Nat.eqb_spec (msg_senderId m) userId) as [E|N];
      destruct (Nat.eqb_spec (msg_senderId m) partnerId) as [E'|N']; cbn in *;
      try reflexivity; congruence.
Qed.

Lemma getMessages_same_for_both_witness :
  map fst (map (ChatService.own_view 5%nat) (messages alice_wrote_db))
  = map fst (map (ChatService.own_view 1%nat) (messages alice_wrote_db))
  /\ map snd (map (ChatService.own_view 5%nat) (messages alice_wrote_db))
     = map negb (map snd (map (ChatService.own_view 1%nat) (messages alice_wrote_db))).
Proof.
  apply (getMessages_same_for_both 1752163300000 1%nat 5%nat 50 alice_wrote_db).
  - discriminate.
  - vm_compute. reflexivity.
  - vm_compute. reflexivity.
Defined.

Lemma sendMessage_appends (now : Z) (stamp rnd payStamp payRnd : string)
    (senderId receiverId : Id) (content : string) (st st' : AppDb) (row : ChatMessage)
    (charged : bool) :
  ChatService.sendMessage now stamp rnd payStamp payRnd senderId receiverId content st
  = (inr (row, charged), st') ->
  messages st' = messages st ++ [row]
  /\ msg_senderId row = senderId
  /\ msg_receiverId row = receiverId
  /\ (charged = false -> accounts (ledger st') = accounts (ledger st)).
Proof.
  unfold ChatService.sendMessage, app_bind, user_findUnique.
  destruct (find _ (users (ledger st))) as [sender|]; [|discriminate].
  destruct (find _ (users (ledger st))) as [receiver|]; [|discriminate].
  destruct (user_role sender); cbn [UserRole_eqb].
  - unfold lift at 1.
    destruct (WalletService.getBalance senderId (ledger st)) as [[e|senderBalance] s1];
      [discriminate|].
    destruct (senderBalance <? 10000); [discriminate|]. cbn [app_ret].
    unfold message_create. cbn [messages].
    destruct (existsb _ (messages st)); [discriminate|].
    unfold app_bind, lift, fresh_id. cbn [ledger messages calls].
    destruct (WalletService.processMessagePayment _ _ _ _ _ _) as [[e|[]] s2];
      [discriminate|].
    unfold app_ret. intros [= <- <- <-]. cbn [messages]. repeat split. discriminate.
  - cbn [app_ret]. unfold message_create.
    destruct (existsb _ (messages st)); [discriminate|].
    unfold app_bind, lift, fresh_id, app_ret. cbn [ledger messages calls].
    intros [= <- <- <-]. repeat split.
Qed.

Lemma count_where_snoc (p : ChatMessage -> bool) (st st' : AppDb) (row : ChatMessage) :
  messages st' = messages st ++ [row] ->
  ChatService.count_where p st'
  = (ChatService.count_where p st + if p row then 1 else 0)%nat.
Proof.
  intros E. unfold ChatService.count_where. rewrite E, filter_app, length_app.
  cbn [filter]. destruct (p row); reflexivity.
Qed.

(** X21.  The statistics count every stored message at a list
    price of 100 spent and 90 earned, whether or not the sender was
    charged: a successful send adds one sent message and 100 to the
    sender's totalSpent, one received message and 90 to the receiver's
    totalEarned, also when nothing was charged and no account changed. *)
Theorem chat_stats_count_list_price (now : Z) (stamp rnd payStamp payRnd : string)
    (senderId receiverId : Id) (content : string) (st st' : AppDb) (row : ChatMessage)
    (charged : bool) :
  ChatService.sendMessage now stamp rnd payStamp payRnd senderId receiverId content st
  = (inr (row, charged), st') ->
  senderId <> receiverId ->
  exists sender_before sender_after receiver_before receiver_after,
    ChatService.getChatStats senderId st = (inr sender_before, st)
    /\ ChatService.getChatStats senderId st' = (inr sender_after, st')
    /\ ChatService.getChatStats receiverId st = (inr receiver_before, st)
    /\ ChatService.getChatStats receiverId st' = (inr receiver_after, st')
    /\ (ChatService.sentCount sender_after = S (ChatService.sentCount sender_before)
        /\ ChatService.totalSpent sender_after
           = ChatService.totalSpent sender_before + 100
        /\ ChatService.totalEarned sender_after = ChatService.totalEarned sender_before
        /\ ChatService.receivedCount receiver_after
           = S (ChatService.receivedCount receiver_before)
        /\ ChatService.totalEarned receiver_after
           = ChatService.totalEarned receiver_before + 90
        /\ ChatService.totalSpent receiver_after
           = ChatService.totalSpent receiver_before)%nat
    /\ (charged = false -> accounts (ledger st') = accounts (ledger st)).
Proof.
  intros Hsend Hneq.
  destruct (sendMessage_appends _ _ _ _ _ _ _ _ _ _ _ _ Hsend) as (Hm & Hs & Hr & Hfree).
  do 4 eexists. do 4 (split; [reflexivity|]). split; [|exact Hfree].
  cbn [ChatService.sentCount ChatService.receivedCount ChatService.totalSpent
       ChatService.totalEarned].
  rewrite !(count_where_snoc _ st st' row Hm). rewrite Hs, Hr, !Nat.eqb_refl.
  assert (E1 : Nat.eqb receiverId senderId = false) by (apply Nat.eqb_neq; congruence).
  assert (E2 : Nat.eqb senderId receiverId = false) by (apply Nat.eqb_neq; congruence).
  rewrite E1, E2. lia.
Qed.

Lemma chat_stats_count_list_price_witness :
  exists sender_before sender_after receiver_before receiver_after,
    ChatService.getChatStats 3%nat chat_db = (inr sender_before, chat_db)
    /\ ChatService.getChatStats 3%nat
         (snd (ChatService.sendMessage 1752163200000 "1752163200000" "k3x9q"
                 "1752163200002" "p7m2c" 3%nat 1%nat "hi alice" chat_db))
       = (inr sender_after,
          snd (ChatService.sendMessage 1752163200000 "1752163200000" "k3x9q"
                 "1752163200002" "p7m2c" 3%nat 1%nat "hi alice" chat_db))
    /\ ChatService.getChatStats 1%nat chat_db = (inr receiver_before, chat_db)
    /\ ChatService.getChatStats 1%nat
         (snd (ChatService.sendMessage 1752163200000 "1752163200000" "k3x9q"
                 "1752163200002" "p7m2c" 3%nat 1%nat "hi alice" chat_db))
       = (inr receiver_after,
          snd (ChatService.sendMessage 1752163200000 "1752163200000" "k3x9q"
                 "1752163200002" "p7m2c" 3%nat 1%nat "hi alice" chat_db))
    /\ (ChatService.sentCount sender_after = S (ChatService.sentCount sender_before)
        /\ ChatService.totalSpent sender_after
           = ChatService.totalSpent sender_before + 100
        /\ ChatService.totalEarned sender_after = ChatService.totalEarned sender_before
        /\ ChatService.receivedCount receiver_after
           = S (ChatService.receivedCount receiver_before)
        /\ ChatService.totalEarned receiver_after
           = ChatService.totalEarned receiver_before + 90
        /\ ChatService.totalSpent receiver_after
           = ChatService.totalSpent receiver_before)%nat
    /\ (false = false ->
        accounts (ledger (snd (ChatService.sendMessage 1752163200000 "1752163200000"
                                 "k3x9q" "1752163200002" "p7m2c" 3%nat 1%nat "hi alice"
                                 chat_db)))
        = accounts (ledger chat_db)).
Proof.
  apply (chat_stats_count_list_price 1752163200000 "1752163200000" "k3x9q"
           "1752163200002" "p7m2c" 3%nat 1%nat "hi alice" chat_db _
           (mkChatMessage 7%nat 3%nat 1%nat "hi alice" "msg_1752163200000_k3x9q"
              1752768000000) false).
  - vm_compute. reflexivity.
  - discriminate.
Defined.

Lemma partners_record_message pid m convs :
  map ChatService.partnerId (ChatService.record_message pid m convs)
  = if existsb (fun c => Nat.eqb (ChatService.partnerId c) pid) convs
    then map ChatService.partnerId convs
    else map ChatService.partnerId convs ++ [pid].
Proof.
  induction convs as [|c convs IH]; cbn; [reflexivity|].
  destruct (Nat.eqb_spec (ChatService.partnerId c) pid) as [E|N]; cbn.
  - rewrite E. reflexivity.
  - rewrite IH. destruct (existsb _ convs); reflexivity.
Qed.

Lemma conversation_with_record_message pid' pid m convs :
  conversation_with pid' (ChatService.record_message pid m convs)
  = if Nat.eqb pid' pid
    then Some (match conversation_with pid convs with
               | Some c =>
                 ChatService.mkConversation pid
                   (if Nat.ltb (msg_id (ChatService.lastMessage c)) (msg_id m)
                    then m else ChatService.lastMessage c)
                   (S (ChatService.messageCount c))
               | None => ChatService.mkConversation pid m 1
               end)
    else conversation_with pid' convs.
Proof.
  unfold conversation_with.
  induction convs as [|c convs IH]; cbn.
  - rewrite (Nat.eqb_sym pid pid'). destruct (Nat.eqb pid' pid); reflexivity.
  - destruct (Nat.eqb_spec (ChatService.partnerId c) pid) as [E|N]; cbn.
    + rewrite (Nat.eqb_sym pid pid').
      destruct (Nat.eqb_spec pid' pid) as [E'|N']; [reflexivity|].
      destruct (Nat.eqb_spec (ChatService.partnerId c) pid'); [congruence|reflexivity].
    + destruct (Nat.eqb_spec (ChatService.partnerId c) pid') as [E'|N'].
      * destruct (Nat.eqb_spec pid' pid); [congruence|reflexivity].
      * exact IH.
Qed.

Lemma grouped_step userId seen convs m :
  grouped userId seen convs ->
  grouped userId (seen ++ [m])
    (ChatService.record_message (ChatService.partner_of userId m) m convs).
Proof.
  intros [Hnd Hall]. set (pid := ChatService.partner_of userId m).
  split.
  - rewrite partners_record_message.
    destruct (existsb _ convs) eqn:Hex; [exact Hnd|].
    apply NoDup_app; [exact Hnd | repeat constructor; intros [] |].
    intros a Ha [<-|[]].
    apply in_map_iff in Ha. destruct Ha as (c & Ec & Hc).
    assert (existsb (fun c => Nat.eqb (ChatService.partnerId c) pid) convs = true).
    { apply existsb_exists. exists c. split; [exact Hc|]. apply Nat.eqb_eq. exact Ec. }
    congruence.
  - intros pid'. rewrite conversation_with_record_message.
    unfold with_partner in *. rewrite filter_app. cbn [filter]. fold pid.
    rewrite (Nat.eqb_sym pid pid').
    destruct (Nat.eqb_spec pid' pid) as [->|N].
    + specialize (Hall pid). destruct (conversation_with pid convs) as [c|].
      * destruct Hall as (Hp & Hc & Hin & Hmax).
        cbn [ChatService.partnerId ChatService.messageCount ChatService.lastMessage].
        split; [reflexivity|]. split; [rewrite length_app, Hc; cbn; lia|].
        destruct (Nat.ltb_spec (msg_id (ChatService.lastMessage c)) (msg_id m)).
        -- split; [apply in_or_app; right; left; reflexivity|].
           intros x Hx. apply in_app_or in Hx. destruct Hx as [Hx|[<-|[]]]; [|lia].
           specialize (Hmax x Hx). lia.
        -- split; [apply in_or_app; left; exact Hin|].
           intros x Hx. apply in_app_or in Hx. destruct Hx as [Hx|[<-|[]]]; [|lia].
           apply Hmax. exact Hx.
      * rewrite Hall.
        cbn [ChatService.partnerId ChatService.messageCount ChatService.lastMessage app
             List.length].
        split; [reflexivity|]. split; [reflexivity|].
        split; [left; reflexivity|]. intros x [<-|[]]. lia.
    + specialize (Hall pid'). rewrite app_nil_r. exact Hall.
Qed.

Lemma grouped_fold userId l seen convs :
  grouped userId seen convs ->
  grouped userId (seen ++ l)
    (fold_left (fun conversationMap m =>
       ChatService.record_message (ChatService.partner_of userId m) m conversationMap) l convs).
Proof.
  revert seen convs. induction l as [|m l IH]; intros seen convs H; cbn.
  - rewrite app_nil_r. exact H.
  - replace (seen ++ m :: l) with ((seen ++ [m]) ++ l) by (rewrite <- app_assoc; reflexivity).
    apply IH, grouped_step, H.
Qed.

Lemma conversation_with_member convs c :
  NoDup (map ChatService.partnerId convs) -> In c convs ->
  conversation_with (ChatService.partnerId c) convs = Some c.
Proof.
  unfold conversation_with. induction convs as [|d convs IH]; cbn; intros Hnd Hin;
    [contradiction|].
  inversion Hnd as [|? ? Hnotin Hnd']; subst.
  destruct Hin as [->|Hin]; [rewrite Nat.eqb_refl; reflexivity|].
  destruct (Nat.eqb_spec (ChatService.partnerId d) (ChatService.partnerId c)) as [E|_];
    [|apply IH; assumption].
  exfalso. apply Hnotin. rewrite E. apply in_map. exact Hin.
Qed.

(** X22.  The list of conversations changes nothing and holds
    exactly one conversation per partner the user has an unexpired message
    with; its messageCount is the number of those messages and its
    lastMessage is the latest of them. *)
Theorem getConversations_groups_by_partner (now : Z) (userId : Id) (st : AppDb) :
  let relevant := filter (ChatService.involving now userId) (messages st) in
  let of_partner pid :=
    filter (fun m => Nat.eqb (ChatService.partner_of userId m) pid) relevant in
  exists convs,
    ChatService.getConversations now userId st = (inr convs, st)
    /\ NoDup (map ChatService.partnerId convs)
    /\ (forall m, In m relevant ->
          In (ChatService.partner_of userId m) (map ChatService.partnerId convs))
    /\ forall c, In c convs ->
         ChatService.messageCount c = List.length (of_partner (ChatService.partnerId c))
         /\ In (ChatService.lastMessage c) (of_partner (ChatService.partnerId c))
         /\ forall m, In m (of_partner (ChatService.partnerId c)) ->
                      (msg_id m <= msg_id (ChatService.lastMessage c))%nat.
Proof.
  intros relevant of_partner.
  eexists. split; [reflexivity|]. fold relevant.
  assert (G : grouped userId (rev relevant)
                (fold_left (fun conversationMap m =>
                   ChatService.record_message (ChatService.partner_of userId m) m conversationMap)
                   (rev relevant) [])).
  { apply (grouped_fold userId (rev relevant) [] []). split; [constructor|].
    intros pid. reflexivity. }
  destruct G as [Hnd Hall].
  assert (Hrev : forall pid x, In x (with_partner userId pid (rev relevant)) <-> In x (of_partner pid)).
  { intros pid x. unfold with_partner, of_partner. rewrite !filter_In, <- in_rev.
    reflexivity. }
  assert (Hlen : forall pid, List.length (with_partner userId pid (rev relevant))
                             = List.length (of_partner pid)).
  { intros pid. unfold with_partner, of_partner.
    clear. induction relevant as [|a l IH]; [reflexivity|]. cbn [rev].
    rewrite filter_app, length_app. cbn [filter].
    destruct (Nat.eqb (ChatService.partner_of userId a) pid); cbn; rewrite IH; lia. }
  split; [exact Hnd|]. split.
  - intros m Hm. specialize (Hall (ChatService.partner_of userId m)).
    destruct (conversation_with _ _) as [c|] eqn:Hc.
    + destruct Hall as (Hp & _). apply find_some in Hc. destruct Hc as [Hin _].
      rewrite <- Hp. apply in_map. exact Hin.
    + exfalso. assert (Hin : In m (with_partner userId (ChatService.partner_of userId m)
                                     (rev relevant))).
      { apply Hrev. unfold of_partner. apply filter_In. split; [exact Hm|].
        apply Nat.eqb_refl. }
      rewrite Hall in Hin. exact Hin.
  - intros c Hc. specialize (Hall (ChatService.partnerId c)).
    rewrite (conversation_with_member _ _ Hnd Hc) in Hall.
    destruct Hall as (_ & Hcount & Hin & Hmax).
    split; [rewrite Hcount; apply Hlen|]. split; [apply Hrev; exact Hin|].
    intros m Hm. apply Hmax. apply Hrev. exact Hm.
Qed.

(** * Properties of the call service *)

Lemma find_call_update (i : Id) (f : Call -> Call) (l : list Call) :
  (forall c, call_id (f c) = call_id c) ->
  find (fun c => Nat.eqb (call_id c) i)
       (map (fun c => if Nat.eqb (call_id c) i then f c else c) l)
  = option_map f (find (fun c => Nat.eqb (call_id c) i) l).
Proof.
  intros Hf. induction l as [|a l IH]; [reflexivity|]. cbn [map find].
  destruct (Nat.eqb (call_id a) i) eqn:E.
  - rewrite Hf, E. reflexivity.
  - rewrite E. exact IH.
Qed.

Lemma map_call_update {B} (g : Call -> B) (i : Id) (f : Call -> Call) (l : list Call) :
  (forall c, g (f c) = g c) ->
  map g (map (fun c => if Nat.eqb (call_id c) i then f c else c) l) = map g l.
Proof.
  intros Hg. rewrite map_map. apply map_ext. intros c.
  destruct (Nat.eqb (call_id c) i); [apply Hg|reflexivity].
Qed.

Lemma found_call_is_the_one (i : Id) (l : list Call) (call c : Call) :
  NoDup (map call_id l) ->
  find (fun c => Nat.eqb (call_id c) i) l = Some call ->
  In c l -> call_id c = i -> c = call.
Proof.
  intros Hnd Hfind Hin Hid. induction l as [|a l IH]; [destruct Hin|].
  cbn [map] in Hnd. inversion Hnd as [|? ? Hna Hnd']; subst.
  cbn [find] in Hfind. destruct (Nat.eqb_spec (call_id a) (call_id c)) as [E|E].
  - injection Hfind as <-. destruct Hin as [->|Hin]; [reflexivity|].
    exfalso. apply Hna. rewrite E. apply in_map, Hin.
  - destruct Hin as [->|Hin]; [contradiction|]. exact (IH Hnd' Hfind Hin).
Qed.

Lemma calls_well_formed_update (i : Id) (f : Call -> Call) (st : AppDb) (call : Call) :
  calls_well_formed st ->
  find (fun c => Nat.eqb (call_id c) i) (calls st) = Some call ->
  (forall c, call_id (f c) = call_id c) ->
  (forall c, call_channelName (f c) = call_channelName c) ->
  (call_consistent call -> call_consistent (f call)) ->
  calls_well_formed (snd (CallService.call_update i f st)).
Proof.
  intros (Hid & Hch & Hlt & Hco) Hfind Hfi Hfc Hf.
  unfold calls_well_formed, calls_unique, CallService.call_update. cbn [snd calls ledger].
  rewrite (map_call_update call_id), (map_call_update call_channelName) by assumption.
  repeat split; try assumption.
  - rewrite Forall_forall in *. intros c Hin. apply in_map_iff in Hin.
    destruct Hin as (c0 & <- & Hin). specialize (Hlt c0 Hin).
    destruct (Nat.eqb (call_id c0) i); [rewrite Hfi|]; exact Hlt.
  - rewrite Forall_forall in *. intros c Hin. apply in_map_iff in Hin.
    destruct Hin as (c0 & <- & Hin).
    destruct (Nat.eqb_spec (call_id c0) i) as [E|E]; [|exact (Hco c0 Hin)].
    rewrite (found_call_is_the_one i (calls st) call c0 Hid Hfind Hin E).
    apply Hf, Hco. apply (find_some _ _ Hfind).
Qed.

(** X23.  The call table stays well formed under every request
    of the call service, whether it succeeds or throws: call ids and
    channel names stay unique, and every call keeps the fields that go with
    its status (not connected and not ended while INITIATED, connected
    while CONNECTED, a duration, an end and a terminator once ENDED) with
    an estimated cost of 0 and an actual cost of 0 once ended. *)
Theorem calls_stay_well_formed (st : AppDb) :
  calls_well_formed st ->
  (forall stamp rnd token initiatorId receiverId type estimatedDuration,
      calls_well_formed
        (snd (CallService.initiateCall stamp rnd token initiatorId receiverId type
                estimatedDuration st)))
  /\ (forall now callId userId,
         calls_well_formed (snd (CallService.startCall now callId userId st))
         /\ calls_well_formed (snd (CallService.endCall now callId userId st))
         /\ calls_well_formed (snd (CallService.cancelCall now callId userId st))).
Proof.
  intros Hwf. split.
  - intros stamp rnd token initiatorId receiverId type estimatedDuration.
    unfold CallService.initiateCall, app_bind, user_findUnique. cbv zeta.
    destruct (find _ (users (ledger st))); [|exact Hwf].
    destruct (find _ (users (ledger st))); [|exact Hwf].
    unfold CallService.call_create.
    destruct (existsb _ (calls st)) eqn:Hch; [exact Hwf|].
    unfold app_bind, lift, fresh_id. cbn [ledger messages calls fst snd].
    assert (Hnew : calls_well_formed
              (mkAppDb (mkDb (users (ledger st)) (accounts (ledger st))
                          (transactions (ledger st)) (entries (ledger st))
                          (S (next_id (ledger st))))
                 (messages st)
                 (calls st ++
                  [mkCall (next_id (ledger st)) ("call_" ++ stamp ++ "_" ++ rnd)
                     initiatorId receiverId type CallStatus.INITIATED
                     (match estimatedDuration with Some d => d | None => 5 end) 0
                     None None None None None None None]))).
    { destruct Hwf as (Hid & Hcn & Hlt & Hco).
      unfold calls_well_formed, calls_unique in *. cbn [calls ledger next_id].
      rewrite !map_app. cbn [map call_id call_channelName].
      repeat split.
      - apply NoDup_snoc; [exact Hid|]. intros Hin. apply in_map_iff in Hin.
        destruct Hin as (c & E & Hin). rewrite Forall_forall in Hlt.
        specialize (Hlt c Hin). lia.
      - apply NoDup_snoc; [exact Hcn|]. intros Hin. apply in_map_iff in Hin.
        destruct Hin as (c & E & Hin).
        rewrite <- not_true_iff_false in Hch. apply Hch. apply existsb_exists.
        exists c. split; [exact Hin|]. rewrite E. apply String.eqb_refl.
      - apply Forall_app. split.
        + eapply Forall_impl; [|exact Hlt]. cbn. intros c Hc. lia.
        + repeat constructor.
      - apply Forall_app. split; [exact Hco|]. repeat constructor. }
    destruct token; exact Hnew.
  - intros now callId userId. split; [|split].
    + unfold CallService.startCall, app_bind, CallService.call_findUnique.
      destruct (find _ (calls st)) as [call|] eqn:Hfind; [|exact Hwf].
      destruct (negb (CallStatus.eqb (call_status call) CallStatus.INITIATED)
                && negb (CallStatus.eqb (call_status call) CallStatus.CONNECTED)) eqn:E1;
        [exact Hwf|].
      destruct (negb (Nat.eqb (call_receiverId call) userId)
                && negb (Nat.eqb (call_initiatorId call) userId)); [exact Hwf|].
      destruct (CallStatus.eqb (call_status call) CallStatus.CONNECTED) eqn:E2;
        [exact Hwf|].
      apply (calls_well_formed_update callId _ st call Hwf Hfind); try reflexivity.
      unfold call_consistent. cbn.
      destruct (call_status call); try discriminate.
      intros (H0 & _ & H2). repeat split; [exact H0|discriminate|exact H2].
    + unfold CallService.endCall, app_bind, CallService.call_findUnique.
      destruct (find _ (calls st)) as [call|] eqn:Hfind; [|exact Hwf].
      destruct (negb (Nat.eqb (call_receiverId call) userId)
                && negb (Nat.eqb (call_initiatorId call) userId)); [exact Hwf|].
      destruct (CallStatus.eqb (call_status call) CallStatus.ENDED); [exact Hwf|].
      apply (calls_well_formed_update callId _ st call Hwf Hfind); try reflexivity.
      unfold call_consistent. cbn. intros (H0 & _).
      repeat split; try discriminate. exact H0.
    + unfold CallService.cancelCall, app_bind, CallService.call_findUnique.
      destruct (find _ (calls st)) as [call|] eqn:Hfind; [|exact Hwf].
      destruct (negb (Nat.eqb (call_receiverId call) userId)
                && negb (Nat.eqb (call_initiatorId call) userId)); [exact Hwf|].
      destruct (negb (CallStatus.eqb (call_status call) CallStatus.INITIATED)) eqn:E1;
        [exact Hwf|].
      apply (calls_well_formed_update callId _ st call Hwf Hfind); try reflexivity.
      unfold call_consistent. cbn.
      destruct (call_status call); try discriminate.
      intros (H0 & H1 & _). repeat split; try discriminate; assumption.
Qed.

Lemma calls_stay_well_formed_witness :
  calls_well_formed ringing_db
  /\ calls_well_formed
       (snd (CallService.initiateCall "1752163200000" "r4t8z" None 5%nat 3%nat VOICE
               (Some 10) ringing_db))
  /\ calls_well_formed (snd (CallService.startCall 1752163205000 7%nat 3%nat ringing_db))
  /\ calls_well_formed (snd (CallService.endCall 1752163205000 7%nat 3%nat ringing_db))
  /\ calls_well_formed (snd (CallService.cancelCall 1752163205000 7%nat 3%nat ringing_db)).
Proof.
  assert (H : calls_well_formed ringing_db).
  { unfold calls_well_formed, calls_unique, call_consistent.
    change (calls ringing_db)
      with [mkCall 7%nat "call_1752163200000_r4t8z" 1%nat 3%nat VIDEO CallStatus.INITIATED
              5 0 None None None None None None None].
    change (next_id (ledger ringing_db)) with 8%nat.
    cbn [map call_id call_channelName].
    repeat split; repeat constructor; intros []. }
  split; [exact H|].
  destruct (calls_stay_well_formed ringing_db H) as [I R].
  split; [apply I|]. apply R.
Defined.

Lemma elapsed_seconds_div (now connectedAt : Z) :
  CallService.elapsed_seconds now connectedAt = (now - connectedAt) / 1000.
Proof.
  unfold CallService.elapsed_seconds, Qfloor, Qdiv, Qmult, Qinv, inject_Z; simpl.
  f_equal; lia.
Qed.

Lemma is_participant (call : Call) (userId : Id) :
  call_receiverId call = userId \/ call_initiatorId call = userId ->
  negb (Nat.eqb (call_receiverId call) userId)
  && negb (Nat.eqb (call_initiatorId call) userId) = false.
Proof.
  intros [<-|<-]; rewrite Nat.eqb_refl; cbn; [reflexivity|apply andb_false_r].
Qed.

Lemma is_outsider (call : Call) (userId : Id) :
  call_receiverId call <> userId -> call_initiatorId call <> userId ->
  negb (Nat.eqb (call_receiverId call) userId)
  && negb (Nat.eqb (call_initiatorId call) userId) = true.
Proof.
  intros H1 H2. apply Nat.eqb_neq in H1, H2. rewrite H1, H2. reflexivity.
Qed.

Lemma startCall_initiated (now : Z) (callId userId : Id) (st : AppDb) (call : Call) :
  find (fun c => Nat.eqb (call_id c) callId) (calls st) = Some call ->
  call_status call = CallStatus.INITIATED ->
  call_receiverId call = userId \/ call_initiatorId call = userId ->
  CallService.startCall now callId userId st
  = (inr (CallService.set_connected now call),
     snd (CallService.call_update callId (CallService.set_connected now) st)).
Proof.
  intros Hfind Hst Hp.
  unfold CallService.startCall, app_bind, CallService.call_findUnique.
  rewrite Hfind, Hst, (is_participant call userId Hp). reflexivity.
Qed.

Lemma startCall_connected (now : Z) (callId userId : Id) (st : AppDb) (call : Call) :
  find (fun c => Nat.eqb (call_id c) callId) (calls st) = Some call ->
  call_status call = CallStatus.CONNECTED ->
  call_receiverId call = userId \/ call_initiatorId call = userId ->
  CallService.startCall now callId userId st = (inr call, st).
Proof.
  intros Hfind Hst Hp.
  unfold CallService.startCall, app_bind, CallService.call_findUnique.
  rewrite Hfind, Hst, (is_participant call userId Hp). reflexivity.
Qed.

Lemma endCall_open (now : Z) (callId userId : Id) (st : AppDb) (call : Call) :
  find (fun c => Nat.eqb (call_id c) callId) (calls st) = Some call ->
  call_status call <> CallStatus.ENDED ->
  call_receiverId call = userId \/ call_initiatorId call = userId ->
  let actualDuration :=
    match call_connectedAt call with
    | Some connectedAt => (now - connectedAt) / 1000
    | None => 0
    end in
  CallService.endCall now callId userId st
  = (inr (CallService.set_ended now userId actualDuration call),
     snd (CallService.call_update callId
            (CallService.set_ended now userId actualDuration) st)).
Proof.
  intros Hfind Hst Hp.
  unfold CallService.endCall, app_bind, CallService.call_findUnique.
  rewrite Hfind, (is_participant call userId Hp).
  destruct (call_status call) eqn:E; try contradiction; cbn [CallStatus.eqb];
    destruct (call_connectedAt call); rewrite ?elapsed_seconds_div; reflexivity.
Qed.

(** X24.  An ended call is final: joining, ending and cancelling
    it are all refused, whoever asks, and the store stays as it is. *)
Theorem ended_call_is_final (st : AppDb) (callId : Id) (call : Call) (now : Z)
    (userId : Id) :
  find (fun c => Nat.eqb (call_id c) callId) (calls st) = Some call ->
  call_status call = CallStatus.ENDED ->
  let outsider := negb (Nat.eqb (call_receiverId call) userId)
                  && negb (Nat.eqb (call_initiatorId call) userId) in
  CallService.startCall now callId userId st
  = (inl (BadRequest (Call_cannot_be_started CallStatus.ENDED)), st)
  /\ CallService.endCall now callId userId st
     = (inl (if outsider then Forbidden Unauthorized_to_end_this_call
             else BadRequest Call_has_already_ended), st)
  /\ CallService.cancelCall now callId userId st
     = (inl (if outsider then Forbidden Unauthorized_to_cancel_this_call
             else BadRequest Call_cannot_be_cancelled), st).
Proof.
  intros Hfind Hst outsider. subst outsider.
  unfold CallService.startCall, CallService.endCall, CallService.cancelCall, app_bind,
    CallService.call_findUnique.
  rewrite Hfind, Hst. cbn [CallStatus.eqb negb andb].
  destruct (negb (Nat.eqb (call_receiverId call) userId)
            && negb (Nat.eqb (call_initiatorId call) userId)); repeat split.
Qed.

Lemma ended_call_is_final_witness :
  CallService.startCall 1752163300000 7%nat 3%nat ended_db
  = (inl (BadRequest (Call_cannot_be_started CallStatus.ENDED)), ended_db)
  /\ CallService.endCall 1752163300000 7%nat 3%nat ended_db
     = (inl (BadRequest Call_has_already_ended), ended_db)
  /\ CallService.cancelCall 1752163300000 7%nat 3%nat ended_db
     = (inl (BadRequest Call_cannot_be_cancelled), ended_db).
Proof.
  apply (ended_call_is_final ended_db 7%nat
           (mkCall 7%nat "call_1752163200000_r4t8z" 1%nat 3%nat VIDEO CallStatus.ENDED 5 0
              (Some 1752163205000) (Some 55) (Some 0) (Some 1%nat) None (Some true)
              (Some 1752163260500))
           1752163300000 3%nat); vm_compute; reflexivity.
Defined.

(** X25.  Somebody who is neither the initiator nor the
    receiver of a call can neither join, end nor cancel it: each request is
    refused and the store stays as it is. *)
Theorem outsider_changes_nothing (st : AppDb) (callId : Id) (call : Call) (now : Z)
    (userId : Id) :
  find (fun c => Nat.eqb (call_id c) callId) (calls st) = Some call ->
  call_receiverId call <> userId ->
  call_initiatorId call <> userId ->
  CallService.startCall now callId userId st
  = (inl (match call_status call with
          | CallStatus.INITIATED | CallStatus.CONNECTED =>
            Forbidden Unauthorized_to_start_this_call
          | status => BadRequest (Call_cannot_be_started status)
          end), st)
  /\ CallService.endCall now callId userId st
     = (inl (Forbidden Unauthorized_to_end_this_call), st)
  /\ CallService.cancelCall now callId userId st
     = (inl (Forbidden Unauthorized_to_cancel_this_call), st).
Proof.
  intros Hfind H1 H2.
  unfold CallService.startCall, CallService.endCall, CallService.cancelCall, app_bind,
    CallService.call_findUnique.
  rewrite Hfind, (is_outsider call userId H1 H2).
  destruct (call_status call); repeat split.
Qed.

Lemma outsider_changes_nothing_witness :
  CallService.startCall 1752163205000 7%nat 5%nat ringing_db
  = (inl (Forbidden Unauthorized_to_start_this_call), ringing_db)
  /\ CallService.endCall 1752163205000 7%nat 5%nat ringing_db
     = (inl (Forbidden Unauthorized_to_end_this_call), ringing_db)
  /\ CallService.cancelCall 1752163205000 7%nat 5%nat ringing_db
     = (inl (Forbidden Unauthorized_to_cancel_this_call), ringing_db).
Proof.
  apply (outsider_changes_nothing ringing_db 7%nat
           (mkCall 7%nat "call_1752163200000_r4t8z" 1%nat 3%nat VIDEO CallStatus.INITIATED
              5 0 None None None None None None None)
           1752163205000 5%nat); [vm_compute; reflexivity | discriminate | discriminate].
Defined.

(** X26.  The length of a call counts from the first join.  The
    first participant to start an INITIATED call connects it at that
    moment; a later start by a participant returns the same call and
    changes nothing; when a participant ends it, the recorded duration is
    the whole number of seconds since the first join, the call is completed
    when that is at least one second, and the ledger is untouched. *)
Theorem call_duration_counts_from_first_join (st : AppDb) (callId : Id) (call : Call)
    (first second closer : Id) (t0 t1 t2 : Z) :
  find (fun c => Nat.eqb (call_id c) callId) (calls st) = Some call ->
  call_status call = CallStatus.INITIATED ->
  call_receiverId call = first \/ call_initiatorId call = first ->
  call_receiverId call = second \/ call_initiatorId call = second ->
  call_receiverId call = closer \/ call_initiatorId call = closer ->
  exists joined ended st1 st2,
    CallService.startCall t0 callId first st = (inr joined, st1)
    /\ call_status joined = CallStatus.CONNECTED
    /\ call_connectedAt joined = Some t0
    /\ CallService.startCall t1 callId second st1 = (inr joined, st1)
    /\ CallService.endCall t2 callId closer st1 = (inr ended, st2)
    /\ call_status ended = CallStatus.ENDED
    /\ call_actualDuration ended = Some ((t2 - t0) / 1000)
    /\ call_isCompleted ended = Some (1000 <=? t2 - t0)
    /\ call_terminatedBy ended = Some closer
    /\ find (fun c => Nat.eqb (call_id c) callId) (calls st2) = Some ended
    /\ ledger st2 = ledger st.
Proof.
  intros Hfind Hst Hp0 Hp1 Hp2.
  pose proof (startCall_initiated t0 callId first st call Hfind Hst Hp0) as R0.
  set (st1 := snd (CallService.call_update callId (CallService.set_connected t0) st)) in *.
  assert (Hfind1 : find (fun c => Nat.eqb (call_id c) callId) (calls st1)
                   = Some (CallService.set_connected t0 call)).
  { unfold st1, CallService.call_update. cbn [snd calls].
    rewrite find_call_update by reflexivity. rewrite Hfind. reflexivity. }
  pose proof (startCall_connected t1 callId second st1 _ Hfind1 eq_refl Hp1) as R1.
  pose proof (endCall_open t2 callId closer st1 _ Hfind1 ltac:(discriminate) Hp2) as R2.
  cbn [CallService.set_connected call_connectedAt] in R2. cbv zeta in R2.
  exists (CallService.set_connected t0 call),
    (CallService.set_ended t2 closer ((t2 - t0) / 1000) (CallService.set_connected t0 call)),
    st1, (snd (CallService.call_update callId
                 (CallService.set_ended t2 closer ((t2 - t0) / 1000)) st1)).
  repeat (split; [first [exact R0 | exact R1 | exact R2 | reflexivity]|]).
  split.
  - cbn [CallService.set_ended call_isCompleted]. f_equal.
    pose proof (Z.div_mod (t2 - t0) 1000 ltac:(lia)) as E.
    pose proof (Z.mod_pos_bound (t2 - t0) 1000 ltac:(lia)) as B.
    destruct (Z.ltb_spec 0 ((t2 - t0) / 1000)) as [H|H];
      destruct (Z.leb_spec 1000 (t2 - t0)) as [H'|H']; try reflexivity; lia.
  - repeat split.
    unfold CallService.call_update. cbn [snd calls].
    rewrite find_call_update by reflexivity. rewrite Hfind1. reflexivity.
Qed.

Lemma call_duration_counts_from_first_join_witness :
  exists joined ended st1 st2,
    CallService.startCall 1752163205000 7%nat 3%nat ringing_db = (inr joined, st1)
    /\ call_status joined = CallStatus.CONNECTED
    /\ call_connectedAt joined = Some 1752163205000
    /\ CallService.startCall 1752163207000 7%nat 1%nat st1 = (inr joined, st1)
    /\ CallService.endCall 1752163260500 7%nat 1%nat st1 = (inr ended, st2)
    /\ call_status ended = CallStatus.ENDED
    /\ call_actualDuration ended = Some ((1752163260500 - 1752163205000) / 1000)
    /\ call_isCompleted ended = Some (1000 <=? 1752163260500 - 1752163205000)
    /\ call_terminatedBy ended = Some 1%nat
    /\ find (fun c => Nat.eqb (call_id c) 7%nat) (calls st2) = Some ended
    /\ ledger st2 = ledger ringing_db.
Proof.
  apply (call_duration_counts_from_first_join ringing_db 7%nat
           (mkCall 7%nat "call_1752163200000_r4t8z" 1%nat 3%nat VIDEO CallStatus.INITIATED
              5 0 None None None None None None None)
           3%nat 1%nat 1%nat 1752163205000 1752163207000 1752163260500);
    [vm_compute; reflexivity | reflexivity | left; reflexivity | right; reflexivity
     | right; reflexivity].
Defined.

(** X27.  When the token cannot be built, the request to
    initiate a call fails, yet the call record created just before stays in
    the table as INITIATED: it is an active call of both parties, and the
    one reported to an initiator who had no active call. *)
Theorem failed_token_leaves_call_behind (st : AppDb) (stamp rnd : string)
    (initiatorId receiverId : Id) (type : CallType) (estimatedDuration : option Z)
    (initiator receiver : User) :
  find (fun u => Nat.eqb (user_id u) initiatorId) (users (ledger st)) = Some initiator ->
  find (fun u => Nat.eqb (user_id u) receiverId) (users (ledger st)) = Some receiver ->
  existsb (fun c => String.eqb (call_channelName c) ("call_" ++ stamp ++ "_" ++ rnd))
    (calls st) = false ->
  exists row st',
    CallService.initiateCall stamp rnd None initiatorId receiverId type estimatedDuration st
    = (inl (BadRequest Failed_to_generate_RTC_token), st')
    /\ calls st' = calls st ++ [row]
    /\ call_status row = CallStatus.INITIATED
    /\ (call_initiatorId row, call_receiverId row) = (initiatorId, receiverId)
    /\ CallService.active_for initiatorId row = true
    /\ CallService.active_for receiverId row = true
    /\ (find (CallService.active_for initiatorId) (calls st) = None ->
        CallService.getActiveCall initiatorId st'
        = (inr (Some (row, Nat.eqb receiverId initiatorId)), st')).
Proof.
  intros Hi Hr Hch.
  unfold CallService.initiateCall, app_bind, user_findUnique. cbv zeta.
  rewrite Hi, Hr. unfold CallService.call_create. rewrite Hch.
  unfold app_bind, lift, fresh_id, app_throw. cbn [ledger messages calls fst snd].
  do 2 eexists. split; [reflexivity|]. cbn [calls].
  split; [reflexivity|]. split; [reflexivity|]. split; [reflexivity|].
  assert (A1 : forall x y, CallService.active_for x
             (mkCall (next_id (ledger st)) ("call_" ++ stamp ++ "_" ++ rnd) x y type
                CallStatus.INITIATED
                (match estimatedDuration with Some d => d | None => 5 end)
                0 None None None None None None None) = true).
  { intros x y. unfold CallService.active_for. cbn. rewrite Nat.eqb_refl. reflexivity. }
  assert (A2 : forall x y, CallService.active_for y
             (mkCall (next_id (ledger st)) ("call_" ++ stamp ++ "_" ++ rnd) x y type
                CallStatus.INITIATED
                (match estimatedDuration with Some d => d | None => 5 end)
                0 None None None None None None None) = true).
  { intros x y. unfold CallService.active_for. cbn. rewrite Nat.eqb_refl.
    rewrite orb_true_r. reflexivity. }
  split; [apply A1|]. split; [apply A2|].
  intros Hnone. unfold CallService.getActiveCall. cbn [calls].
  rewrite find_snoc, Hnone. cbn [find]. rewrite A1. reflexivity.
Qed.

Lemma failed_token_leaves_call_behind_witness :
  exists row st',
    CallService.initiateCall "1752163200000" "r4t8z" None 1%nat 3%nat VIDEO None chat_db
    = (inl (BadRequest Failed_to_generate_RTC_token), st')
    /\ calls st' = calls chat_db ++ [row]
    /\ call_status row = CallStatus.INITIATED
    /\ (call_initiatorId row, call_receiverId row) = (1%nat, 3%nat)
    /\ CallService.active_for 1%nat row = true
    /\ CallService.active_for 3%nat row = true
    /\ (find (CallService.active_for 1%nat) (calls chat_db) = None ->
        CallService.getActiveCall 1%nat st'
        = (inr (Some (row, Nat.eqb 3%nat 1%nat)), st')).
Proof.
  apply (failed_token_leaves_call_behind chat_db "1752163200000" "r4t8z" 1%nat 3%nat VIDEO
           None (mkUser 1%nat "a@x.io" "alice" USER "alice")
           (mkUser 3%nat "b@x.io" "bob" INFLUENCER "bob"));
    vm_compute; reflexivity.
Defined.

(** X28.  Cancelling is for calls nobody has joined.  A
    participant who cancels an INITIATED call leaves it FAILED with reason
    CANCELLED; from then on nobody can join it and it cannot be cancelled
    again, but a participant can still end it, which turns it into an ENDED
    call of 0 seconds that is not completed. *)
Theorem cancelled_call_lifecycle (st : AppDb) (callId : Id) (call : Call) (now : Z)
    (userId : Id) :
  find (fun c => Nat.eqb (call_id c) callId) (calls st) = Some call ->
  call_status call = CallStatus.INITIATED ->
  call_connectedAt call = None ->
  call_receiverId call = userId \/ call_initiatorId call = userId ->
  exists cancelled st1,
    CallService.cancelCall now callId userId st = (inr cancelled, st1)
    /\ call_status cancelled = CallStatus.FAILED
    /\ call_terminationReason cancelled = Some "CANCELLED"%string
    /\ call_terminatedBy cancelled = Some userId
    /\ find (fun c => Nat.eqb (call_id c) callId) (calls st1) = Some cancelled
    /\ (forall later who,
           CallService.startCall later callId who st1
           = (inl (BadRequest (Call_cannot_be_started CallStatus.FAILED)), st1))
    /\ (forall later who,
           call_receiverId call = who \/ call_initiatorId call = who ->
           CallService.cancelCall later callId who st1
           = (inl (BadRequest Call_cannot_be_cancelled), st1)
           /\ exists ended st2,
               CallService.endCall later callId who st1 = (inr ended, st2)
               /\ call_status ended = CallStatus.ENDED
               /\ call_actualDuration ended = Some 0
               /\ call_isCompleted ended = Some false
               /\ call_terminatedBy ended = Some who
               /\ call_terminationReason ended = Some "CANCELLED"%string).
Proof.
  intros Hfind Hst Hnc Hp.
  exists (CallService.set_cancelled now userId call),
    (snd (CallService.call_update callId (CallService.set_cancelled now userId) st)).
  assert (Hfind1 : find (fun c => Nat.eqb (call_id c) callId)
                     (calls (snd (CallService.call_update callId
                                    (CallService.set_cancelled now userId) st)))
                   = Some (CallService.set_cancelled now userId call)).
  { unfold CallService.call_update. cbn [snd calls].
    rewrite find_call_update by reflexivity. rewrite Hfind. reflexivity. }
  split.
  { unfold CallService.cancelCall, app_bind, CallService.call_findUnique.
    rewrite Hfind, Hst, (is_participant call userId Hp). reflexivity. }
  repeat (split; [first [exact Hfind1 | reflexivity]|]).
  split.
  - intros later who.
    unfold CallService.startCall, app_bind, CallService.call_findUnique.
    rewrite Hfind1. reflexivity.
  - intros later who Hw. split.
    + unfold CallService.cancelCall, app_bind, CallService.call_findUnique.
      rewrite Hfind1. cbn [CallService.set_cancelled call_receiverId call_initiatorId].
      rewrite (is_participant call who Hw). reflexivity.
    + pose proof (endCall_open later callId who _ _ Hfind1 ltac:(discriminate) Hw) as R.
      cbn [CallService.set_cancelled call_connectedAt] in R. rewrite Hnc in R.
      cbv zeta in R. do 2 eexists. split; [exact R|]. repeat split.
Qed.

Lemma cancelled_call_lifecycle_witness :
  exists cancelled st1,
    CallService.cancelCall 1752163203000 7%nat 1%nat ringing_db = (inr cancelled, st1)
    /\ call_status cancelled = CallStatus.FAILED
    /\ call_terminationReason cancelled = Some "CANCELLED"%string
    /\ call_terminatedBy cancelled = Some 1%nat
    /\ find (fun c => Nat.eqb (call_id c) 7%nat) (calls st1) = Some cancelled
    /\ (forall later who,
           CallService.startCall later 7%nat who st1
           = (inl (BadRequest (Call_cannot_be_started CallStatus.FAILED)), st1))
    /\ (forall later who,
           3%nat = who \/ 1%nat = who ->
           CallService.cancelCall later 7%nat who st1
           = (inl (BadRequest Call_cannot_be_cancelled), st1)
           /\ exists ended st2,
               CallService.endCall later 7%nat who st1 = (inr ended, st2)
               /\ call_status ended = CallStatus.ENDED
               /\ call_actualDuration ended = Some 0
               /\ call_isCompleted ended = Some false
               /\ call_terminatedBy ended = Some who
               /\ call_terminationReason ended = Some "CANCELLED"%string).
Proof.
  apply (cancelled_call_lifecycle ringing_db 7%nat
           (mkCall 7%nat "call_1752163200000_r4t8z" 1%nat 3%nat VIDEO CallStatus.INITIATED
              5 0 None None None None None None None)
           1752163203000 1%nat);
    [vm_compute; reflexivity | reflexivity | reflexivity | right; reflexivity].
Defined.

(** * Properties of the Agora helpers *)

Lemma ToInt32_range (x : Z) : - 2 ^ 31 <= AgoraService.ToInt32 x < 2 ^ 31.
Proof.
  unfold AgoraService.ToInt32. cbv zeta.
  pose proof (Z.mod_pos_bound x (2 ^ 32) ltac:(lia)) as B.
  destruct (Z.ltb_spec (x mod 2 ^ 32) (2 ^ 31)); lia.
Qed.

Lemma ToInt32_fixed (x : Z) : - 2 ^ 31 <= x < 2 ^ 31 -> AgoraService.ToInt32 x = x.
Proof.
  intros Hx. unfold AgoraService.ToInt32. cbv zeta.
  destruct (Z.le_gt_cases 0 x) as [Hpos|Hneg].
  - rewrite Z.mod_small by lia. destruct (Z.ltb_spec x (2 ^ 31)); lia.
  - replace (x mod 2 ^ 32) with (x + 2 ^ 32).
    + destruct (Z.ltb_spec (x + 2 ^ 32) (2 ^ 31)); lia.
    + apply Z.mod_unique with (q := -1); lia.
Qed.

Lemma ToInt32_mod (x : Z) : AgoraService.ToInt32 x mod 2 ^ 32 = x mod 2 ^ 32.
Proof.
  unfold AgoraService.ToInt32. cbv zeta.
  destruct (Z.ltb_spec (x mod 2 ^ 32) (2 ^ 31)).
  - apply Z.mod_mod. lia.
  - rewrite <- (Z.mod_add _ 1 (2 ^ 32)) by lia.
    replace (x mod 2 ^ 32 - 2 ^ 32 + 1 * 2 ^ 32) with (x mod 2 ^ 32) by lia.
    apply Z.mod_mod. lia.
Qed.

Lemma ToInt32_congr (x y : Z) :
  x mod 2 ^ 32 = y mod 2 ^ 32 -> AgoraService.ToInt32 x = AgoraService.ToInt32 y.
Proof. intros E. unfold AgoraService.ToInt32. rewrite E. reflexivity. Qed.

(** One round of the loop is [31 * hash + char], wrapped to 32 bits. *)
Lemma hash_round_31 (hash char : Z) :
  AgoraService.hash_round hash char = AgoraService.ToInt32 (31 * hash + char).
Proof.
  unfold AgoraService.hash_round. cbv zeta. rewrite Z.land_diag.
  rewrite (ToInt32_fixed (AgoraService.ToInt32 _)) by apply ToInt32_range.
  apply ToInt32_congr.
  rewrite Z.shiftl_mul_pow2 by lia.
  rewrite <- Zplus_mod_idemp_l, <- Zminus_mod_idemp_l, ToInt32_mod.
  rewrite <- Zmult_mod_idemp_l, ToInt32_mod, Zmult_mod_idemp_l.
  rewrite Zminus_mod_idemp_l, Zplus_mod_idemp_l.
  f_equal. lia.
Qed.

Lemma hash_of_range (userId : string) :
  - 2 ^ 31 <= AgoraService.hash_of userId < 2 ^ 31.
Proof.
  unfold AgoraService.hash_of.
  assert (H : forall l h, - 2 ^ 31 <= h < 2 ^ 31 ->
                          - 2 ^ 31 <= fold_left AgoraService.hash_round l h < 2 ^ 31).
  { induction l as [|c l IH]; intros h Hh; [exact Hh|]. cbn [fold_left].
    apply IH. rewrite hash_round_31. apply ToInt32_range. }
  apply H. lia.
Qed.

(** X29.  For a clock reading that is not negative, the numeric
    uid derived from a user id is at least 1 and at most 2147483646,
    whatever the user id. *)
Theorem generateUidFromUserId_range (timestamp : Z) (userId : string) :
  0 <= timestamp ->
  1 <= AgoraService.generateUidFromUserId timestamp userId <= 2147483646.
Proof.
  intros Ht. unfold AgoraService.generateUidFromUserId. cbv zeta.
  pose proof (hash_of_range userId) as Hh.
  pose proof (Z.rem_bound_pos timestamp 10000 Ht ltac:(lia)) as Hs.
  set (combinedHash := Z.abs (AgoraService.hash_of userId) + Z.rem timestamp 10000).
  assert (Hc : 0 <= combinedHash) by (unfold combinedHash; lia).
  pose proof (Z.rem_bound_pos combinedHash 2147483647 Hc ltac:(lia)) as Hr.
  destruct (Z.eqb_spec (Z.rem combinedHash 2147483647) 0); lia.
Qed.

Lemma generateUidFromUserId_range_witness :
  1 <= AgoraService.generateUidFromUserId 1752163204321 "cmcxk3v5u0000" <= 2147483646.
Proof.
  apply generateUidFromUserId_range. lia.
Defined.

Lemma sort2_sym (a b : string) : AgoraService.sort2 a b = AgoraService.sort2 b a.
Proof.
  unfold AgoraService.sort2. pose proof (String.compare_antisym a b) as H.
  destruct (String.compare b a) eqn:E; cbn [CompOpp] in H; rewrite H; try reflexivity.
  apply String.compare_eq_iff in E. subst b. reflexivity.
Qed.

(** X30.  The channel name of two users does not depend on who
    of them is named first. *)
Theorem generateChannelName_symmetric (timestamp userId1 userId2 : string) :
  AgoraService.generateChannelName timestamp userId1 userId2
  = AgoraService.generateChannelName timestamp userId2 userId1.
Proof.
  unfold AgoraService.generateChannelName. rewrite (sort2_sym userId1 userId2).
  reflexivity.
Qed.
